(** * Incubator application filler: a shallow embedding and its properties

    The development follows the three source files:
    - [src/incubator_schemas/project_profile.py]  (profile schema, [from_yaml], [to_dict]);
    - [src/incubator_application.py]              (questions, answer generation, export, import);
    - [incubator_application_filler.py]           (the commands [fill], with its credential
      lookup, [create_template] and [view]).

    Python values are modelled as the code uses them: a [str] is a sequence of
    code points, an [int] is a [Z], [None]-able values are [option]s, the
    documents returned by [yaml.safe_load] and [json.load] are trees.  The
    outside world (the constructors of the language-model libraries, their
    backends, the file system) is an oracle that answers from the history of
    events so far, and what the program does to it is recorded in that
    history.  Logging and the console messages of [fill] and
    [create_template] are diagnostics and are not part of the model; the
    messages of [view], which does nothing else, are. *)

From Stdlib Require Import String Ascii PrimFloat.
From Stdlib Require Import List ZArith NArith Lia Bool.
From Stdlib Require DecimalNat.
Import ListNotations.

(* ================================================================== *)
(** * Python strings *)
(* ================================================================== *)

Module PyStr.

(** A Python [str]: a sequence of Unicode code points. *)
Definition pystr := list N.

(** An ASCII literal of the source, as a Python string. *)
Definition py (s : string) : pystr := map N_of_ascii (list_ascii_of_string s).

(** [len(s)] *)
Definition len (s : pystr) : Z := Z.of_nat (length s).

Fixpoint eqb (s t : pystr) : bool :=
  match s, t with
  | [], [] => true
  | a :: s', b :: t' => N.eqb a b && eqb s' t'
  | _, _ => false
  end.

(** [s.startswith(p)] *)
Fixpoint startswith (s p : pystr) : bool :=
  match p, s with
  | [], _ => true
  | a :: p', b :: s' => N.eqb a b && startswith s' p'
  | _ :: _, [] => false
  end.

(** [s.replace(old, new)] for a one-character [old], the only use in the source. *)
Definition replace_char (old : N) (new : pystr) (s : pystr) : pystr :=
  flat_map (fun c => if N.eqb c old then new else [c]) s.

(** [ch.isspace()]: the code points [str.strip()] removes. *)
Definition is_space (c : N) : bool :=
  ((9 <=? c) && (c <=? 13) || (28 <=? c) && (c <=? 32)
   || (c =? 133) || (c =? 160) || (c =? 5760)
   || (8192 <=? c) && (c <=? 8202)
   || (c =? 8232) || (c =? 8233) || (c =? 8239) || (c =? 8287) || (c =? 12288))%N.

Fixpoint lstrip (s : pystr) : pystr :=
  match s with
  | c :: s' => if is_space c then lstrip s' else s
  | [] => []
  end.

Definition rstrip (s : pystr) : pystr := rev (lstrip (rev s)).

(** [s.strip()] *)
Definition strip (s : pystr) : pystr := rstrip (lstrip s).

(** [s[:n]] for an integer [n], negative values counting from the end. *)
Definition slice_to (s : pystr) (n : Z) : pystr :=
  if (0 <=? n)%Z then firstn (Z.to_nat n) s
  else firstn (Z.to_nat (len s + n)) s.

Fixpoint uint_chars (d : Decimal.uint) : pystr :=
  match d with
  | Decimal.Nil => []
  | Decimal.D0 d => 48%N :: uint_chars d
  | Decimal.D1 d => 49%N :: uint_chars d
  | Decimal.D2 d => 50%N :: uint_chars d
  | Decimal.D3 d => 51%N :: uint_chars d
  | Decimal.D4 d => 52%N :: uint_chars d
  | Decimal.D5 d => 53%N :: uint_chars d
  | Decimal.D6 d => 54%N :: uint_chars d
  | Decimal.D7 d => 55%N :: uint_chars d
  | Decimal.D8 d => 56%N :: uint_chars d
  | Decimal.D9 d => 57%N :: uint_chars d
  end.

(** [str(n)] for a natural number, as an f-string renders it. *)
Definition str_of_nat (n : nat) : pystr := uint_chars (Nat.to_uint n).

(** [str(z)] for an integer. *)
Definition str_of_Z (z : Z) : pystr :=
  if (z <? 0)%Z then 45%N :: str_of_nat (Z.to_nat (- z)) else str_of_nat (Z.to_nat z).

(** The part of [s] before its last ['/'], that slash included ([p[:p.rfind('/')+1]]),
    and the part after it. *)
Fixpoint split_last_slash (s : pystr) : pystr * pystr :=
  match s with
  | [] => ([], [])
  | c :: s' =>
      let '(h, t) := split_last_slash s' in
      if existsb (N.eqb 47) s then
        (if existsb (N.eqb 47) s' then (c :: h, t) else ([c], s'))
      else ([], s)
  end.

(** [head.rstrip('/')] *)
Definition rstrip_slash (s : pystr) : pystr :=
  rev ((fix go (r : pystr) : pystr :=
          match r with
          | c :: r' => if N.eqb c 47 then go r' else r
          | [] => []
          end) (rev s)).

(** [os.path.dirname(p)] (POSIX). *)
Definition dirname (p : pystr) : pystr :=
  let head := fst (split_last_slash p) in
  if forallb (N.eqb 47) head then head else rstrip_slash head.

(** [os.path.basename(p)] (POSIX). *)
Definition basename (p : pystr) : pystr := snd (split_last_slash p).

(** [os.path.join(a, b)] (POSIX, two components). *)
Definition path_join (a b : pystr) : pystr :=
  if startswith b [47%N] then b
  else match rev a with
       | [] => b
       | c :: _ => if N.eqb c 47 then a ++ b else a ++ 47%N :: b
       end.

End PyStr.

Import PyStr.

(* ================================================================== *)
(** * Python values and exceptions *)
(* ================================================================== *)

(** What [yaml.safe_load] returns, what a validated model holds and what
    [json.dump] is given: [None], booleans, integers, strings, lists and
    string-keyed dictionaries (in insertion order). *)
#[warnings="-register-all"]
Inductive pyval : Type :=
| PNone
| PBool (b : bool)
| PInt (z : Z)
| PStr (s : pystr)
| PList (l : list pyval)
| PDict (d : list (pystr * pyval)).

Definition dict := list (pystr * pyval).

(** [d.get(k)] *)
Fixpoint dict_get (d : dict) (k : pystr) : option pyval :=
  match d with
  | [] => None
  | (k', v) :: d' => if eqb k' k then Some v else dict_get d' k
  end.

(** [d.get(k, default)] *)
Definition get_or (d : dict) (k : pystr) (default : pyval) : pyval :=
  match dict_get d k with
  | Some v => v
  | None => default
  end.

Definition dict_keys (d : dict) : list pystr := map fst d.

(** What [for x in v] iterates over: the elements of a list, the characters of
    a string, the keys of a dictionary; anything else is not iterable. *)
Definition py_iter (v : pyval) : option (list pyval) :=
  match v with
  | PList l => Some l
  | PStr s => Some (map (fun c => PStr [c]) s)
  | PDict d => Some (map (fun kv => PStr (fst kv)) d)
  | PNone | PBool _ | PInt _ => None
  end.

(** The exceptions the bodies of the source can raise from inside. *)
Inductive pyerror : Type :=
| AttributeError     (* .get on something that is not a dict *)
| TypeError          (* iterating a non-iterable, or unpacking a non-mapping *)
| ValidationError    (* pydantic refused the field values *)
| JSONDecodeError    (* json.load rejected the text *)
| OSError            (* open, read, write or makedirs failed *)
| UnicodeDecodeError (* read met bytes that are no text *)
| LibraryError (class_name : pystr).
                     (* any other exception raised inside a library call *)

(** The exceptions the source raises itself, or lets through. *)
Inductive exn : Type :=
| ValueError (msg : pystr)
| RuntimeError (cause : pyerror)   (* "An unexpected error occurred: {cause}" *)
| Propagated (e : pyerror).        (* re-raised unchanged *)

Inductive result (A : Type) : Type :=
| Ok (a : A)
| Raise (e : exn).
Arguments Ok {A} a.
Arguments Raise {A} e.

(* ================================================================== *)
(** * The profile schema ([incubator_schemas/project_profile.py]) *)
(* ================================================================== *)

Module Schema.

(** The annotations the source gives its fields. *)
Inductive ftype : Type :=
| TStr
| TInt
| TBool
| TEmailStr
| THttpUrl
| TList (t : ftype)
| TDict (k v : ftype)
| TOptional (t : ftype).

(** A field of a [BaseModel]: its name, its annotation, and its default when
    the class body gives one ([= None] on every optional field). *)
Record field : Type := Field {
  f_name : pystr;
  f_type : ftype;
  f_default : option pyval
}.

Definition req (name : string) (t : ftype) : field := Field (py name) t None.
Definition opt (name : string) (t : ftype) : field := Field (py name) (TOptional t) (Some PNone).

Definition TeamMember : list field :=
  [ req "full_name" TStr;
    req "role" TStr;
    opt "email" TEmailStr;
    opt "linkedin" THttpUrl;
    opt "github" THttpUrl;
    req "bio" TStr;
    req "skills" (TList TStr);
    req "years_experience" TInt;
    req "education" (TList (TDict TStr TStr)) ].

Definition ProjectBasicInfo : list field :=
  [ req "project_name" TStr;
    req "tagline" TStr;
    opt "website" THttpUrl;
    opt "github_repo" THttpUrl;
    opt "founding_date" TStr;
    req "development_stage" TStr;
    req "sector" TStr;
    req "industry" (TList TStr) ].

Definition ProjectDetails : list field :=
  [ req "problem_statement" TStr;
    req "solution_description" TStr;
    req "unique_value_proposition" TStr;
    req "target_audience" TStr;
    opt "market_size" TStr;
    req "business_model" TStr;
    req "revenue_streams" (TList TStr);
    req "competitors" (TList (TDict TStr TStr));
    opt "traction" TStr;
    req "roadmap" (TDict TStr TStr) ].

Definition TechnicalDetails : list field :=
  [ req "tech_stack" (TList TStr);
    opt "intellectual_property" TStr;
    opt "scalability_approach" TStr;
    req "current_challenges" (TList TStr);
    req "future_technological_needs" (TList TStr) ].

Definition Funding : list field :=
  [ opt "funding_to_date" TStr;
    opt "funding_sources" (TList TStr);
    opt "current_runway" TStr;
    opt "funding_needed" TStr;
    opt "use_of_funds" (TDict TStr TStr) ].

Definition IncubatorPreferences : list field :=
  [ req "resources_needed" (TList TStr);
    req "program_length_preference" TStr;
    opt "equity_willingness" TStr;
    req "relocation_willingness" TBool;
    req "remote_participation" TBool;
    opt "specific_mentors_desired" (TList TStr) ].

(** A validated model instance: its fields, in declaration order. *)
Definition model := dict.

(** [ProjectProfile]: one list of team members and five sub-models. *)
Record ProjectProfile : Type := {
  team : list model;
  basic_info : model;
  details : model;
  technical : model;
  funding : model;
  incubator_preferences : model
}.

(** The five sections [from_yaml] builds with a model class applied to [data.get(name, {})]. *)
Definition sections : list (pystr * list field) :=
  [ (py "basic_info", ProjectBasicInfo);
    (py "details", ProjectDetails);
    (py "technical", TechnicalDetails);
    (py "funding", Funding);
    (py "incubator_preferences", IncubatorPreferences) ].

Section Validation.

(** Field validation is pydantic's: it accepts a value for an annotation and
    returns the value the model stores, or refuses it. *)
Variable validate : ftype -> pyval -> option pyval.

(** Constructing a model from the keywords [data]: every declared field is taken from [data] and validated,
    or takes its default when [data] lacks it; a required field that is
    lacking, or a value that is refused, fails the construction.  Keys of
    [data] that the class does not declare are ignored. *)
Fixpoint validate_model (fs : list field) (data : dict) : option model :=
  match fs with
  | [] => Some []
  | f :: fs' =>
      let here := match dict_get data (f_name f) with
                  | Some v => validate (f_type f) v
                  | None => f_default f
                  end in
      match here, validate_model fs' data with
      | Some v, Some m => Some ((f_name f, v) :: m)
      | _, _ => None
      end
  end.

(** Constructing a model from an arbitrary value [v]: unpacking keywords needs
    a mapping. *)
Definition construct (fs : list field) (v : pyval) : pyerror + model :=
  match v with
  | PDict d => match validate_model fs d with
               | Some m => inr m
               | None => inl ValidationError
               end
  | _ => inl TypeError
  end.

(** The list comprehension that constructs one [TeamMember] per element. *)
Fixpoint construct_team (members : list pyval) : pyerror + list model :=
  match members with
  | [] => inr []
  | v :: rest =>
      match construct TeamMember v with
      | inl e => inl e
      | inr m => match construct_team rest with
                 | inl e => inl e
                 | inr ms => inr (m :: ms)
                 end
      end
  end.

(** [data.get(name, {})] followed by the construction of that section. *)
Definition construct_section (data : dict) (name : string) (fs : list field)
  : pyerror + model :=
  construct fs (get_or data (py name) (PDict [])).

(** The body of the [try] of [from_yaml], once [yaml.safe_load] has returned
    [data]; arguments are evaluated left to right and the first exception wins. *)
Definition build_profile (data : pyval) : pyerror + ProjectProfile :=
  match data with
  | PDict d =>
      match py_iter (get_or d (py "team") (PList [])) with
      | None => inl TypeError
      | Some members =>
          match construct_team members with
          | inl e => inl e
          | inr t =>
          match construct_section d "basic_info" ProjectBasicInfo with
          | inl e => inl e
          | inr b =>
          match construct_section d "details" ProjectDetails with
          | inl e => inl e
          | inr dt =>
          match construct_section d "technical" TechnicalDetails with
          | inl e => inl e
          | inr tc =>
          match construct_section d "funding" Funding with
          | inl e => inl e
          | inr fu =>
          match construct_section d "incubator_preferences" IncubatorPreferences with
          | inl e => inl e
          | inr ip =>
              inr {| team := t; basic_info := b; details := dt; technical := tc;
                     funding := fu; incubator_preferences := ip |}
          end end end end end end
      end
  | _ => inl AttributeError
  end.

(** [ProjectProfile.from_yaml], on what [yaml.safe_load(yaml_str)] did: it
    raised a [YAMLError] ([None]) or returned a document.  (An exception of
    another class raised by [yaml.safe_load] reaches the last [except]
    branch as well; the text never being at hand here, that case is with the
    reading of the file, in [load_project_profile].) *)
Definition from_yaml (loaded : option pyval) : result ProjectProfile :=
  match loaded with
  | None => Raise (ValueError (py "Error parsing YAML file."))
  | Some data =>
      match build_profile data with
      | inr p => Ok p
      | inl e => Raise (RuntimeError e)
      end
  end.

End Validation.

(** [ProjectProfile.to_dict] *)
Definition to_dict (p : ProjectProfile) : dict :=
  [ (py "team", PList (map PDict (team p)));
    (py "basic_info", PDict (basic_info p));
    (py "details", PDict (details p));
    (py "technical", PDict (technical p));
    (py "funding", PDict (funding p));
    (py "incubator_preferences", PDict (incubator_preferences p)) ].

(** The section of a profile that [to_dict] files under [name]. *)
Definition section_of (p : ProjectProfile) (name : pystr) : option model :=
  match dict_get (to_dict p) name with
  | Some (PDict m) => Some m
  | _ => None
  end.

(** A reference field validator, the strict reading of the annotations: a
    value is accepted, unchanged, exactly when it already has the annotated
    shape.  The library's validators accept more (they coerce and normalise);
    the properties below are stated for any validator and use this one only
    to run examples. *)
Fixpoint strict (t : ftype) (v : pyval) {struct t} : option pyval :=
  match t with
  | TStr => match v with PStr _ => Some v | _ => None end
  | TInt => match v with PInt _ => Some v | _ => None end
  | TBool => match v with PBool _ => Some v | _ => None end
  | TEmailStr =>
      match v with
      | PStr s => if existsb (N.eqb 64) s then Some v else None
      | _ => None
      end
  | THttpUrl =>
      match v with
      | PStr s => if startswith s (py "http://") || startswith s (py "https://")
                  then Some v else None
      | _ => None
      end
  | TList t' =>
      match v with
      | PList l => if forallb (fun x => match strict t' x with Some _ => true | None => false end) l
                   then Some v else None
      | _ => None
      end
  | TDict _ t' =>
      match v with
      | PDict d => if forallb (fun kv => match strict t' (snd kv) with Some _ => true | None => false end) d
                   then Some v else None
      | _ => None
      end
  | TOptional t' =>
      match v with
      | PNone => Some PNone
      | _ => strict t' v
      end
  end.

(** The number a string of decimal digits denotes. *)
Fixpoint digits_value (s : pystr) (acc : Z) : option Z :=
  match s with
  | [] => Some acc
  | c :: s' =>
      if ((48 <=? c) && (c <=? 57))%N then digits_value s' (10 * acc + Z.of_N c - 48)
      else None
  end.

(** A second reference validator, with one of the conversions the library
    applies by default: a non-empty string of decimal digits given for an
    [int] field is accepted and stored as the number.  Everything else is as
    in [strict].  Like [strict] it only serves to run examples. *)
Definition lax (t : ftype) (v : pyval) : option pyval :=
  match t, v with
  | TInt, PStr (c :: s) => option_map PInt (digits_value (c :: s) 0)
  | _, _ => strict t v
  end.

End Schema.

(* ================================================================== *)
(** * The application model ([incubator_application.py]) *)
(* ================================================================== *)

Module App.

Import Schema.

(** The dataclass [IncubatorQuestion]. *)
Record IncubatorQuestion : Type := {
  question_id : pystr;
  question_text : pystr;
  max_chars : option Z;
  expected_content : option pystr;
  answered : bool;
  answer : pystr
}.

(** The dataclass [IncubatorApplication], with the [id] attribute that
    [__post_init__] adds. *)
Record IncubatorApplication : Type := {
  program_name : pystr;
  application_url : pystr;
  deadline : pystr;
  questions : list IncubatorQuestion;
  project_profile : option ProjectProfile;
  id : pystr
}.

Definition set_questions (app : IncubatorApplication) (qs : list IncubatorQuestion)
  : IncubatorApplication :=
  {| program_name := program_name app; application_url := application_url app;
     deadline := deadline app; questions := qs;
     project_profile := project_profile app; id := id app |}.

Definition set_project_profile (app : IncubatorApplication) (p : ProjectProfile)
  : IncubatorApplication :=
  {| program_name := program_name app; application_url := application_url app;
     deadline := deadline app; questions := questions app;
     project_profile := Some p; id := id app |}.

(** The three assignments that open [load_from_json]; [id] is not among them. *)
Definition set_metadata (app : IncubatorApplication) (name url dl : pystr)
  : IncubatorApplication :=
  {| program_name := name; application_url := url; deadline := dl;
     questions := questions app; project_profile := project_profile app;
     id := id app |}.

Definition set_answer (q : IncubatorQuestion) (a : pystr) : IncubatorQuestion :=
  {| question_id := question_id q; question_text := question_text q;
     max_chars := max_chars q; expected_content := expected_content q;
     answered := true; answer := a |}.

(** ** The clients of the language-model services *)

(** The three client classes: [ChatOpenAI], [ChatAnthropic],
    [ChatGoogleGenerativeAI]. *)
Inductive Family : Type := OpenAI | Anthropic | Google.

(** A client: its class and the arguments its constructor is given. *)
Record LLM : Type := {
  llm_family : Family;
  llm_api_key : option pystr;
  llm_model_name : pystr;
  llm_temperature : float
}.

(** The keyword arguments of [chain.run]; [ci_project_info] is the mapping
    whose [yaml.dump] is the text handed over. *)
Record ChainInputs : Type := {
  ci_question : pystr;
  ci_project_info : dict;
  ci_max_chars_text : pystr;
  ci_expected_content_text : pystr
}.

(** ** The outside world *)

(** What the program did to the outside world, oldest first.  A
    constructor that raises leaves no event. *)
Inductive Event : Type :=
| EvClient (llm : LLM)
| EvChainRun (llm : LLM) (inputs : ChainInputs) (response : option pystr)
| EvMakedirs (path : pystr) (ok : bool)
| EvWrite (path : pystr) (document : dict) (ok : bool).

Definition Trace := list Event.

(** ** JSON documents as [load_from_json] and [fill] read them

    The leaves have the types the dataclasses declare; what can go wrong above
    them stays representable: the document is no object, a [questions] or
    [answers] value cannot be iterated, an element is no object. *)

Inductive entry (A : Type) : Type :=
| EntryDict (a : A)      (* an object: [.get] works *)
| EntryOther.            (* anything else: [.get] raises AttributeError *)
Arguments EntryDict {A} a.
Arguments EntryOther {A}.

Inductive entries (A : Type) : Type :=
| Iterable (l : list (entry A))   (* a list, or the characters / keys of a string / object *)
| NotIterable.                    (* null, a number, a boolean *)
Arguments Iterable {A} l.
Arguments NotIterable {A}.

Record QuestionData : Type := {
  qd_question_id : option pystr;
  qd_question_text : option pystr;
  qd_max_chars : option Z;              (* absent or null: [None] *)
  qd_expected_content : option pystr    (* absent or null: [None] *)
}.

Record AnswerData : Type := {
  ad_question_id : option pystr;
  ad_answer : option pystr
}.

Record TemplateData : Type := {
  td_program_name : option pystr;
  td_application_url : option pystr;
  td_deadline : option pystr;
  td_questions : option (entries QuestionData);
  td_answers : option (entries AnswerData)
}.

(** What [open] followed by [json.load] gives. *)
Inductive LoadedJson : Type :=
| CannotOpen                    (* [open] raised *)
| NotJson                       (* [json.load] raised *)
| NotAnObject                   (* valid JSON, but not an object *)
| Loaded (d : TemplateData).

(** The answers of the world.  Each may depend on everything that happened
    before. *)
Record World : Type := {
  (** the constructor of the client class, lines 74-78: the exception it
      raises, [None] when it returns the client *)
  new_client : Trace -> LLM -> option pyerror;
  (** [PromptTemplate(...)] and [LLMChain(llm=llm, prompt=...)], lines
      87-110: the exception one of them raises, [None] when both return *)
  new_chain : Trace -> LLM -> option pyerror;
  (** [chain.run(...)]: the response, or [None] when it raises *)
  chain_run : Trace -> LLM -> ChainInputs -> option pystr;
  (** [os.makedirs(path, exist_ok=True)] succeeds *)
  makedirs : Trace -> pystr -> bool;
  (** [open(path, 'w')] and [json.dump] succeed *)
  write_json : Trace -> pystr -> bool;
  (** [open(path)] and [json.load] *)
  read_json : Trace -> pystr -> LoadedJson;
  (** [open(path)], [read] and [yaml.safe_load]: [Some None] when
      [yaml.safe_load] raises a [YAMLError], [None] when [open], [read] or
      [yaml.safe_load] raises anything else *)
  read_yaml : Trace -> pystr -> option (option pyval);
  (** the exception behind a [None] of [read_yaml]: raised by [open] or
      [read] ([inl]), or by [yaml.safe_load] ([inr]) *)
  read_yaml_raised : Trace -> pystr -> pyerror + pyerror
}.

(** ** Pure parts *)

Section Methods.

(** [str.lower] (Unicode case mapping) and pydantic's field validation are the
    libraries'. *)
Variable str_lower : pystr -> pystr.
Variable validate : ftype -> pyval -> option pyval.
Variable w : World.

(** [__post_init__]: the value of [self.id]. *)
Definition application_id (name dl : pystr) : pystr :=
  str_lower (replace_char 32 (py "_") name) ++ py "_" ++ replace_char 45 [] dl.

(** [IncubatorApplication(program_name, application_url, deadline, questions, project_profile)] *)
Definition new_application (name url dl : pystr) (qs : list IncubatorQuestion)
  (p : option ProjectProfile) : IncubatorApplication :=
  {| program_name := name; application_url := url; deadline := dl;
     questions := qs; project_profile := p; id := application_id name dl |}.

(** [IncubatorQuestion(question_id=..., question_text=..., max_chars=..., expected_content=...)] *)
Definition new_question (qid text : pystr) (mc : option Z) (hint : option pystr)
  : IncubatorQuestion :=
  {| question_id := qid; question_text := text; max_chars := mc;
     expected_content := hint; answered := false; answer := [] |}.

(** [add_question] *)
Definition add_question (qid text : pystr) (mc : option Z) (hint : option pystr)
  (app : IncubatorApplication) : IncubatorQuestion * IncubatorApplication :=
  let question := new_question qid text mc hint in
  (question, set_questions app (questions app ++ [question])).

(** The scan of [answer_question]: the first question with the given id is
    answered; [None] when no question has it. *)
Fixpoint answer_first (qs : list IncubatorQuestion) (qid a : pystr)
  : option (list IncubatorQuestion) :=
  match qs with
  | [] => None
  | q :: qs' =>
      if eqb (question_id q) qid then Some (set_answer q a :: qs')
      else match answer_first qs' qid a with
           | Some qs'' => Some (q :: qs'')
           | None => None
           end
  end.

(** [answer_question] *)
Definition answer_question (qid a : pystr) (app : IncubatorApplication)
  : bool * IncubatorApplication :=
  match answer_first (questions app) qid a with
  | Some qs => (true, set_questions app qs)
  | None => (false, app)
  end.

(** [load_project_profile]: an exception of [open] or [read] is raised
    again as it is; one of [yaml.safe_load] that is no [YAMLError] comes
    wrapped in the [RuntimeError] of [from_yaml]. *)
Definition load_project_profile (profile_path : pystr) (app : IncubatorApplication)
  (tr : Trace) : result unit * IncubatorApplication :=
  match read_yaml w tr profile_path with
  | None =>
      (Raise (match read_yaml_raised w tr profile_path with
              | inl e => Propagated e
              | inr e => RuntimeError e
              end), app)
  | Some loaded =>
      match from_yaml validate loaded with
      | Ok p => (Ok tt, set_project_profile app p)
      | Raise e => (Raise e, app)
      end
  end.

(** ** [generate_answers] *)

(** The [if]/[elif] chain, lines 73-80: the client class it picks and the
    arguments it gives the constructor; [None] when it reaches the [else].
    What the constructor does with them is the world's [new_client]. *)
Definition select_llm (api_key : option pystr) (model_name : pystr) (temperature : float)
  : option LLM :=
  if startswith model_name (py "gpt") then
    Some {| llm_family := OpenAI; llm_api_key := api_key;
            llm_model_name := model_name; llm_temperature := temperature |}
  else if startswith model_name (py "claude") then
    Some {| llm_family := Anthropic; llm_api_key := api_key;
            llm_model_name := model_name; llm_temperature := temperature |}
  else if startswith model_name (py "gemini") then
    Some {| llm_family := Google; llm_api_key := api_key;
            llm_model_name := model_name; llm_temperature := temperature |}
  else None.

(** Truth value of [question.max_chars]: set and not zero. *)
Definition max_chars_set (q : IncubatorQuestion) : bool :=
  match max_chars q with
  | Some n => negb (n =? 0)%Z
  | None => false
  end.

Definition max_chars_text (q : IncubatorQuestion) : pystr :=
  match max_chars q with
  | Some n => if (n =? 0)%Z then []
              else py "Your answer must be under " ++ str_of_Z n ++ py " characters."
  | None => []
  end.

Definition expected_content_text (q : IncubatorQuestion) : pystr :=
  match expected_content q with
  | Some (c :: h) => py "The answer should focus on: " ++ c :: h
  | _ => []
  end.

Definition chain_inputs (project_data : dict) (q : IncubatorQuestion) : ChainInputs :=
  {| ci_question := question_text q;
     ci_project_info := project_data;
     ci_max_chars_text := max_chars_text q;
     ci_expected_content_text := expected_content_text q |}.

(** Lines 120-124: the cut at [max_chars], then [strip]. *)
Definition trim_response (q : IncubatorQuestion) (response : pystr) : pystr :=
  strip (match max_chars q with
         | Some n => if negb (n =? 0)%Z && (n <? len response)%Z
                     then slice_to response n else response
         | None => response
         end).

(** The body of the [for] loop, for one question: the exception that leaves
    the loop, if any, the question afterwards, the history afterwards.  The
    prompt template and the chain are constructed outside the [try]: an
    exception there leaves the loop; one of [chain.run] is caught. *)
Definition generate_one (llm : LLM) (project_data : dict) (q : IncubatorQuestion)
  (tr : Trace) : option pyerror * IncubatorQuestion * Trace :=
  if answered q then (None, q, tr)
  else
    match new_chain w tr llm with
    | Some e => (Some e, q, tr)
    | None =>
        let inputs := chain_inputs project_data q in
        let r := chain_run w tr llm inputs in
        let tr' := tr ++ [EvChainRun llm inputs r] in
        match r with
        | Some response => (None, set_answer q (trim_response q response), tr')
        | None => (None, q, tr')
        end
    end.

(** The [for] loop over [self.questions]; when an exception leaves it, the
    questions after the one at hand are not reached. *)
Fixpoint generate_loop (llm : LLM) (project_data : dict) (qs : list IncubatorQuestion)
  (tr : Trace) : option pyerror * list IncubatorQuestion * Trace :=
  match qs with
  | [] => (None, [], tr)
  | q :: qs' =>
      match generate_one llm project_data q tr with
      | (Some e, q', tr1) => (Some e, q' :: qs', tr1)
      | (None, q', tr1) =>
          let '(r, qs'', tr2) := generate_loop llm project_data qs' tr1 in
          (r, q' :: qs'', tr2)
      end
  end.

Definition msg_no_profile : pystr :=
  py "Project profile must be loaded before generating answers".

Definition msg_unsupported (model_name : pystr) : pystr :=
  py "Unsupported model: " ++ model_name.

(** [generate_answers]: the value returned or the exception raised, the
    application afterwards, the history afterwards.  An exception of a
    constructor (of the client, of the prompt template, of the chain) is not
    caught and leaves the method, with the questions answered so far as they
    are; an exception of [chain.run] is caught. *)
Definition generate_answers (api_key : option pystr) (model_name : pystr)
  (temperature : float) (app : IncubatorApplication) (tr : Trace)
  : result (list IncubatorQuestion) * IncubatorApplication * Trace :=
  match project_profile app with
  | None => (Raise (ValueError msg_no_profile), app, tr)
  | Some profile =>
      match select_llm api_key model_name temperature with
      | None => (Raise (ValueError (msg_unsupported model_name)), app, tr)
      | Some llm =>
          match new_client w tr llm with
          | Some e => (Raise (Propagated e), app, tr)
          | None =>
              let tr0 := tr ++ [EvClient llm] in
              let project_data := to_dict profile in
              match generate_loop llm project_data (questions app) tr0 with
              | (Some e, qs, tr1) => (Raise (Propagated e), set_questions app qs, tr1)
              | (None, qs, tr1) => (Ok (filter answered qs), set_questions app qs, tr1)
              end
          end
      end
  end.

(** ** [export_answers] *)

Definition answer_entry (q : IncubatorQuestion) : pyval :=
  PDict [ (py "question_id", PStr (question_id q));
          (py "question", PStr (question_text q));
          (py "answer", PStr (answer q)) ].

(** The dictionary [answers] that [export_answers] dumps. *)
Definition export_document (app : IncubatorApplication) : dict :=
  [ (py "program_name", PStr (program_name app));
    (py "application_url", PStr (application_url app));
    (py "deadline", PStr (deadline app));
    (py "answers", PList (map answer_entry (filter answered (questions app)))) ].

Definition export_answers (output_path : pystr) (app : IncubatorApplication) (tr : Trace)
  : result pystr * Trace :=
  let answers := export_document app in
  let dir := dirname output_path in
  let ok1 := makedirs w tr dir in
  let tr1 := tr ++ [EvMakedirs dir ok1] in
  if ok1 then
    let ok2 := write_json w tr1 output_path in
    let tr2 := tr1 ++ [EvWrite output_path answers ok2] in
    if ok2 then (Ok output_path, tr2) else (Raise (Propagated OSError), tr2)
  else (Raise (Propagated OSError), tr1).

(** ** [load_from_json] *)

Definition default_question_id (app : IncubatorApplication) : pystr :=
  py "q" ++ str_of_nat (length (questions app) + 1).

(** The call of [add_question] in the loop over the document's questions. *)
Definition add_from_data (q : QuestionData) (app : IncubatorApplication)
  : IncubatorApplication :=
  snd (add_question
         (match qd_question_id q with Some i => i | None => default_question_id app end)
         (match qd_question_text q with Some t => t | None => [] end)
         (qd_max_chars q) (qd_expected_content q) app).

(** The loop over the questions: [false] when an element raised. *)
Fixpoint add_all (l : list (entry QuestionData)) (app : IncubatorApplication)
  : bool * IncubatorApplication :=
  match l with
  | [] => (true, app)
  | EntryOther :: _ => (false, app)
  | EntryDict q :: l' => add_all l' (add_from_data q app)
  end.

(** The call of [answer_question] in the loop over the document's answers; an
    absent [question_id] is [None], which equals no question's id. *)
Definition answer_from_data (a : AnswerData) (app : IncubatorApplication)
  : IncubatorApplication :=
  match ad_question_id a with
  | Some i => snd (answer_question i (match ad_answer a with Some t => t | None => [] end) app)
  | None => app
  end.

Fixpoint answer_all (l : list (entry AnswerData)) (app : IncubatorApplication)
  : bool * IncubatorApplication :=
  match l with
  | [] => (true, app)
  | EntryOther :: _ => (false, app)
  | EntryDict a :: l' => answer_all l' (answer_from_data a app)
  end.

(** The body of [load_from_json] on what was read. *)
Definition load_from_data (loaded : LoadedJson) (app : IncubatorApplication)
  : bool * IncubatorApplication :=
  match loaded with
  | CannotOpen | NotJson | NotAnObject => (false, app)
  | Loaded data =>
      let app1 :=
        set_metadata app
          (match td_program_name data with Some s => s | None => program_name app end)
          (match td_application_url data with Some s => s | None => application_url app end)
          (match td_deadline data with Some s => s | None => deadline app end) in
      match (match td_questions data with Some qs => qs | None => Iterable [] end) with
      | NotIterable => (false, app1)
      | Iterable qs =>
          match add_all qs app1 with
          | (false, app2) => (false, app2)
          | (true, app2) =>
              match (match td_answers data with Some l => l | None => Iterable [] end) with
              | NotIterable => (false, app2)
              | Iterable l => answer_all l app2
              end
          end
      end
  end.

(** [load_from_json] *)
Definition load_from_json (json_path : pystr) (app : IncubatorApplication) (tr : Trace)
  : bool * IncubatorApplication :=
  load_from_data (read_json w tr json_path) app.

End Methods.

End App.

(* ================================================================== *)
(** * The [fill] command ([incubator_application_filler.py]) *)
(* ================================================================== *)

Module Filler.

Import Schema App.

(** [os.environ] *)
Definition environ := list (pystr * pystr).

Fixpoint environ_get (env : environ) (name : pystr) : option pystr :=
  match env with
  | [] => None
  | (k, v) :: env' => if eqb k name then Some v else environ_get env' name
  end.

(** [not api_key]: [None] or the empty string. *)
Definition missing (api_key : option pystr) : bool :=
  match api_key with
  | None | Some [] => true
  | Some (_ :: _) => false
  end.

Definition OPENAI_API_KEY : pystr := py "OPENAI_API_KEY".
Definition ANTHROPIC_API_KEY : pystr := py "ANTHROPIC_API_KEY".
Definition GOOGLE_API_KEY : pystr := py "GOOGLE_API_KEY".

(** How lines 26-44 end: with the error that names an environment variable
    and a [return], or with the key the rest of [fill] uses. *)
Inductive credentials : Type :=
| NoKey (variable : pystr)
| Key (api_key : option pystr).

(** Lines 26-44 of [fill]. *)
Definition resolve_api_key (api_key : option pystr) (env : environ) (model : pystr)
  : credentials :=
  if missing api_key then
    let api_key := environ_get env OPENAI_API_KEY in
    if missing api_key && startswith model (py "gpt") then NoKey OPENAI_API_KEY
    else
      let after_claude :=
        if startswith model (py "claude") && missing api_key then
          let api_key := environ_get env ANTHROPIC_API_KEY in
          if missing api_key then NoKey ANTHROPIC_API_KEY else Key api_key
        else Key api_key in
      match after_claude with
      | NoKey v => NoKey v
      | Key api_key =>
          if startswith model (py "gemini") && missing api_key then
            let api_key := environ_get env GOOGLE_API_KEY in
            if missing api_key then NoKey GOOGLE_API_KEY else Key api_key
          else Key api_key
      end
  else Key api_key.

(** How a run of [fill] ends. *)
Inductive outcome : Type :=
| Stopped (variable : pystr)       (* no key: the early [return] *)
| Uncaught (e : pyerror)           (* raised outside the [try] *)
| Failed (e : exn)                 (* the [except] branch *)
| Filled (app : IncubatorApplication) (output : pystr).

Section Fill.

Variable str_lower : pystr -> pystr.
Variable validate : ftype -> pyval -> option pyval.
Variable w : World.

Definition base_dir : pystr := py "incubator_applications".

(** The body of the [try] of [fill]. *)
Definition fill_pipeline (application_template project_profile output : pystr)
  (api_key : option pystr) (model : pystr) (temperature : float) (tr : Trace)
  : outcome * Trace :=
  match read_json w tr application_template with
  | CannotOpen => (Failed (Propagated OSError), tr)
  | NotJson => (Failed (Propagated JSONDecodeError), tr)
  | NotAnObject => (Failed (Propagated AttributeError), tr)
  | Loaded template_data =>
      let application :=
        new_application str_lower
          (match td_program_name template_data with Some s => s | None => py "Unknown Program" end)
          (match td_application_url template_data with Some s => s | None => [] end)
          (match td_deadline template_data with Some s => s | None => py "Unknown" end)
          [] None in
      match (match td_questions template_data with Some qs => qs | None => Iterable [] end) with
      | NotIterable => (Failed (Propagated TypeError), tr)
      | Iterable qs =>
          match add_all qs application with
          | (false, _) => (Failed (Propagated AttributeError), tr)
          | (true, application) =>
              match load_project_profile validate w project_profile application tr with
              | (Raise e, _) => (Failed e, tr)
              | (Ok _, application) =>
                  match generate_answers w api_key model temperature application tr with
                  | (Raise e, _, tr1) => (Failed e, tr1)
                  | (Ok _, application, tr1) =>
                      match export_answers w output application tr1 with
                      | (Raise e, tr2) => (Failed e, tr2)
                      | (Ok _, tr2) => (Filled application output, tr2)
                      end
                  end
              end
          end
      end
  end.

(** [fill] *)
Definition fill (application_template project_profile : pystr)
  (output api_key : option pystr) (model : pystr) (temperature : float)
  (env : environ) (tr : Trace) : outcome * Trace :=
  match resolve_api_key api_key env model with
  | NoKey v => (Stopped v, tr)
  | Key api_key =>
      if missing output then
        let ok := makedirs w tr base_dir in
        let tr0 := tr ++ [EvMakedirs base_dir ok] in
        if ok then
          fill_pipeline application_template project_profile
            (path_join base_dir (py "filled_" ++ basename application_template))
            api_key model temperature tr0
        else (Uncaught OSError, tr0)
      else
        fill_pipeline application_template project_profile
          (match output with Some o => o | None => [] end)
          api_key model temperature tr
  end.

End Fill.

End Filler.

(* ================================================================== *)
(** * The [create-template] command, and JSON trees read as documents *)
(* ================================================================== *)

Module Template.

Import Schema App Filler.

(** The placeholder question that the loop of [create_template] appends for
    the number [i]. *)
Definition placeholder_question (i : nat) : pyval :=
  PDict [ (py "question_id", PStr (py "q" ++ str_of_nat i));
          (py "question_text",
           PStr (py "Question " ++ str_of_nat i ++ py ": Replace with actual question text"));
          (py "max_chars", PInt 1000);
          (py "expected_content", PStr (py "Replace with hints about expected content")) ].

(** [x or ""] for an optional string. *)
Definition or_empty (x : option pystr) : pystr :=
  match x with
  | Some s => s
  | None => []
  end.

(** The dictionary [template] once the loop over [range(1, questions + 1)]
    is done. *)
Definition template_document (incubator_name : pystr) (questions : Z)
  (url deadline : option pystr) : dict :=
  [ (py "program_name", PStr incubator_name);
    (py "application_url", PStr (or_empty url));
    (py "deadline", PStr (or_empty deadline));
    (py "questions", PList (map placeholder_question (seq 1 (Z.to_nat questions)))) ].

Section CreateTemplate.

Variable str_lower : pystr -> pystr.
Variable w : World.



End CreateTemplate.

(** ** Reading a JSON tree as a document

    [json.load] returns the tree that [json.dump] was given.  The bodies of
    [load_from_json] and [fill] look into it with [.get]; their models take a
    [TemplateData].  The functions below give the [TemplateData] of a tree.
    They are defined on the trees whose leaves have the types the
    dataclasses declare, and undefined ([None]) on the others. *)

(** A string that may be absent. *)
Definition str_leaf (o : option pyval) : option (option pystr) :=
  match o with
  | None => Some None
  | Some (PStr s) => Some (Some s)
  | Some _ => None
  end.

(** A string that may be absent or [null]. *)
Definition nullable_str_leaf (o : option pyval) : option (option pystr) :=
  match o with
  | None | Some PNone => Some None
  | Some (PStr s) => Some (Some s)
  | Some _ => None
  end.

(** An integer that may be absent or [null]. *)
Definition nullable_int_leaf (o : option pyval) : option (option Z) :=
  match o with
  | None | Some PNone => Some None
  | Some (PInt z) => Some (Some z)
  | Some _ => None
  end.

(** An element of ["questions"]. *)
Definition read_question (v : pyval) : option (entry QuestionData) :=
  match v with
  | PDict q =>
      match str_leaf (dict_get q (py "question_id")),
            str_leaf (dict_get q (py "question_text")),
            nullable_int_leaf (dict_get q (py "max_chars")),
            nullable_str_leaf (dict_get q (py "expected_content")) with
      | Some i, Some t, Some mc, Some h =>
          Some (EntryDict {| qd_question_id := i; qd_question_text := t;
                             qd_max_chars := mc; qd_expected_content := h |})
      | _, _, _, _ => None
      end
  | _ => Some EntryOther
  end.

(** An element of ["answers"].  A [null] id equals no question's id, as an
    absent one. *)
Definition read_answer (v : pyval) : option (entry AnswerData) :=
  match v with
  | PDict a =>
      match nullable_str_leaf (dict_get a (py "question_id")),
            str_leaf (dict_get a (py "answer")) with
      | Some i, Some t => Some (EntryDict {| ad_question_id := i; ad_answer := t |})
      | _, _ => None
      end
  | _ => Some EntryOther
  end.

Fixpoint read_all {A : Type} (item : pyval -> option (entry A)) (l : list pyval)
  : option (list (entry A)) :=
  match l with
  | [] => Some []
  | v :: l' =>
      match item v, read_all item l' with
      | Some e, Some es => Some (e :: es)
      | _, _ => None
      end
  end.

(** The value of ["questions"] or ["answers"], iterated as [for] does. *)
Definition read_entries {A : Type} (item : pyval -> option (entry A)) (o : option pyval)
  : option (option (entries A)) :=
  match o with
  | None => Some None
  | Some v =>
      match py_iter v with
      | None => Some (Some NotIterable)
      | Some l => match read_all item l with
                  | Some es => Some (Some (Iterable es))
                  | None => None
                  end
      end
  end.

(** The whole tree. *)
Definition read_document (v : pyval) : option LoadedJson :=
  match v with
  | PDict d =>
      match str_leaf (dict_get d (py "program_name")),
            str_leaf (dict_get d (py "application_url")),
            str_leaf (dict_get d (py "deadline")),
            read_entries read_question (dict_get d (py "questions")),
            read_entries read_answer (dict_get d (py "answers")) with
      | Some n, Some u, Some dl, Some qs, Some ans =>
          Some (Loaded {| td_program_name := n; td_application_url := u;
                          td_deadline := dl; td_questions := qs; td_answers := ans |})
      | _, _, _, _, _ => None
      end
  | _ => Some NotAnObject
  end.

End Template.

(* ================================================================== *)
(** * The [view] command *)
(* ================================================================== *)

Module View.

Import Schema App Filler.

(** [d.get(key, default)] inside an f-string, for a value that is a string;
    undefined ([None]) for a value of another type. *)
Definition shown (o : option pyval) (default : pystr) : option pystr :=
  match o with
  | None => Some default
  | Some (PStr s) => Some s
  | Some _ => None
  end.

(** ['-' * 40] *)
Definition rule : pystr := repeat 45%N 40.

(** The loop over [enumerate(answers, i)]: the messages echoed, and the
    exception that ends the loop when an element is no object. *)
Fixpoint view_answers (i : nat) (l : list pyval) : option (list pystr * option pyerror) :=
  match l with
  | [] => Some ([], None)
  | PDict a :: l' =>
      match shown (dict_get a (py "question")) [],
            shown (dict_get a (py "answer")) [],
            view_answers (S i) l' with
      | Some q, Some ans, Some (lines, e) =>
          Some ((py "Q" ++ str_of_nat i ++ py ": " ++ q)
                  :: rule :: (ans ++ [10%N]) :: [] :: lines, e)
      | _, _, _ => None
      end
  | _ :: _ => Some ([], Some AttributeError)
  end.

(** The body of the [try] of [view] once [json.load] has returned [data]: the
    messages given to [click.echo], in order, and the exception caught by
    the [except] branch, if any (which then echoes an error message). *)
Definition view_tree (data : pyval) : option (list pystr * option pyerror) :=
  match data with
  | PDict d =>
      match shown (dict_get d (py "program_name")) (py "Unknown Program"),
            shown (dict_get d (py "application_url")) (py "N/A"),
            shown (dict_get d (py "deadline")) (py "N/A") with
      | Some name, Some url, Some dl =>
          let header := [ 10%N :: py "====== " ++ name ++ py " ======";
                          py "URL: " ++ url;
                          py "Deadline: " ++ dl ++ [10%N] ] in
          match py_iter (get_or d (py "answers") (PList [])) with
          | None => Some (header, Some TypeError)
          | Some l =>
              match view_answers 1 l with
              | Some (lines, e) => Some (header ++ lines, e)
              | None => None
              end
          end
      | _, _, _ => None
      end
  | _ => Some ([], Some AttributeError)
  end.

End View.

(* ================================================================== *)
(** * Vocabulary of the properties *)
(* ================================================================== *)

Module Vocabulary.

Import Schema App Filler.

(** The value a model stores for field [f] when constructed from [data]. *)
Definition field_value (validate : ftype -> pyval -> option pyval) (data : dict) (f : field)
  : option pyval :=
  match dict_get data (f_name f) with
  | Some v => validate (f_type f) v
  | None => f_default f
  end.

(** No two fields of a class share a name. *)
Fixpoint distinct_names (fs : list field) : bool :=
  match fs with
  | [] => true
  | f :: fs' => negb (existsb (fun g => eqb (f_name g) (f_name f)) fs') && distinct_names fs'
  end.

(** Every default of a class is [None]. *)
Definition defaults_none (fs : list field) : bool :=
  forallb (fun f => match f_default f with
                    | None | Some PNone => true
                    | Some _ => false
                    end) fs.

(** Section [sec] of document [d] does not give field [name]: the section is
    absent, or it is a mapping without that key. *)
Definition lacks (d : dict) (sec name : pystr) : bool :=
  match dict_get d sec with
  | None => true
  | Some (PDict secd) => match dict_get secd name with None => true | Some _ => false end
  | Some _ => false
  end.

(** Model [m], built for the class [fs] from the mapping [src], has exactly
    the declared fields; a field that [src] gives, and that the validator
    returns as given, is stored as given; a field that [src] does not give is
    stored as [None]. *)
Definition reproduces (validate : ftype -> pyval -> option pyval) (fs : list field)
  (src : dict) (m : model) : Prop :=
  dict_keys m = map f_name fs /\
  forall f, In f fs ->
    match dict_get src (f_name f) with
    | Some v => validate (f_type f) v = Some v -> dict_get m (f_name f) = Some v
    | None => dict_get m (f_name f) = Some PNone
    end.

(** ** Questions and histories *)

Definition unanswered (qs : list IncubatorQuestion) : list IncubatorQuestion :=
  filter (fun q => negb (answered q)) qs.

(** The event is a call of [chain.run] that raised. *)
Definition is_failure (e : Event) : bool :=
  match e with
  | EvChainRun _ _ None => true
  | _ => false
  end.

(** The event is the call of [chain.run] made for question [q]. *)
Definition call_for (llm : LLM) (project_data : dict) (e : Event) (q : IncubatorQuestion)
  : Prop :=
  exists r, e = EvChainRun llm (chain_inputs project_data q) r.

(** The history when the loop of [generate_answers], started in history [tr],
    has gone through the questions [pre] and reaches the next one. *)
Definition history_before (w : World) (llm : LLM) (project_data : dict)
  (pre : list IncubatorQuestion) (tr : Trace) : Trace :=
  snd (generate_loop w llm project_data pre tr).

(** What [add_question] fixes of a question for good. *)
Definition describe (q : IncubatorQuestion) : pystr * pystr * option Z * option pystr :=
  (question_id q, question_text q, max_chars q, expected_content q).

(** The [question_id] and [question] of an entry of the exported [answers]. *)
Definition entry_ident (v : pyval) : option (pystr * pystr) :=
  match v with
  | PDict d =>
      match dict_get d (py "question_id"), dict_get d (py "question") with
      | Some (PStr i), Some (PStr t) => Some (i, t)
      | _, _ => None
      end
  | _ => None
  end.

(** ** Sequences of method calls on one application *)

Inductive call : Type :=
| AddQuestion (question_id question_text : pystr) (max_chars : option Z)
    (expected_content : option pystr)
| AnswerQuestion (question_id answer : pystr)
| GenerateAnswers (api_key : option pystr) (model_name : pystr) (temperature : float)
| LoadProjectProfile (profile_path : pystr).

Section Calls.

Variable validate : ftype -> pyval -> option pyval.
Variable w : World.

(** One call; an exception it raises is dropped by the caller, the object
    stays as the method left it. *)
Definition step (st : IncubatorApplication * Trace) (c : call)
  : IncubatorApplication * Trace :=
  let '(app, tr) := st in
  match c with
  | AddQuestion i t mc hint => (snd (add_question i t mc hint app), tr)
  | AnswerQuestion i a => (snd (answer_question i a app), tr)
  | GenerateAnswers k model temp =>
      let '(_, app', tr') := generate_answers w k model temp app tr in (app', tr')
  | LoadProjectProfile path => (snd (load_project_profile validate w path app tr), tr)
  end.

Definition run (cs : list call) (st : IncubatorApplication * Trace)
  : IncubatorApplication * Trace :=
  fold_left step cs st.

End Calls.

(** The questions a sequence of calls adds, in order. *)
Definition added (cs : list call) : list (pystr * pystr * option Z * option pystr) :=
  flat_map (fun c => match c with
                     | AddQuestion i t mc hint => [(i, t, mc, hint)]
                     | _ => []
                     end) cs.

(** ** Imports *)

(** The questions [load_from_json] builds from the objects [l] when the
    application already holds [n] questions. *)
Fixpoint imported (n : nat) (l : list QuestionData) : list IncubatorQuestion :=
  match l with
  | [] => []
  | q :: l' =>
      new_question
        (match qd_question_id q with Some i => i | None => py "q" ++ str_of_nat (n + 1) end)
        (match qd_question_text q with Some t => t | None => [] end)
        (qd_max_chars q) (qd_expected_content q)
      :: imported (S n) l'
  end.

(** The objects among the elements, up to the first element that is none. *)
Fixpoint objects {A : Type} (l : list (entry A)) : list A :=
  match l with
  | EntryDict a :: l' => a :: objects l'
  | _ => []
  end.

(** The questions of a document: the value of ["questions"], [[]] by default. *)
Definition document_questions (d : TemplateData) : list QuestionData :=
  match td_questions d with
  | Some (Iterable l) => objects l
  | _ => []
  end.

End Vocabulary.

(* ================================================================== *)
(** * Concrete inputs *)
(* ================================================================== *)

Module Examples.

Import Schema App Filler Vocabulary.

(** Lower-casing of the letters A-Z, which is what [str.lower] does to ASCII text. *)
Definition ascii_lower (s : pystr) : pystr :=
  map (fun c => if ((65 <=? c) && (c <=? 90))%N then (c + 32)%N else c) s.

(** A world in which every constructor returns; the backend echoes the
    question text and raises on an empty question; directories can be
    created except the one with the empty name; writes succeed; there is
    nothing to read. *)
Definition echo_world : World :=
  {| new_client := fun _ _ => None; new_chain := fun _ _ => None;
     chain_run := fun _ _ i => match ci_question i with [] => None | t => Some t end;
     makedirs := fun _ p => negb (eqb p []);
     write_json := fun _ _ => true;
     read_json := fun _ _ => CannotOpen;
     read_yaml := fun _ _ => None; read_yaml_raised := fun _ _ => inl OSError |}.

Definition s (x : string) : pyval := PStr (py x).
Definition kv (k : string) (v : pyval) : pystr * pyval := (py k, v).

(** A profile document with only its required fields; the project name is
    present and empty. *)
Definition doc_required_only : pyval :=
  PDict
    [ kv "team"
        (PList
           [ PDict [ kv "full_name" (s "Ada Park"); kv "role" (s "CEO"); kv "bio" (s "Engineer");
                     kv "skills" (PList [s "python"]); kv "years_experience" (PInt 7);
                     kv "education" (PList [PDict [kv "degree" (s "BSc")]]) ] ]);
      kv "basic_info"
        (PDict [ kv "project_name" (s ""); kv "tagline" (s "Forms, filled");
                 kv "development_stage" (s "MVP"); kv "sector" (s "AI/ML");
                 kv "industry" (PList [s "SaaS"]) ]);
      kv "details"
        (PDict [ kv "problem_statement" (s "Forms take time");
                 kv "solution_description" (s "Draft them");
                 kv "unique_value_proposition" (s "Profile reuse");
                 kv "target_audience" (s "Founders");
                 kv "business_model" (s "Subscription");
                 kv "revenue_streams" (PList [s "SaaS"]);
                 kv "competitors" (PList []);
                 kv "roadmap" (PDict [kv "Q1" (s "Launch")]) ]);
      kv "technical"
        (PDict [ kv "tech_stack" (PList [s "python"]);
                 kv "current_challenges" (PList []);
                 kv "future_technological_needs" (PList []) ]);
      kv "incubator_preferences"
        (PDict [ kv "resources_needed" (PList [s "Mentorship"]);
                 kv "program_length_preference" (s "3 months");
                 kv "relocation_willingness" (PBool false);
                 kv "remote_participation" (PBool true) ]) ].

Definition member_full : dict :=
  [ kv "full_name" (s "Ada Park"); kv "role" (s "CEO");
    kv "email" (s "ada@example.com");
    kv "linkedin" (s "https://linkedin.example/ada");
    kv "github" (s "https://github.example/ada");
    kv "bio" (s "Engineer"); kv "skills" (PList [s "python"]);
    kv "years_experience" (PInt 7);
    kv "education" (PList [PDict [kv "degree" (s "BSc")]]) ].

Definition basic_info_full : dict :=
  [ kv "project_name" (s "Filler"); kv "tagline" (s "Forms, filled");
    kv "website" (s "https://filler.example");
    kv "github_repo" (s "https://github.example/filler");
    kv "founding_date" (s "2023-01-15");
    kv "development_stage" (s "MVP"); kv "sector" (s "AI/ML");
    kv "industry" (PList [s "SaaS"]) ].

Definition details_full : dict :=
  [ kv "problem_statement" (s "Forms take time");
    kv "solution_description" (s "Draft them");
    kv "unique_value_proposition" (s "Profile reuse");
    kv "target_audience" (s "Founders");
    kv "market_size" (s "1B");
    kv "business_model" (s "Subscription");
    kv "revenue_streams" (PList [s "SaaS"]);
    kv "competitors" (PList [PDict [kv "name" (s "X"); kv "differentiator" (s "Faster")]]);
    kv "traction" (s "100 users");
    kv "roadmap" (PDict [kv "Q1" (s "Launch")]) ].

Definition technical_full : dict :=
  [ kv "tech_stack" (PList [s "python"]);
    kv "intellectual_property" (s "None");
    kv "scalability_approach" (s "Stateless");
    kv "current_challenges" (PList [s "Latency"]);
    kv "future_technological_needs" (PList [s "GPUs"]) ].

Definition funding_full : dict :=
  [ kv "funding_to_date" (s "50k");
    kv "funding_sources" (PList [s "Angels"]);
    kv "current_runway" (s "12 months");
    kv "funding_needed" (s "500k");
    kv "use_of_funds" (PDict [kv "Development" (s "40%")]) ].

Definition preferences_full : dict :=
  [ kv "resources_needed" (PList [s "Mentorship"]);
    kv "program_length_preference" (s "3 months");
    kv "equity_willingness" (s "Up to 5%");
    kv "relocation_willingness" (PBool false);
    kv "remote_participation" (PBool true);
    kv "specific_mentors_desired" (PList [s "Grace"]) ].

(** A profile document with every field of the schema populated. *)
Definition doc_full_data : dict :=
  [ kv "team" (PList [PDict member_full]);
    kv "basic_info" (PDict basic_info_full);
    kv "details" (PDict details_full);
    kv "technical" (PDict technical_full);
    kv "funding" (PDict funding_full);
    kv "incubator_preferences" (PDict preferences_full) ].

(** The same team member with the years of experience written as the
    string "7", as YAML reads a quoted number. *)
Definition member_quoted : dict :=
  [ kv "full_name" (s "Ada Park"); kv "role" (s "CEO");
    kv "email" (s "ada@example.com");
    kv "linkedin" (s "https://linkedin.example/ada");
    kv "github" (s "https://github.example/ada");
    kv "bio" (s "Engineer"); kv "skills" (PList [s "python"]);
    kv "years_experience" (s "7");
    kv "education" (PList [PDict [kv "degree" (s "BSc")]]) ].

(** The fully populated document with that team member. *)
Definition doc_full_quoted : dict :=
  [ kv "team" (PList [PDict member_quoted]);
    kv "basic_info" (PDict basic_info_full);
    kv "details" (PDict details_full);
    kv "technical" (PDict technical_full);
    kv "funding" (PDict funding_full);
    kv "incubator_preferences" (PDict preferences_full) ].

(** The profile that the fully populated document parses to. *)
Definition sample_profile : ProjectProfile :=
  {| team := [member_full]; basic_info := basic_info_full; details := details_full;
     technical := technical_full; funding := funding_full;
     incubator_preferences := preferences_full |}.

Definition half : float := 0.5%float.

Definition q_limited : IncubatorQuestion := new_question (py "q1") (py "ab cd") (Some 3%Z) None.
Definition q_empty : IncubatorQuestion := new_question (py "q2") [] None (Some (py "team")).
Definition q_done : IncubatorQuestion := set_answer (new_question (py "q3") (py "Why?") None None) (py "Because.").

(** An application with a profile and three questions: one the echo backend
    answers, one it fails on, one answered beforehand. *)
Definition sample_app : IncubatorApplication :=
  new_application ascii_lower (py "Seed Camp") (py "https://seed.example") (py "2024-06-30")
    [q_limited; q_empty; q_done] (Some sample_profile).

(** An application whose questions are all answered. *)
Definition answered_app : IncubatorApplication :=
  new_application ascii_lower (py "Seed Camp") (py "https://seed.example") (py "2024-06-30")
    [q_done; set_answer q_limited (py "ab")] (Some sample_profile).

(** The same application before a profile is loaded. *)
Definition bare_app : IncubatorApplication :=
  new_application ascii_lower (py "Seed Camp") (py "https://seed.example") (py "2024-06-30")
    [q_limited] None.

Definition gpt4_client : LLM :=
  {| llm_family := OpenAI; llm_api_key := Some (py "sk-test");
     llm_model_name := py "gpt-4"; llm_temperature := half |}.

(** Questions added in the order q1, q2, q3; q3 answered first, then q1. *)
Definition sample_calls : list call :=
  [ AddQuestion (py "q1") (py "Who?") None None;
    AddQuestion (py "q2") (py "What?") (Some 50%Z) None;
    AddQuestion (py "q3") (py "Why?") None (Some (py "motivation"));
    AnswerQuestion (py "q3") (py "Because.");
    AnswerQuestion (py "q1") (py "Us.") ].

(** The import that renames the sample application. *)
Definition renaming_document : TemplateData :=
  {| td_program_name := Some (py "Y Combinator");
     td_application_url := None;
     td_deadline := Some (py "2025-01-15");
     td_questions := None;
     td_answers := None |}.

(** A document whose second question is not an object. *)
Definition broken_document : TemplateData :=
  {| td_program_name := Some (py "Y Combinator");
     td_application_url := None;
     td_deadline := None;
     td_questions :=
       Some (Iterable [ EntryDict {| qd_question_id := Some (py "q9");
                                     qd_question_text := Some (py "Where?");
                                     qd_max_chars := None;
                                     qd_expected_content := None |};
                        EntryOther ]);
     td_answers := None |}.

(** A template with two questions and one answer, and a world in which every
    JSON file holds it. *)
Definition two_question_document : TemplateData :=
  {| td_program_name := None; td_application_url := None; td_deadline := None;
     td_questions :=
       Some (Iterable [ EntryDict {| qd_question_id := Some (py "q9");
                                     qd_question_text := Some (py "Where?");
                                     qd_max_chars := Some 100%Z;
                                     qd_expected_content := None |};
                        EntryDict {| qd_question_id := None;
                                     qd_question_text := Some (py "When?");
                                     qd_max_chars := None;
                                     qd_expected_content := None |} ]);
     td_answers := Some (Iterable [ EntryDict {| ad_question_id := Some (py "q9");
                                                 ad_answer := Some (py "Here.") |} ]) |}.

Definition template_world : World :=
  {| new_client := new_client echo_world; new_chain := new_chain echo_world;
     chain_run := chain_run echo_world; makedirs := makedirs echo_world;
     write_json := write_json echo_world;
     read_json := fun _ _ => Loaded two_question_document;
     read_yaml := read_yaml echo_world;
     read_yaml_raised := read_yaml_raised echo_world |}.

(** The echo world, except that the constructor of the Google client refuses
    its arguments. *)
Definition refusing_world : World :=
  {| new_client := fun _ llm => match llm_family llm with
                                | Google => Some (LibraryError (py "KeyError"))
                                | _ => None
                                end;
     new_chain := new_chain echo_world;
     chain_run := chain_run echo_world; makedirs := makedirs echo_world;
     write_json := write_json echo_world;
     read_json := read_json echo_world;
     read_yaml := read_yaml echo_world;
     read_yaml_raised := read_yaml_raised echo_world |}.

(** Environments: all three keys set; only the OpenAI key set. *)
Definition both_keys : environ :=
  [ (OPENAI_API_KEY, py "sk-openai"); (ANTHROPIC_API_KEY, py "sk-ant");
    (GOOGLE_API_KEY, py "g-key") ].

Definition openai_only : environ := [ (OPENAI_API_KEY, py "sk-openai") ].

End Examples.

(* ================================================================== *)
(** * Further vocabulary *)
(* ================================================================== *)

Module Notions.

Import Schema App Filler Template Vocabulary.

Definition is_object {A : Type} (e : entry A) : bool :=
  match e with
  | EntryDict _ => true
  | EntryOther => false
  end.

(** The value of ["questions"] or ["answers"] can be gone through: it is
    absent, or it is iterable and each of its elements is an object. *)
Definition all_objects {A : Type} (o : option (entries A)) : bool :=
  match o with
  | None => true
  | Some NotIterable => false
  | Some (Iterable l) => forallb is_object l
  end.

(** The id that a question without [question_id] gets when it becomes the
    [k]-th question of the list. *)
Definition default_id (k : nat) : pystr := py "q" ++ str_of_nat k.

(** The text of the placeholder question number [i]. *)
Definition placeholder_text (i : nat) : pystr :=
  py "Question " ++ str_of_nat i ++ py ": Replace with actual question text".

Definition placeholder_hint : pystr := py "Replace with hints about expected content".

(** The placeholder question number [i], read back from the template. *)
Definition placeholder_data (i : nat) : QuestionData :=
  {| qd_question_id := Some (default_id i);
     qd_question_text := Some (placeholder_text i);
     qd_max_chars := Some 1000%Z;
     qd_expected_content := Some placeholder_hint |}.

(** The template of [create_template], read back. *)
Definition created_template (incubator_name : pystr) (questions : Z)
  (url deadline : option pystr) : TemplateData :=
  {| td_program_name := Some incubator_name;
     td_application_url := Some (or_empty url);
     td_deadline := Some (or_empty deadline);
     td_questions :=
       Some (Iterable (map (fun i => EntryDict (placeholder_data i))
                           (seq 1 (Z.to_nat questions))));
     td_answers := None |}.

(** An entry of the exported ["answers"], read back. *)
Definition exported_answer (q : IncubatorQuestion) : AnswerData :=
  {| ad_question_id := Some (question_id q); ad_answer := Some (answer q) |}.

(** The document of [export_answers], read back. *)
Definition exported_template (app : IncubatorApplication) : TemplateData :=
  {| td_program_name := Some (program_name app);
     td_application_url := Some (application_url app);
     td_deadline := Some (deadline app);
     td_questions := None;
     td_answers :=
       Some (Iterable (map (fun q => EntryDict (exported_answer q))
                           (filter answered (questions app)))) |}.

(** The questions [qs0] after the answers of the answered questions of [qs]
    have been given to them, position by position. *)
Fixpoint restore (qs0 qs : list IncubatorQuestion) : list IncubatorQuestion :=
  match qs0, qs with
  | q0 :: qs0', q :: qs' =>
      (if answered q then set_answer q0 (answer q) else q0) :: restore qs0' qs'
  | _, _ => qs0
  end.

(** No call of the sequence is a manual answer to the id [qid]. *)
Definition no_manual_answer (qid : pystr) (cs : list call) : bool :=
  forallb (fun c => match c with
                    | AnswerQuestion i _ => negb (eqb i qid)
                    | _ => true
                    end) cs.

(** The event is a file written successfully. *)
Definition is_written (e : Event) : bool :=
  match e with
  | EvWrite _ _ true => true
  | _ => false
  end.

(** The questions after [answer_question]. *)
Definition answered_with (qs : list IncubatorQuestion) (qid a : pystr)
  : list IncubatorQuestion :=
  match answer_first qs qid a with
  | Some qs' => qs'
  | None => qs
  end.

(** The four messages [view] echoes for the [i]-th answer, for each of the
    questions [qs] in turn. *)
Fixpoint answer_blocks (i : nat) (qs : list IncubatorQuestion) : list pystr :=
  match qs with
  | [] => []
  | q :: qs' =>
      (py "Q" ++ str_of_nat i ++ py ": " ++ question_text q)
        :: View.rule :: (answer q ++ [10%N]) :: [] :: answer_blocks (S i) qs'
  end.

(** A JSON value that is not an object. *)
Definition not_object (v : pyval) : bool :=
  match v with
  | PDict _ => false
  | _ => true
  end.

(** A filled application as it is stored: the three header keys and the
    list of answers. *)
Definition stored_application (name url dl : pystr) (answers : list pyval) : pyval :=
  PDict [ (py "program_name", PStr name);
          (py "application_url", PStr url);
          (py "deadline", PStr dl);
          (py "answers", PList answers) ].

End Notions.

(* ================================================================== *)
(** * Further concrete inputs *)
(* ================================================================== *)

Module Scenarios.

Import Schema App Filler Template Vocabulary Notions Examples.

(** An application in which two questions share the id [q1]. *)
Definition duplicate_app : IncubatorApplication :=
  new_application ascii_lower (py "Seed Camp") [] (py "2024-06-30")
    [ new_question (py "q0") (py "Who?") None None;
      new_question (py "q1") (py "What?") None None;
      new_question (py "q1") (py "What else?") None None ] None.

(** A question of a template that gives a text and nothing else. *)
Definition unnamed_question : QuestionData :=
  {| qd_question_id := None; qd_question_text := Some (py "Why?");
     qd_max_chars := None; qd_expected_content := None |}.

(** A world in which the template holds two questions, the profile file
    holds the fully populated document, the backend echoes, and directories
    and files can always be written. *)
Definition filling_world : World :=
  {| new_client := new_client echo_world; new_chain := new_chain echo_world;
     chain_run := chain_run echo_world;
     makedirs := fun _ _ => true;
     write_json := fun _ _ => true;
     read_json := fun _ _ => Loaded two_question_document;
     read_yaml := fun _ _ => Some (Some (PDict doc_full_data));
     read_yaml_raised := read_yaml_raised echo_world |}.

(** A run of [fill] in that world, with a key and an output path given. *)
Definition filled_run : outcome * Trace :=
  fill ascii_lower strict filling_world (py "t.json") (py "p.yaml")
    (Some (py "out/a.json")) (Some (py "sk-test")) (py "gpt-4") half [] [].

Definition filled_app : IncubatorApplication :=
  match fst filled_run with
  | Filled app _ => app
  | _ => bare_app
  end.

(** The sample application with its answers taken away. *)
Definition reset_app : IncubatorApplication :=
  new_application ascii_lower (py "Seed Camp") (py "https://seed.example") (py "2024-06-30")
    [ q_limited; q_empty; new_question (py "q3") (py "Why?") None None ] None.

End Scenarios.

(* ================================================================== *)
(** * Facts about strings *)
(* ================================================================== *)

Module PyStrFacts.

Lemma eqb_eq (s t : pystr) : eqb s t = true <-> s = t.
Proof.
  revert t; induction s as [|a s IH]; intros [|b t]; simpl; split; intro H;
    try reflexivity; try discriminate.
  - apply andb_true_iff in H as [Hab Hst].
    apply N.eqb_eq in Hab. apply IH in Hst. congruence.
  - injection H as -> ->. rewrite N.eqb_refl. simpl. apply IH. reflexivity.
Qed.

Lemma eqb_refl (s : pystr) : eqb s s = true.
Proof. apply eqb_eq. reflexivity. Qed.

Lemma lstrip_length (s : pystr) : (length (lstrip s) <= length s)%nat.
Proof.
  induction s as [|c s IH]; simpl; [lia|].
  destruct (is_space c); simpl; lia.
Qed.

Lemma strip_length (s : pystr) : (length (strip s) <= length s)%nat.
Proof.
  unfold strip, rstrip. rewrite length_rev.
  etransitivity; [apply lstrip_length|]. rewrite length_rev. apply lstrip_length.
Qed.

Lemma lstrip_head (c : N) (s : pystr) : is_space c = false -> lstrip (c :: s) = c :: s.
Proof. intro H. simpl. rewrite H. reflexivity. Qed.

(** Stripping leaves a string alone when neither end is whitespace. *)
Lemma strip_id (s : pystr) (a b : N) :
  hd_error s = Some a -> hd_error (rev s) = Some b ->
  is_space a = false -> is_space b = false -> strip s = s.
Proof.
  intros Ha Hb Hsa Hsb. unfold strip, rstrip.
  destruct s as [|x s]; [discriminate|]. simpl in Ha. injection Ha as ->.
  rewrite lstrip_head by assumption.
  destruct (rev (a :: s)) as [|y r] eqn:E; [discriminate|].
  simpl in Hb. injection Hb as ->.
  rewrite lstrip_head by assumption. rewrite <- E. apply rev_involutive.
Qed.

End PyStrFacts.

Import PyStrFacts.

(* ================================================================== *)
(** * Facts about the profile schema *)
(* ================================================================== *)

Module SchemaFacts.

Import Schema Vocabulary.

Lemma eqb_sym (a b : pystr) : eqb a b = eqb b a.
Proof.
  destruct (eqb a b) eqn:E1, (eqb b a) eqn:E2; try reflexivity.
  - apply eqb_eq in E1. subst. rewrite eqb_refl in E2. discriminate.
  - apply eqb_eq in E2. subst. rewrite eqb_refl in E1. discriminate.
Qed.

Section Generic.

Variable validate : ftype -> pyval -> option pyval.

(** A constructed model has the declared fields, in order, whatever the keys
    of the input were. *)
Lemma validate_model_keys (fs : list field) (data : dict) (m : model) :
  validate_model validate fs data = Some m -> dict_keys m = map f_name fs.
Proof.
  revert m; induction fs as [|f fs IH]; intros m H; simpl in H.
  - injection H as <-. reflexivity.
  - destruct (match dict_get data (f_name f) with
              | Some v => validate (f_type f) v
              | None => f_default f
              end) as [v|]; [|discriminate].
    destruct (validate_model validate fs data) as [m'|]; [|discriminate].
    injection H as <-. simpl. f_equal. apply IH. reflexivity.
Qed.

(** Looking a key up in a constructed model finds the value of the first
    declared field of that name. *)
Lemma validate_model_lookup (fs : list field) (data : dict) (m : model) (k : pystr) :
  validate_model validate fs data = Some m ->
  dict_get m k = match find (fun f => eqb (f_name f) k) fs with
                 | Some f => field_value validate data f
                 | None => None
                 end.
Proof.
  revert m; induction fs as [|f fs IH]; intros m H; simpl in H.
  - injection H as <-. reflexivity.
  - fold (field_value validate data f) in H.
    destruct (field_value validate data f) as [v|] eqn:Ev; [|discriminate].
    destruct (validate_model validate fs data) as [m'|]; [|discriminate].
    injection H as <-. simpl.
    destruct (eqb (f_name f) k); [symmetry; exact Ev|].
    apply IH. reflexivity.
Qed.

Lemma find_own (fs : list field) (f : field) :
  distinct_names fs = true -> In f fs ->
  find (fun g => eqb (f_name g) (f_name f)) fs = Some f.
Proof.
  induction fs as [|a fs IH]; intros Hd Hin; [destruct Hin|].
  simpl in Hd. apply andb_true_iff in Hd as [Hfresh Hd].
  simpl. destruct Hin as [->|Hin].
  - rewrite eqb_refl. reflexivity.
  - destruct (eqb (f_name a) (f_name f)) eqn:E; [|apply IH; assumption].
    exfalso. apply negb_true_iff in Hfresh.
    assert (existsb (fun g => eqb (f_name g) (f_name a)) fs = true) as Hex.
    { apply existsb_exists. exists f. split; [assumption|].
      rewrite eqb_sym. exact E. }
    congruence.
Qed.

(** A construction that succeeds stored, for every declared field, the value
    the field takes from the input. *)
Lemma validate_model_field (fs : list field) (data : dict) (m : model) (f : field) :
  distinct_names fs = true -> In f fs ->
  validate_model validate fs data = Some m ->
  dict_get m (f_name f) = field_value validate data f.
Proof.
  intros Hd Hin H. rewrite (@validate_model_lookup fs data m (f_name f) H).
  rewrite (@find_own fs f Hd Hin). reflexivity.
Qed.

(** A required field that the input lacks fails the construction. *)
Lemma validate_model_missing (fs : list field) (data : dict) (f : field) :
  In f fs -> f_default f = None -> dict_get data (f_name f) = None ->
  validate_model validate fs data = None.
Proof.
  induction fs as [|a fs IH]; intros Hin Hreq Hget; [destruct Hin|].
  simpl. destruct Hin as [->|Hin].
  - rewrite Hget, Hreq. reflexivity.
  - rewrite (IH Hin Hreq Hget).
    destruct (match dict_get data (f_name a) with
              | Some v => validate (f_type a) v
              | None => f_default a
              end); reflexivity.
Qed.

Lemma defaults_none_field (fs : list field) (f : field) (v : pyval) :
  defaults_none fs = true -> In f fs -> f_default f = Some v -> v = PNone.
Proof.
  unfold defaults_none. intros H Hin Hv.
  rewrite forallb_forall in H. specialize (H f Hin). rewrite Hv in H.
  destruct v; try discriminate. reflexivity.
Qed.

(** What a successful construction reproduces. *)
Lemma validate_model_reproduces (fs : list field) (data : dict) (m : model) :
  distinct_names fs = true -> defaults_none fs = true ->
  validate_model validate fs data = Some m ->
  reproduces validate fs data m.
Proof.
  intros Hd Hn H. split; [eapply validate_model_keys; eassumption|].
  intros f Hin. pose proof (@validate_model_field fs data m f Hd Hin H) as Hf.
  unfold field_value in Hf.
  destruct (dict_get data (f_name f)) as [v|] eqn:Eget.
  - intros Hv. rewrite Hf. exact Hv.
  - rewrite Hf. destruct (f_default f) as [v|] eqn:Edef.
    + f_equal. eapply defaults_none_field; eassumption.
    + rewrite (@validate_model_missing fs data f Hin Edef Eget) in H. discriminate.
Qed.

(** What a successful [build_profile] went through. *)
Lemma build_profile_ok (d : dict) (p : ProjectProfile) :
  build_profile validate (PDict d) = inr p ->
  (exists members, py_iter (get_or d (py "team") (PList [])) = Some members /\
                   construct_team validate members = inr (team p)) /\
  construct validate ProjectBasicInfo (get_or d (py "basic_info") (PDict [])) = inr (basic_info p) /\
  construct validate ProjectDetails (get_or d (py "details") (PDict [])) = inr (details p) /\
  construct validate TechnicalDetails (get_or d (py "technical") (PDict [])) = inr (technical p) /\
  construct validate Funding (get_or d (py "funding") (PDict [])) = inr (funding p) /\
  construct validate IncubatorPreferences (get_or d (py "incubator_preferences") (PDict []))
    = inr (incubator_preferences p).
Proof.
  unfold build_profile, construct_section. intro H.
  destruct (py_iter _) as [members|] eqn:E0; [|discriminate].
  destruct (construct_team validate members) as [e|t] eqn:E1; [discriminate|].
  destruct (construct validate ProjectBasicInfo _) as [e|b] eqn:E2; [discriminate|].
  destruct (construct validate ProjectDetails _) as [e|dt] eqn:E3; [discriminate|].
  destruct (construct validate TechnicalDetails _) as [e|tc] eqn:E4; [discriminate|].
  destruct (construct validate Funding _) as [e|fu] eqn:E5; [discriminate|].
  destruct (construct validate IncubatorPreferences _) as [e|ip] eqn:E6; [discriminate|].
  injection H as <-. simpl. repeat split; try reflexivity.
  exists members. split; [reflexivity|exact E1].
Qed.

(** Every section of a parsed profile was constructed from the section of
    the document, or from the empty mapping when the document has none. *)
Lemma build_profile_section (d : dict) (p : ProjectProfile) (sec : pystr) (fs : list field) :
  build_profile validate (PDict d) = inr p -> In (sec, fs) sections ->
  exists m, section_of p sec = Some m /\
            construct validate fs (get_or d sec (PDict [])) = inr m.
Proof.
  intros H Hin. apply build_profile_ok in H as (_ & Hb & Hd & Ht & Hf & Hi).
  unfold sections in Hin. simpl in Hin.
  destruct Hin as [E|[E|[E|[E|[E|[]]]]]]; injection E as <- <-;
    eexists; (split; [reflexivity|eassumption]).
Qed.

Lemma construct_ok (fs : list field) (v : pyval) (m : model) :
  construct validate fs v = inr m ->
  exists data, v = PDict data /\ validate_model validate fs data = Some m.
Proof.
  unfold construct. intro H. destruct v; try discriminate.
  destruct (validate_model validate fs d) as [m'|] eqn:E; [|discriminate].
  injection H as <-. eexists. split; [reflexivity|exact E].
Qed.

Lemma construct_team_ok (members : list pyval) (ms : list model) :
  construct_team validate members = inr ms ->
  Forall2 (fun v m => exists data, v = PDict data /\
                                   validate_model validate TeamMember data = Some m)
          members ms.
Proof.
  revert ms; induction members as [|v members IH]; intros ms H; simpl in H.
  - injection H as <-. constructor.
  - destruct (construct validate TeamMember v) as [e|m] eqn:E; [discriminate|].
    destruct (construct_team validate members) as [e|ms'] eqn:E'; [discriminate|].
    injection H as <-. constructor; [apply construct_ok; exact E|apply IH; reflexivity].
Qed.

(** A section that cannot be constructed fails the whole profile. *)
Lemma build_profile_section_fails (d : dict) (sec : pystr) (fs : list field) (e : pyerror) :
  In (sec, fs) sections ->
  construct validate fs (get_or d sec (PDict [])) = inl e ->
  exists e', build_profile validate (PDict d) = inl e'.
Proof.
  intros Hin Hc.
  destruct (build_profile validate (PDict d)) as [e'|p] eqn:E; [exists e'; reflexivity|].
  destruct (@build_profile_section d p sec fs E Hin) as (m & _ & Hm). congruence.
Qed.

(** A team member that cannot be constructed fails the whole profile. *)
Lemma construct_team_fails (members : list pyval) (v : pyval) (e : pyerror) :
  In v members -> construct validate TeamMember v = inl e ->
  exists e', construct_team validate members = inl e'.
Proof.
  induction members as [|a members IH]; intros Hin Hc; [destruct Hin|].
  simpl. destruct Hin as [->|Hin].
  - rewrite Hc. eexists; reflexivity.
  - destruct (construct validate TeamMember a); [eexists; reflexivity|].
    destruct (IH Hin Hc) as [e' ->]. eexists; reflexivity.
Qed.

End Generic.

End SchemaFacts.

(* ================================================================== *)
(** * Facts about the application model *)
(* ================================================================== *)

Module AppFacts.

Import Schema App Vocabulary.

Lemma set_questions_same (app : IncubatorApplication) :
  set_questions app (questions app) = app.
Proof. destruct app; reflexivity. Qed.

Section Loop.

Variable w : World.
Variable llm : LLM.
Variable pd : dict.

Lemma generate_one_answered (q : IncubatorQuestion) (tr : Trace) :
  answered q = true -> generate_one w llm pd q tr = (None, q, tr).
Proof. intro H. unfold generate_one. rewrite H. reflexivity. Qed.

Lemma generate_one_unanswered (q : IncubatorQuestion) (tr : Trace) :
  answered q = false ->
  generate_one w llm pd q tr =
    match new_chain w tr llm with
    | Some e => (Some e, q, tr)
    | None =>
        (None,
         match chain_run w tr llm (chain_inputs pd q) with
         | Some response => set_answer q (trim_response q response)
         | None => q
         end,
         tr ++ [EvChainRun llm (chain_inputs pd q) (chain_run w tr llm (chain_inputs pd q))])
    end.
Proof.
  intro H. unfold generate_one. rewrite H.
  destruct (new_chain w tr llm); [reflexivity|].
  destruct (chain_run w tr llm (chain_inputs pd q)); reflexivity.
Qed.

(** One turn of the loop never touches what [add_question] fixed. *)
Lemma generate_one_describe (q : IncubatorQuestion) (tr : Trace) :
  describe (snd (fst (generate_one w llm pd q tr))) = describe q.
Proof.
  unfold generate_one. destruct (answered q); [reflexivity|].
  destruct (new_chain w tr llm); [reflexivity|].
  destruct (chain_run w tr llm (chain_inputs pd q)); reflexivity.
Qed.

Lemma generate_loop_cons (q : IncubatorQuestion) (qs : list IncubatorQuestion) (tr : Trace) :
  generate_loop w llm pd (q :: qs) tr =
    match fst (fst (generate_one w llm pd q tr)) with
    | Some e =>
        (Some e, snd (fst (generate_one w llm pd q tr)) :: qs, snd (generate_one w llm pd q tr))
    | None =>
        (fst (fst (generate_loop w llm pd qs (snd (generate_one w llm pd q tr)))),
         snd (fst (generate_one w llm pd q tr))
           :: snd (fst (generate_loop w llm pd qs (snd (generate_one w llm pd q tr)))),
         snd (generate_loop w llm pd qs (snd (generate_one w llm pd q tr))))
    end.
Proof.
  simpl. destruct (generate_one w llm pd q tr) as [[[e|] q'] tr1]; [reflexivity|].
  cbn [fst snd]. destruct (generate_loop w llm pd qs tr1) as [[r qs'] tr2]. reflexivity.
Qed.

(** The loop over a concatenation is the loop over its parts, the second
    started in the history the first leaves -- if the first is not left by
    an exception. *)
Lemma generate_loop_app (pre post : list IncubatorQuestion) (tr : Trace) :
  generate_loop w llm pd (pre ++ post) tr =
    match fst (fst (generate_loop w llm pd pre tr)) with
    | Some e =>
        (Some e, snd (fst (generate_loop w llm pd pre tr)) ++ post,
         snd (generate_loop w llm pd pre tr))
    | None =>
        (fst (fst (generate_loop w llm pd post (snd (generate_loop w llm pd pre tr)))),
         snd (fst (generate_loop w llm pd pre tr))
           ++ snd (fst (generate_loop w llm pd post (snd (generate_loop w llm pd pre tr)))),
         snd (generate_loop w llm pd post (snd (generate_loop w llm pd pre tr))))
    end.
Proof.
  revert tr; induction pre as [|q pre IH]; intro tr.
  - cbn [generate_loop fst snd app].
    destruct (generate_loop w llm pd post tr) as [[r qs] tr1]. reflexivity.
  - change ((q :: pre) ++ post) with (q :: (pre ++ post)).
    rewrite !generate_loop_cons.
    destruct (fst (fst (generate_one w llm pd q tr))) as [e|]; [reflexivity|].
    rewrite IH. cbn [fst snd].
    destruct (fst (fst (generate_loop w llm pd pre (snd (generate_one w llm pd q tr)))));
      reflexivity.
Qed.

Lemma generate_loop_length (qs : list IncubatorQuestion) (tr : Trace) :
  length (snd (fst (generate_loop w llm pd qs tr))) = length qs.
Proof.
  revert tr; induction qs as [|q qs IH]; intro tr; [reflexivity|].
  rewrite generate_loop_cons.
  destruct (fst (fst (generate_one w llm pd q tr))); cbn [fst snd length];
    [reflexivity|rewrite IH; reflexivity].
Qed.

(** The loop never touches what [add_question] fixed. *)
Lemma generate_loop_describe (qs : list IncubatorQuestion) (tr : Trace) :
  map describe (snd (fst (generate_loop w llm pd qs tr))) = map describe qs.
Proof.
  revert tr; induction qs as [|q qs IH]; intro tr; [reflexivity|].
  rewrite generate_loop_cons.
  destruct (fst (fst (generate_one w llm pd q tr))); cbn [fst snd map];
    rewrite generate_one_describe; [reflexivity|rewrite IH; reflexivity].
Qed.

(** On questions that are all answered the loop does nothing. *)
Lemma generate_loop_all_answered (qs : list IncubatorQuestion) (tr : Trace) :
  forallb answered qs = true -> generate_loop w llm pd qs tr = (None, qs, tr).
Proof.
  revert tr; induction qs as [|q qs IH]; intros tr H; [reflexivity|].
  simpl in H. apply andb_true_iff in H as [Hq Hqs].
  rewrite generate_loop_cons, generate_one_answered by assumption.
  cbn [fst snd]. rewrite IH by assumption. reflexivity.
Qed.

(** When every chain can be constructed, no exception leaves the loop. *)
Lemma generate_loop_completes (qs : list IncubatorQuestion) (tr : Trace) :
  (forall h, new_chain w h llm = None) ->
  fst (fst (generate_loop w llm pd qs tr)) = None.
Proof.
  intro Hbuilt. revert tr; induction qs as [|q qs IH]; intro tr; [reflexivity|].
  rewrite generate_loop_cons. unfold generate_one at 1.
  destruct (answered q) eqn:Ha.
  - cbn [fst snd]. apply IH.
  - rewrite Hbuilt.
    destruct (chain_run w tr llm (chain_inputs pd q)); cbn [fst snd]; apply IH.
Qed.

(** A loop that no exception leaves has made one call per unanswered
    question, in question order, and every call that does not fail answers
    its question. *)
Lemma generate_loop_calls (qs : list IncubatorQuestion) (tr : Trace) :
  fst (fst (generate_loop w llm pd qs tr)) = None ->
  exists ev,
    snd (generate_loop w llm pd qs tr) = tr ++ ev /\
    Forall2 (call_for llm pd) ev (unanswered qs) /\
    length (filter answered (snd (fst (generate_loop w llm pd qs tr))))
      + length (filter is_failure ev)
    = length (filter answered qs) + length (unanswered qs).
Proof.
  revert tr; induction qs as [|q qs IH]; intro tr.
  - intros _. exists []. simpl. rewrite app_nil_r. repeat split. constructor.
  - rewrite generate_loop_cons. unfold unanswered. cbn [filter].
    destruct (answered q) eqn:Ha.
    + rewrite generate_one_answered by assumption. cbn [fst snd negb filter].
      rewrite Ha. intro Hnone.
      destruct (IH tr Hnone) as (ev & Htr & Hcalls & Hcount).
      exists ev. repeat split; try assumption. simpl. unfold unanswered in Hcount. lia.
    + rewrite generate_one_unanswered by assumption.
      destruct (new_chain w tr llm); [discriminate|]. cbn [fst snd negb].
      set (r := chain_run w tr llm (chain_inputs pd q)). intro Hnone.
      destruct (IH (tr ++ [EvChainRun llm (chain_inputs pd q) r]) Hnone)
        as (ev & Htr & Hcalls & Hcount).
      exists (EvChainRun llm (chain_inputs pd q) r :: ev).
      split; [rewrite Htr, <- app_assoc; reflexivity|].
      split; [constructor; [exists r; reflexivity|exact Hcalls]|].
      unfold unanswered in Hcount. destruct r as [response|]; simpl.
      * lia.
      * rewrite Ha. simpl. lia.
Qed.

(** What the loop does to the question at a given position, when it gets
    there: it depends on the history the questions before it leave. *)
Lemma generate_loop_at (pre post : list IncubatorQuestion) (q : IncubatorQuestion) (tr : Trace) :
  fst (fst (generate_loop w llm pd pre tr)) = None ->
  nth_error (snd (fst (generate_loop w llm pd (pre ++ q :: post) tr))) (length pre)
  = Some (snd (fst (generate_one w llm pd q (snd (generate_loop w llm pd pre tr))))).
Proof.
  intro Hpre. rewrite generate_loop_app, Hpre. cbn [fst snd].
  rewrite nth_error_app2 by (rewrite generate_loop_length; lia).
  rewrite generate_loop_length, Nat.sub_diag.
  rewrite (generate_loop_cons q post).
  destruct (fst (fst (generate_one w llm pd q (snd (generate_loop w llm pd pre tr)))));
    reflexivity.
Qed.

(** When the loop reaches an unanswered question, it has made one call per
    unanswered question before it, and its next call is the one for this
    question, answered by the world in the history reached. *)
Lemma generate_loop_reaches (pre post : list IncubatorQuestion) (q : IncubatorQuestion)
  (tr : Trace) :
  answered q = false ->
  fst (fst (generate_loop w llm pd (pre ++ q :: post) tr)) = None ->
  exists ev1 ev3,
    history_before w llm pd pre tr = tr ++ ev1 /\
    length ev1 = length (unanswered pre) /\
    snd (generate_loop w llm pd (pre ++ q :: post) tr)
    = tr ++ ev1
         ++ EvChainRun llm (chain_inputs pd q)
              (chain_run w (history_before w llm pd pre tr) llm (chain_inputs pd q))
         :: ev3.
Proof.
  intros Ha. unfold history_before.
  rewrite generate_loop_app.
  destruct (fst (fst (generate_loop w llm pd pre tr))) eqn:Hpre; [discriminate|].
  destruct (generate_loop_calls pre tr Hpre) as (ev1 & Htr1 & Hcalls & _).
  cbn [fst snd].
  rewrite (generate_loop_cons q post), generate_one_unanswered by assumption.
  destruct (new_chain w (snd (generate_loop w llm pd pre tr)) llm); [discriminate|].
  cbn [fst snd]. intro Hpost.
  destruct (generate_loop_calls post _ Hpost) as (ev3 & Htr3 & _).
  exists ev1, ev3. split; [exact Htr1|].
  split; [apply (Forall2_length Hcalls)|].
  rewrite Htr3, Htr1, <- !app_assoc. reflexivity.
Qed.

(** Whatever happens, the loop only adds calls of [chain.run] to the
    history. *)
Lemma generate_loop_history (qs : list IncubatorQuestion) (tr : Trace) :
  exists ev,
    snd (generate_loop w llm pd qs tr) = tr ++ ev /\
    Forall (fun e => exists i r, e = EvChainRun llm i r) ev.
Proof.
  revert tr; induction qs as [|q qs IH]; intro tr.
  - exists []. split; [symmetry; apply app_nil_r|constructor].
  - rewrite generate_loop_cons. unfold generate_one.
    destruct (answered q).
    + cbn [fst snd]. apply IH.
    + destruct (new_chain w tr llm).
      * exists []. split; [symmetry; apply app_nil_r|constructor].
      * set (r := chain_run w tr llm (chain_inputs pd q)).
        assert (exists ev,
                   snd (generate_loop w llm pd qs (tr ++ [EvChainRun llm (chain_inputs pd q) r]))
                   = tr ++ ev
                   /\ Forall (fun e => exists i r, e = EvChainRun llm i r) ev) as Hrest.
        { destruct (IH (tr ++ [EvChainRun llm (chain_inputs pd q) r])) as (ev & Htr & Hev).
          exists (EvChainRun llm (chain_inputs pd q) r :: ev).
          split; [rewrite Htr, <- app_assoc; reflexivity|].
          constructor; [exists (chain_inputs pd q), r; reflexivity|exact Hev]. }
        destruct r; cbn [fst snd]; exact Hrest.
Qed.

End Loop.

Section Methods.

Variable validate : ftype -> pyval -> option pyval.
Variable w : World.

Lemma answer_first_describe (qs qs' : list IncubatorQuestion) (i a : pystr) :
  answer_first qs i a = Some qs' -> map describe qs' = map describe qs.
Proof.
  revert qs'; induction qs as [|q qs IH]; intros qs' H; simpl in H; [discriminate|].
  destruct (eqb (question_id q) i).
  - injection H as <-. reflexivity.
  - destruct (answer_first qs i a) as [qs''|]; [|discriminate].
    injection H as <-. simpl. f_equal. apply IH. reflexivity.
Qed.

Lemma answer_question_describe (i a : pystr) (app : IncubatorApplication) :
  map describe (questions (snd (answer_question i a app))) = map describe (questions app).
Proof.
  unfold answer_question.
  destruct (answer_first (questions app) i a) as [qs|] eqn:E; [|reflexivity].
  simpl. eapply answer_first_describe. eassumption.
Qed.

(** What [generate_answers] does once the client is constructed: the loop
    decides. *)
Lemma generate_answers_loop (k : option pystr) (model : pystr) (temp : float)
  (app : IncubatorApplication) (tr : Trace) (profile : ProjectProfile) (llm : LLM) :
  project_profile app = Some profile ->
  select_llm k model temp = Some llm ->
  new_client w tr llm = None ->
  generate_answers w k model temp app tr
  = (match fst (fst (generate_loop w llm (to_dict profile) (questions app)
                       (tr ++ [EvClient llm]))) with
     | Some e => Raise (Propagated e)
     | None => Ok (filter answered
                     (snd (fst (generate_loop w llm (to_dict profile) (questions app)
                                  (tr ++ [EvClient llm])))))
     end,
     set_questions app (snd (fst (generate_loop w llm (to_dict profile) (questions app)
                                    (tr ++ [EvClient llm])))),
     snd (generate_loop w llm (to_dict profile) (questions app) (tr ++ [EvClient llm]))).
Proof.
  intros Hp Hs Hc. unfold generate_answers. rewrite Hp, Hs, Hc.
  destruct (generate_loop w llm (to_dict profile) (questions app) (tr ++ [EvClient llm]))
    as [[[e|] qs] tr1]; reflexivity.
Qed.

(** [generate_answers] either leaves everything as it was, or it has
    constructed a client and gone into the loop. *)
Lemma generate_answers_cases (k : option pystr) (model : pystr) (temp : float)
  (app : IncubatorApplication) (tr : Trace) :
  (exists e, generate_answers w k model temp app tr = (Raise e, app, tr))
  \/ (exists profile llm,
        project_profile app = Some profile
        /\ select_llm k model temp = Some llm
        /\ new_client w tr llm = None).
Proof.
  unfold generate_answers.
  destruct (project_profile app) as [p|]; [|left; eexists; reflexivity].
  destruct (select_llm k model temp) as [llm|]; [|left; eexists; reflexivity].
  destruct (new_client w tr llm) eqn:Hc; [left; eexists; reflexivity|].
  right. exists p, llm. repeat split. exact Hc.
Qed.

Lemma generate_answers_describe (k : option pystr) (model : pystr) (temp : float)
  (app : IncubatorApplication) (tr : Trace) :
  map describe (questions (snd (fst (generate_answers w k model temp app tr))))
  = map describe (questions app).
Proof.
  destruct (generate_answers_cases k model temp app tr)
    as [[e He]|(p & llm & Hp & Hs & Hc)].
  - rewrite He. reflexivity.
  - rewrite (generate_answers_loop k model temp app tr p llm Hp Hs Hc). cbn [fst snd questions set_questions].
    apply generate_loop_describe.
Qed.

Lemma load_project_profile_questions (path : pystr) (app : IncubatorApplication) (tr : Trace) :
  questions (snd (load_project_profile validate w path app tr)) = questions app.
Proof.
  unfold load_project_profile.
  destruct (read_yaml w tr path) as [loaded|]; [|reflexivity].
  destruct (from_yaml validate loaded); reflexivity.
Qed.

(** A call changes the list of questions only by appending what it adds. *)
Lemma step_describe (st : IncubatorApplication * Trace) (c : call) :
  map describe (questions (fst (step validate w st c)))
  = map describe (questions (fst st)) ++ added [c].
Proof.
  destruct st as [app tr]. destruct c; simpl.
  - rewrite map_app. reflexivity.
  - rewrite app_nil_r. apply answer_question_describe.
  - rewrite app_nil_r.
    pose proof (generate_answers_describe api_key model_name temperature app tr) as H.
    destruct (generate_answers w api_key model_name temperature app tr) as [[r app'] tr'].
    exact H.
  - rewrite app_nil_r, load_project_profile_questions. reflexivity.
Qed.

Lemma added_app (cs cs' : list call) : added (cs ++ cs') = added cs ++ added cs'.
Proof. unfold added. apply flat_map_app. Qed.

Lemma run_describe (cs : list call) (st : IncubatorApplication * Trace) :
  map describe (questions (fst (run validate w cs st)))
  = map describe (questions (fst st)) ++ added cs.
Proof.
  revert st; induction cs as [|c cs IH]; intro st.
  - simpl. rewrite app_nil_r. reflexivity.
  - change (run validate w (c :: cs) st) with (run validate w cs (step validate w st c)).
    rewrite IH, step_describe. change (c :: cs) with ([c] ++ cs).
    rewrite added_app, app_assoc. reflexivity.
Qed.

(** No call touches the name, the URL, the deadline or the id. *)
Lemma step_metadata (st : IncubatorApplication * Trace) (c : call) :
  let app := fst st in
  let app' := fst (step validate w st c) in
  program_name app' = program_name app /\ application_url app' = application_url app /\
  deadline app' = deadline app /\ id app' = id app.
Proof.
  destruct st as [app tr]. destruct c; simpl.
  - repeat split.
  - unfold answer_question. destruct (answer_first _ _ _); repeat split.
  - destruct (generate_answers_cases api_key model_name temperature app tr)
      as [[e He]|(p & llm & Hp & Hs & Hc)].
    + rewrite He. repeat split.
    + rewrite (generate_answers_loop api_key model_name temperature app tr p llm Hp Hs Hc).
      repeat split.
  - unfold load_project_profile.
    destruct (read_yaml w tr profile_path) as [loaded|]; [|repeat split].
    destruct (from_yaml validate loaded); repeat split.
Qed.

Lemma run_metadata (cs : list call) (st : IncubatorApplication * Trace) :
  let app := fst st in
  let app' := fst (run validate w cs st) in
  program_name app' = program_name app /\ application_url app' = application_url app /\
  deadline app' = deadline app /\ id app' = id app.
Proof.
  revert st; induction cs as [|c cs IH]; intro st; [repeat split|].
  change (run validate w (c :: cs) st) with (run validate w cs (step validate w st c)).
  destruct (IH (step validate w st c)) as (H1 & H2 & H3 & H4).
  destruct (step_metadata st c) as (G1 & G2 & G3 & G4).
  simpl in *. repeat split; congruence.
Qed.

End Methods.

End AppFacts.

(* ================================================================== *)
(** * Facts about imports and credentials *)
(* ================================================================== *)

Module ImportFacts.

Import Schema App Filler Vocabulary AppFacts.

Lemma imported_app (n : nat) (l l' : list QuestionData) :
  imported n (l ++ l') = imported n l ++ imported (n + length l) l'.
Proof.
  revert n; induction l as [|q l IH]; intro n; simpl.
  - rewrite Nat.add_0_r. reflexivity.
  - rewrite IH. do 3 f_equal. lia.
Qed.

(** The loop over the document's questions appends one question per object
    it gets through, and stops at the first element that is no object. *)
Lemma add_all_appends (l : list (entry QuestionData)) (app : IncubatorApplication)
  (ok : bool) (app' : IncubatorApplication) :
  add_all l app = (ok, app') ->
  exists qds,
    questions app' = questions app ++ imported (length (questions app)) qds /\
    program_name app' = program_name app /\ application_url app' = application_url app /\
    deadline app' = deadline app /\ id app' = id app /\
    project_profile app' = project_profile app /\
    (ok = true -> l = map EntryDict qds) /\
    (ok = false -> exists rest, l = map EntryDict qds ++ EntryOther :: rest).
Proof.
  revert app; induction l as [|[q|] l IH]; intros app H; simpl in H.
  - injection H as <- <-. exists []. simpl. rewrite app_nil_r.
    repeat split; try reflexivity. discriminate.
  - apply IH in H as (qds & Hq & Hn & Hu & Hd & Hi & Hp & Hok & Hko).
    exists (q :: qds). simpl in *.
    rewrite length_app in Hq. simpl in Hq.
    replace (length (questions app) + 1) with (S (length (questions app))) in Hq by lia.
    rewrite <- app_assoc in Hq. simpl in Hq.
    unfold default_question_id in Hq.
    repeat split; try assumption.
    + intro E. rewrite (Hok E). reflexivity.
    + intro E. destruct (Hko E) as [rest ->]. exists rest. reflexivity.
  - injection H as <- <-. exists []. simpl. rewrite app_nil_r.
    repeat split; try reflexivity; [discriminate|].
    intros _. exists l. reflexivity.
Qed.

Lemma answer_from_data_describe (a : AnswerData) (app : IncubatorApplication) :
  map describe (questions (answer_from_data a app)) = map describe (questions app).
Proof.
  unfold answer_from_data. destruct (ad_question_id a); [|reflexivity].
  apply answer_question_describe.
Qed.

(** The loop over the document's answers leaves the list of questions as
    long as it was, each question with the id, text, limit and hint it had. *)
Lemma answer_all_describe (l : list (entry AnswerData)) (app : IncubatorApplication) :
  map describe (questions (snd (answer_all l app))) = map describe (questions app).
Proof.
  revert app; induction l as [|[a|] l IH]; intro app; simpl; try reflexivity.
  rewrite IH. apply answer_from_data_describe.
Qed.

Lemma answer_all_ok (l : list (entry AnswerData)) (app app2 : IncubatorApplication) :
  fst (answer_all l app) = fst (answer_all l app2).
Proof.
  revert app app2; induction l as [|[a|] l IH]; intros app app2; simpl; try reflexivity.
  apply IH.
Qed.

Lemma add_all_ok (l : list (entry QuestionData)) (app app2 : IncubatorApplication) :
  fst (add_all l app) = fst (add_all l app2).
Proof.
  revert app app2; induction l as [|[q|] l IH]; intros app app2; simpl; try reflexivity.
  apply IH.
Qed.

(** Whether an import succeeds depends on the document alone. *)
Lemma load_from_data_ok (loaded : LoadedJson) (app app2 : IncubatorApplication) :
  fst (load_from_data loaded app) = fst (load_from_data loaded app2).
Proof.
  destruct loaded as [| | |d]; try reflexivity. simpl.
  destruct (match td_questions d with Some qs => qs | None => Iterable [] end) as [qs|];
    [|reflexivity].
  pose proof (add_all_ok qs
    (set_metadata app
       (match td_program_name d with Some s => s | None => program_name app end)
       (match td_application_url d with Some s => s | None => application_url app end)
       (match td_deadline d with Some s => s | None => deadline app end))
    (set_metadata app2
       (match td_program_name d with Some s => s | None => program_name app2 end)
       (match td_application_url d with Some s => s | None => application_url app2 end)
       (match td_deadline d with Some s => s | None => deadline app2 end))) as H.
  destruct (add_all qs (set_metadata app _ _ _)) as [[|] a1];
    destruct (add_all qs (set_metadata app2 _ _ _)) as [[|] a2];
    simpl in H; try discriminate; try reflexivity.
  destruct (match td_answers d with Some l => l | None => Iterable [] end) as [l|];
    [|reflexivity].
  apply answer_all_ok.
Qed.

Lemma objects_map {A : Type} (l : list A) : objects (map EntryDict l) = l.
Proof. induction l as [|a l IH]; simpl; [reflexivity|rewrite IH; reflexivity]. Qed.

(** A successful import appends the document's questions to the list. *)
Lemma load_from_data_appends (d : TemplateData) (app app' : IncubatorApplication) :
  load_from_data (Loaded d) app = (true, app') ->
  map describe (questions app')
  = map describe (questions app)
    ++ map describe (imported (length (questions app)) (document_questions d)).
Proof.
  unfold load_from_data, document_questions. intro H.
  destruct (td_questions d) as [[qs|]|]; try discriminate.
  - destruct (add_all qs _) as [[|] app2] eqn:Eadd; [|discriminate].
    apply add_all_appends in Eadd as (qds & Hq & _ & _ & _ & _ & _ & Hok & _).
    rewrite (Hok eq_refl), objects_map. simpl in Hq.
    assert (map describe (questions app') = map describe (questions app2)) as ->.
    { destruct (match td_answers d with Some l => l | None => Iterable [] end) as [l|];
        [|discriminate].
      pose proof (answer_all_describe l app2) as Hd. rewrite H in Hd. exact Hd. }
    rewrite Hq, map_app. reflexivity.
  - simpl in H.
    assert (map describe (questions app') = map describe (questions app)) as ->.
    { destruct (match td_answers d with Some l => l | None => Iterable [] end) as [l|];
        [|discriminate].
      pose proof (answer_all_describe l
        (set_metadata app
           (match td_program_name d with Some s => s | None => program_name app end)
           (match td_application_url d with Some s => s | None => application_url app end)
           (match td_deadline d with Some s => s | None => deadline app end))) as Hd.
      rewrite H in Hd. exact Hd. }
    simpl. rewrite app_nil_r. reflexivity.
Qed.

Lemma answer_all_metadata (l : list (entry AnswerData)) (app : IncubatorApplication) :
  let app' := snd (answer_all l app) in
  program_name app' = program_name app /\ deadline app' = deadline app /\ id app' = id app.
Proof.
  revert app; induction l as [|[a|] l IH]; intro app; simpl; try (repeat split; fail).
  destruct (IH (answer_from_data a app)) as (H1 & H2 & H3). simpl in *.
  rewrite H1, H2, H3. unfold answer_from_data.
  destruct (ad_question_id a); [|repeat split].
  unfold answer_question. destruct (answer_first _ _ _); repeat split.
Qed.

(** [load_from_json] never assigns [id]; when it gets as far as returning
    [True], the name and the deadline are those of the document, where the
    document gives them. *)
Lemma load_from_data_metadata (d : TemplateData) (app : IncubatorApplication) :
  let r := load_from_data (Loaded d) app in
  id (snd r) = id app
  /\ (fst r = true ->
      program_name (snd r)
        = match td_program_name d with Some s => s | None => program_name app end
      /\ deadline (snd r)
        = match td_deadline d with Some s => s | None => deadline app end).
Proof.
  unfold load_from_data.
  destruct (match td_questions d with Some qs => qs | None => Iterable [] end) as [qs|];
    [|simpl; split; [reflexivity|discriminate]].
  destruct (add_all qs _) as [ok app2] eqn:Eadd.
  apply add_all_appends in Eadd as (qds & _ & Hn & _ & Hd & Hi & _).
  simpl in Hn, Hd, Hi.
  destruct ok; [|simpl; split; [exact Hi|discriminate]].
  destruct (match td_answers d with Some l => l | None => Iterable [] end) as [l|];
    [|simpl; split; [exact Hi|discriminate]].
  destruct (answer_all_metadata l app2) as (G1 & G2 & G3). simpl in *.
  rewrite G1, G2, G3. split; [exact Hi|]. intros _. split; assumption.
Qed.

End ImportFacts.

(* ================================================================== *)
(** * Properties of answer generation *)
(* ================================================================== *)

Import Schema App Filler Vocabulary Examples SchemaFacts AppFacts ImportFacts.

Lemma filter_all {A : Type} (f : A -> bool) (l : list A) :
  forallb f l = true -> filter f l = l.
Proof.
  induction l as [|a l IH]; simpl; [reflexivity|].
  intro H. apply andb_true_iff in H as [Ha Hl]. rewrite Ha, IH by assumption. reflexivity.
Qed.

(** With a profile, a supported model, and a client and chains that can be
    constructed, [generate_answers] returns: this is what it returns, what
    it leaves, and what it did. *)
Lemma generate_answers_runs (w : World) (k : option pystr) (model : pystr) (temp : float)
  (app : IncubatorApplication) (tr : Trace) (profile : ProjectProfile) (llm : LLM) :
  project_profile app = Some profile ->
  select_llm k model temp = Some llm ->
  new_client w tr llm = None ->
  (forall h, new_chain w h llm = None) ->
  generate_answers w k model temp app tr
  = (Ok (filter answered (snd (fst (generate_loop w llm (to_dict profile) (questions app)
                                      (tr ++ [EvClient llm]))))),
     set_questions app (snd (fst (generate_loop w llm (to_dict profile) (questions app)
                                    (tr ++ [EvClient llm])))),
     snd (generate_loop w llm (to_dict profile) (questions app) (tr ++ [EvClient llm]))).
Proof.
  intros Hp Hs Hc Hb.
  rewrite (generate_answers_loop w k model temp app tr profile llm Hp Hs Hc).
  rewrite (generate_loop_completes w llm (to_dict profile) (questions app) _ Hb).
  reflexivity.
Qed.

(** Then it has constructed the client and called the backend once per
    unanswered question. *)
Lemma generate_answers_isolates_calls
  (w : World) (k : option pystr) (model : pystr) (temp : float)
  (app : IncubatorApplication) (tr : Trace) (profile : ProjectProfile) (llm : LLM) :
  project_profile app = Some profile ->
  select_llm k model temp = Some llm ->
  new_client w tr llm = None ->
  (forall h, new_chain w h llm = None) ->
  exists qs ev,
    generate_answers w k model temp app tr
      = (Ok (filter answered qs), set_questions app qs, tr ++ EvClient llm :: ev)
    /\ Forall2 (call_for llm (to_dict profile)) ev (unanswered (questions app)).
Proof.
  intros Hp Hs Hc Hb.
  destruct (generate_loop_calls w llm (to_dict profile) (questions app) (tr ++ [EvClient llm])
              (generate_loop_completes w llm (to_dict profile) (questions app) _ Hb))
    as (ev & Htr & Hcalls & _).
  exists (snd (fst (generate_loop w llm (to_dict profile) (questions app)
                      (tr ++ [EvClient llm])))), ev.
  split; [|exact Hcalls].
  rewrite (generate_answers_runs w k model temp app tr profile llm Hp Hs Hc Hb).
  rewrite Htr, <- app_assoc. reflexivity.
Qed.

(** And this is what it leaves at each position of the list of questions. *)
Lemma generate_answers_isolates_at
  (w : World) (k : option pystr) (model : pystr) (temp : float)
  (app : IncubatorApplication) (tr : Trace) (profile : ProjectProfile) (llm : LLM) :
  project_profile app = Some profile ->
  select_llm k model temp = Some llm ->
  new_client w tr llm = None ->
  (forall h, new_chain w h llm = None) ->
  forall pre q post, questions app = pre ++ q :: post ->
    nth_error (questions (snd (fst (generate_answers w k model temp app tr)))) (length pre)
    = Some (if answered q then q
            else match chain_run w
                         (history_before w llm (to_dict profile) pre (tr ++ [EvClient llm]))
                         llm (chain_inputs (to_dict profile) q) with
                 | None => q
                 | Some response => set_answer q (trim_response q response)
                 end).
Proof.
  intros Hp Hs Hc Hb pre q post Hq. unfold history_before.
  rewrite (generate_answers_runs w k model temp app tr profile llm Hp Hs Hc Hb).
  cbn [fst snd questions set_questions].
  rewrite Hq, generate_loop_at by (apply generate_loop_completes; exact Hb).
  f_equal. destruct (answered q) eqn:Ha.
  - rewrite generate_one_answered by assumption. reflexivity.
  - rewrite generate_one_unanswered, Hb by assumption. cbn [fst snd].
    destruct (chain_run w _ llm (chain_inputs (to_dict profile) q)); reflexivity.
Qed.

(** C1. Partial-failure isolation.  Take an application with a profile
    loaded, a supported model, and a world in which the client and the
    chains can be constructed, so that the backend is called.  Then
    [generate_answers] returns normally.  After constructing the client it
    makes exactly one backend call per unanswered question, in question
    order; each call is answered by the world in the history reached.  If
    [N] questions were unanswered and [M] of those calls fail, then [N - M]
    more questions are answered afterwards.  A question whose call fails is
    left exactly as it was (unanswered, answer untouched); so is a question
    answered beforehand; a question whose call succeeds is answered with the
    trimmed response.  The value returned is the list of all questions
    answered after the run, in question order. *)
Theorem generate_answers_isolates_failures
  (w : World) (k : option pystr) (model : pystr) (temp : float)
  (app : IncubatorApplication) (tr : Trace) (profile : ProjectProfile) (llm : LLM) :
  project_profile app = Some profile ->
  select_llm k model temp = Some llm ->
  new_client w tr llm = None ->
  (forall h, new_chain w h llm = None) ->
  exists qs ev,
    generate_answers w k model temp app tr
      = (Ok (filter answered qs), set_questions app qs, tr ++ EvClient llm :: ev)
    /\ length qs = length (questions app)
    /\ Forall2 (call_for llm (to_dict profile)) ev (unanswered (questions app))
    /\ length (filter answered qs) + length (filter is_failure ev)
       = length (filter answered (questions app)) + length (unanswered (questions app))
    /\ forall pre q post, questions app = pre ++ q :: post ->
         let before := tr ++ EvClient llm :: firstn (length (unanswered pre)) ev in
         let r := chain_run w before llm (chain_inputs (to_dict profile) q) in
         (answered q = true -> nth_error qs (length pre) = Some q)
         /\ (answered q = false ->
             nth_error ev (length (unanswered pre))
             = Some (EvChainRun llm (chain_inputs (to_dict profile) q) r)
             /\ nth_error qs (length pre)
                = Some (match r with
                        | None => q
                        | Some response => set_answer q (trim_response q response)
                        end)).
Proof.
  intros Hp Hs Hc Hb.
  pose proof (generate_loop_completes w llm (to_dict profile) (questions app)
                (tr ++ [EvClient llm]) Hb) as Hdone.
  destruct (generate_loop_calls w llm (to_dict profile) (questions app) (tr ++ [EvClient llm])
              Hdone) as (ev & Htr & Hcalls & Hcount).
  exists (snd (fst (generate_loop w llm (to_dict profile) (questions app)
                      (tr ++ [EvClient llm])))), ev.
  pose proof (generate_answers_runs w k model temp app tr profile llm Hp Hs Hc Hb) as Hrun.
  split; [rewrite Hrun, Htr, <- app_assoc; reflexivity|].
  split; [apply generate_loop_length|].
  split; [exact Hcalls|].
  split; [exact Hcount|].
  intros pre q post Hq before r.
  pose proof (generate_answers_isolates_at w k model temp app tr profile llm Hp Hs Hc Hb
                pre q post Hq) as Hat.
  rewrite Hrun in Hat. cbn [fst snd questions set_questions] in Hat.
  split.
  - intro Ha. rewrite Ha in Hat. exact Hat.
  - intro Ha. rewrite Ha in Hat.
    rewrite Hq in Hdone.
    destruct (generate_loop_reaches w llm (to_dict profile) pre post q
                (tr ++ [EvClient llm]) Ha Hdone) as (ev1 & ev3 & Hbefore & Hlen & Hall).
    rewrite <- Hq, Htr in Hall. apply app_inv_head in Hall.
    assert (firstn (length (unanswered pre)) ev = ev1) as Hfirst.
    { rewrite Hall, <- Hlen, firstn_app, Nat.sub_diag, firstn_all. simpl.
      apply app_nil_r. }
    assert (history_before w llm (to_dict profile) pre (tr ++ [EvClient llm]) = before)
      as Hhist.
    { subst before. rewrite Hbefore, Hfirst, <- app_assoc. reflexivity. }
    rewrite Hhist in Hat, Hall. split; [|exact Hat].
    rewrite Hall, <- Hlen, nth_error_app2, Nat.sub_diag by lia. reflexivity.
Qed.

(** The sample application: two unanswered questions, the backend fails on
    one of them; one question more is answered afterwards. *)
Lemma generate_answers_isolates_failures_witness :
  exists qs ev,
    generate_answers echo_world (Some (py "sk-test")) (py "gpt-4") half sample_app []
      = (Ok (filter answered qs), set_questions sample_app qs, [] ++ EvClient gpt4_client :: ev)
    /\ length (filter answered qs) + length (filter is_failure ev) = 1 + 2.
Proof.
  destruct (generate_answers_isolates_failures echo_world (Some (py "sk-test")) (py "gpt-4")
              half sample_app [] sample_profile gpt4_client eq_refl eq_refl eq_refl
              (fun h => eq_refl))
    as (qs & ev & Hrun & _ & _ & Hcount & _).
  exists qs, ev. split; [exact Hrun|exact Hcount].
Defined.

(** C7. Idempotent re-answer guard.  On an application whose questions are
    all answered, with a profile loaded and a supported model,
    [generate_answers] makes no backend call and leaves the application as
    it was, whatever the world.  All it does is to construct the client: if
    the constructor raises, so does [generate_answers]; if it returns,
    [generate_answers] returns the list of all questions.  A second call in
    succession does the same. *)
Theorem generate_answers_noop_when_all_answered
  (w : World) (k : option pystr) (model : pystr) (temp : float)
  (app : IncubatorApplication) (tr : Trace) (profile : ProjectProfile) (llm : LLM) :
  project_profile app = Some profile ->
  select_llm k model temp = Some llm ->
  forallb answered (questions app) = true ->
  match new_client w tr llm with
  | Some e => generate_answers w k model temp app tr = (Raise (Propagated e), app, tr)
  | None =>
      generate_answers w k model temp app tr = (Ok (questions app), app, tr ++ [EvClient llm])
      /\ generate_answers w k model temp
           (snd (fst (generate_answers w k model temp app tr)))
           (snd (generate_answers w k model temp app tr))
         = match new_client w (tr ++ [EvClient llm]) llm with
           | Some e => (Raise (Propagated e), app, tr ++ [EvClient llm])
           | None => (Ok (questions app), app, tr ++ [EvClient llm; EvClient llm])
           end
  end.
Proof.
  intros Hp Hs Hall.
  assert (forall tr', generate_answers w k model temp app tr'
                      = match new_client w tr' llm with
                        | Some e => (Raise (Propagated e), app, tr')
                        | None => (Ok (questions app), app, tr' ++ [EvClient llm])
                        end) as Hone.
  { intro tr'. unfold generate_answers. rewrite Hp, Hs.
    destruct (new_client w tr' llm); [reflexivity|].
    rewrite generate_loop_all_answered by assumption.
    rewrite filter_all by assumption. rewrite set_questions_same. reflexivity. }
  rewrite (Hone tr). destruct (new_client w tr llm) as [e|]; [reflexivity|].
  split; [reflexivity|]. cbn [fst snd]. rewrite Hone.
  destruct (new_client w (tr ++ [EvClient llm]) llm); [reflexivity|].
  rewrite <- app_assoc. reflexivity.
Qed.

Lemma generate_answers_noop_when_all_answered_witness :
  generate_answers echo_world (Some (py "sk-test")) (py "gpt-4") half answered_app []
  = (Ok (questions answered_app), answered_app, [] ++ [EvClient gpt4_client])
  /\ generate_answers echo_world (Some (py "sk-test")) (py "gpt-4") half answered_app
       [EvClient gpt4_client]
     = (Ok (questions answered_app), answered_app, [EvClient gpt4_client; EvClient gpt4_client]).
Proof.
  exact (generate_answers_noop_when_all_answered echo_world (Some (py "sk-test"))
           (py "gpt-4") half answered_app [] sample_profile gpt4_client
           eq_refl eq_refl eq_refl).
Defined.

Lemma startswith_gpt_claude (model : pystr) :
  startswith model (py "gpt") = true -> startswith model (py "claude") = false.
Proof.
  destruct model as [|c model]; [discriminate|]. cbn -[N.eqb].
  destruct (N.eqb_spec 103 c) as [<-|]; [reflexivity|discriminate].
Qed.

Lemma startswith_gpt_gemini (model : pystr) :
  startswith model (py "gemini") = true -> startswith model (py "gpt") = false.
Proof.
  destruct model as [|c [|c' model]]; cbn -[N.eqb]; try discriminate.
  - destruct (103 =? c)%N; discriminate.
  - destruct (N.eqb_spec 103 c) as [<-|]; [|discriminate]. cbn -[N.eqb].
    destruct (N.eqb_spec 101 c') as [<-|]; [reflexivity|discriminate].
Qed.

Lemma startswith_claude_gemini (model : pystr) :
  startswith model (py "gemini") = true -> startswith model (py "claude") = false.
Proof.
  destruct model as [|c model]; [discriminate|]. cbn -[N.eqb].
  destruct (N.eqb_spec 103 c) as [<-|]; [reflexivity|discriminate].
Qed.

(** The class [select_llm] picks for each of the three prefixes. *)
Lemma select_llm_family (k : option pystr) (model : pystr) (temp : float) (fam : Family) :
  startswith model (match fam with
                    | OpenAI => py "gpt"
                    | Anthropic => py "claude"
                    | Google => py "gemini"
                    end) = true ->
  select_llm k model temp
  = Some {| llm_family := fam; llm_api_key := k;
            llm_model_name := model; llm_temperature := temp |}.
Proof.
  intro H. unfold select_llm. destruct fam.
  - rewrite H. reflexivity.
  - destruct (startswith model (py "gpt")) eqn:E.
    + apply startswith_gpt_claude in E. congruence.
    + rewrite H. reflexivity.
  - rewrite (startswith_gpt_gemini model H), (startswith_claude_gemini model H), H.
    reflexivity.
Qed.

(** C5. Backend dispatch, for an application with a profile loaded (without
    one, [generate_answers] fails on that in the first place).  A model
    name that starts with none of [gpt], [claude], [gemini] makes
    [generate_answers] raise the "Unsupported model" error with the
    application and the history exactly as they were: no question is
    touched, no client is constructed, no backend call is made.  A model
    name with one of the three prefixes makes it call the constructor of the
    corresponding class, with the key, the name and the temperature, once
    and first.  If that constructor raises, [generate_answers] raises the
    same, again with everything as it was.  If it returns, the history goes
    on with that client and nothing else than backend calls through it; the
    questions keep their ids, texts, limits and hints; and either a later
    constructor raised, or [generate_answers] returns after one backend
    call per unanswered question. *)
Theorem generate_answers_dispatch
  (w : World) (k : option pystr) (model : pystr) (temp : float)
  (app : IncubatorApplication) (tr : Trace) (profile : ProjectProfile) :
  project_profile app = Some profile ->
  (startswith model (py "gpt") = false ->
   startswith model (py "claude") = false ->
   startswith model (py "gemini") = false ->
   generate_answers w k model temp app tr
   = (Raise (ValueError (msg_unsupported model)), app, tr))
  /\
  (forall fam,
     startswith model (match fam with
                       | OpenAI => py "gpt"
                       | Anthropic => py "claude"
                       | Google => py "gemini"
                       end) = true ->
     let llm := {| llm_family := fam; llm_api_key := k;
                   llm_model_name := model; llm_temperature := temp |} in
     match new_client w tr llm with
     | Some e => generate_answers w k model temp app tr = (Raise (Propagated e), app, tr)
     | None =>
         exists r qs ev,
           generate_answers w k model temp app tr
           = (r, set_questions app qs, tr ++ EvClient llm :: ev)
           /\ Forall (fun e => exists inputs response, e = EvChainRun llm inputs response) ev
           /\ map describe qs = map describe (questions app)
           /\ ((exists e, r = Raise (Propagated e))
               \/ (r = Ok (filter answered qs)
                   /\ Forall2 (call_for llm (to_dict profile)) ev (unanswered (questions app))))
     end).
Proof.
  intro Hp. split.
  - intros H1 H2 H3. unfold generate_answers, select_llm. rewrite Hp, H1, H2, H3. reflexivity.
  - intros fam Hfam llm.
    pose proof (select_llm_family k model temp fam Hfam) as Hs. fold llm in Hs.
    destruct (new_client w tr llm) as [e|] eqn:Hc.
    + unfold generate_answers. rewrite Hp, Hs, Hc. reflexivity.
    + rewrite (generate_answers_loop w k model temp app tr profile llm Hp Hs Hc).
      destruct (generate_loop_history w llm (to_dict profile) (questions app)
                  (tr ++ [EvClient llm])) as (ev & Htr & Hev).
      eexists _, _, ev. split; [rewrite Htr, <- app_assoc; reflexivity|].
      split; [exact Hev|]. split; [apply generate_loop_describe|].
      destruct (fst (fst (generate_loop w llm (to_dict profile) (questions app)
                            (tr ++ [EvClient llm])))) as [e|] eqn:Hdone.
      * left. exists e. reflexivity.
      * right. split; [reflexivity|].
        destruct (generate_loop_calls w llm (to_dict profile) (questions app)
                    (tr ++ [EvClient llm]) Hdone) as (ev' & Htr' & Hcalls & _).
        rewrite Htr in Htr'. apply app_inv_head in Htr'. subst ev'. exact Hcalls.
Qed.

(** The sample application: a model of an unknown family; a [gemini] model
    in a world whose Google constructor raises; a [gpt] model in the echo
    world. *)
Lemma generate_answers_dispatch_witness :
  generate_answers echo_world None (py "llama-2") half sample_app []
  = (Raise (ValueError (msg_unsupported (py "llama-2"))), sample_app, [])
  /\ generate_answers refusing_world (Some (py "g-key")) (py "gemini-pro") half sample_app []
     = (Raise (Propagated (LibraryError (py "KeyError"))), sample_app, [])
  /\ exists r qs ev,
       generate_answers echo_world (Some (py "sk-test")) (py "gpt-4") half sample_app []
       = (r, set_questions sample_app qs, [] ++ EvClient gpt4_client :: ev)
       /\ Forall (fun e => exists inputs response, e = EvChainRun gpt4_client inputs response) ev.
Proof.
  split; [|split].
  - exact (proj1 (generate_answers_dispatch echo_world None (py "llama-2") half sample_app []
                    sample_profile eq_refl) eq_refl eq_refl eq_refl).
  - exact (proj2 (generate_answers_dispatch refusing_world (Some (py "g-key")) (py "gemini-pro")
                    half sample_app [] sample_profile eq_refl) Google eq_refl).
  - destruct (proj2 (generate_answers_dispatch echo_world (Some (py "sk-test")) (py "gpt-4")
                       half sample_app [] sample_profile eq_refl) OpenAI eq_refl)
      as (r & qs & ev & Hrun & Hev & _).
    exists r, qs, ev. split; [exact Hrun|exact Hev].
Defined.

(** What is stored for a response longer than a positive limit: the first
    [n] characters, stripped. *)
Lemma trim_response_long (q : IncubatorQuestion) (n : Z) (response : pystr) :
  max_chars q = Some n -> (0 < n)%Z -> (n < len response)%Z ->
  trim_response q response = strip (firstn (Z.to_nat n) response).
Proof.
  intros Hm Hn Hl. unfold trim_response, slice_to. rewrite Hm.
  destruct (n =? 0)%Z eqn:E0; [apply Z.eqb_eq in E0; lia|].
  destruct (n <? len response)%Z eqn:E1; [|apply Z.ltb_ge in E1; lia].
  destruct (0 <=? n)%Z eqn:E2; [|apply Z.leb_gt in E2; lia].
  reflexivity.
Qed.

(** C2 (as amended). Truncation.  When the backend is reached (the client
    and the chains can be constructed) and answers a question whose
    [max_chars] is a positive [n] with a text longer than [n], the answer
    stored is the first [n] characters of that text with leading and
    trailing whitespace removed.  It has at most [n] characters, and exactly
    [n] when the cut neither begins nor ends with whitespace.  Nothing is
    appended. *)
Theorem generate_answers_truncates
  (w : World) (k : option pystr) (model : pystr) (temp : float)
  (app : IncubatorApplication) (tr : Trace) (profile : ProjectProfile) (llm : LLM)
  (pre post : list IncubatorQuestion) (q : IncubatorQuestion) (n : Z) (response : pystr) :
  project_profile app = Some profile ->
  select_llm k model temp = Some llm ->
  new_client w tr llm = None ->
  (forall h, new_chain w h llm = None) ->
  questions app = pre ++ q :: post ->
  answered q = false ->
  max_chars q = Some n -> (0 < n)%Z ->
  chain_run w (history_before w llm (to_dict profile) pre (tr ++ [EvClient llm]))
            llm (chain_inputs (to_dict profile) q) = Some response ->
  (n < len response)%Z ->
  exists q',
    nth_error (questions (snd (fst (generate_answers w k model temp app tr)))) (length pre)
      = Some q'
    /\ answered q' = true
    /\ answer q' = strip (firstn (Z.to_nat n) response)
    /\ (len (answer q') <= n)%Z
    /\ (forall a b,
          hd_error (firstn (Z.to_nat n) response) = Some a ->
          hd_error (rev (firstn (Z.to_nat n) response)) = Some b ->
          is_space a = false -> is_space b = false ->
          answer q' = firstn (Z.to_nat n) response /\ len (answer q') = n).
Proof.
  intros Hp Hs Hc Hb Hq Ha Hm Hn Hr Hl.
  pose proof (generate_answers_isolates_at w k model temp app tr profile llm Hp Hs Hc Hb
                pre q post Hq) as Hat.
  rewrite Ha, Hr in Hat.
  exists (set_answer q (trim_response q response)).
  split; [exact Hat|]. split; [reflexivity|].
  simpl. rewrite (trim_response_long q n response Hm Hn Hl).
  split; [reflexivity|].
  assert (length (firstn (Z.to_nat n) response) = Z.to_nat n) as Hcut.
  { rewrite length_firstn. unfold len in Hl. lia. }
  split.
  - unfold len. pose proof (strip_length (firstn (Z.to_nat n) response)). lia.
  - intros a b Hhd Hlast Hsa Hsb.
    rewrite (strip_id (firstn (Z.to_nat n) response) a b Hhd Hlast Hsa Hsb).
    split; [reflexivity|]. unfold len. rewrite Hcut. lia.
Qed.

(** The echo backend answers [q_limited], whose limit is 3, with 5 characters. *)
Lemma generate_answers_truncates_witness :
  exists q',
    nth_error (questions (snd (fst (generate_answers echo_world (Some (py "sk-test"))
                                      (py "gpt-4") half sample_app [])))) 0 = Some q'
    /\ answered q' = true
    /\ answer q' = strip (firstn 3 (py "ab cd")).
Proof.
  destruct (generate_answers_truncates echo_world (Some (py "sk-test")) (py "gpt-4") half
              sample_app [] sample_profile gpt4_client [] [q_empty; q_done] q_limited 3
              (py "ab cd") eq_refl eq_refl eq_refl (fun h => eq_refl) eq_refl eq_refl
              eq_refl eq_refl eq_refl eq_refl)
    as (q' & Hat & Hans & Hcut & _).
  exists q'. repeat split; assumption.
Defined.

(** C2, as stated, fails when the cut ends with whitespace: the limit is 3,
    the backend returns the 5 characters "ab cd", the answer stored is "ab",
    of length 2. *)
Lemma truncated_answer_shorter_than_limit :
  max_chars q_limited = Some 3%Z
  /\ chain_run echo_world [EvClient gpt4_client] gpt4_client
       (chain_inputs (to_dict sample_profile) q_limited) = Some (py "ab cd")
  /\ len (py "ab cd") = 5%Z
  /\ map answer (questions (snd (fst (generate_answers echo_world (Some (py "sk-test"))
                                        (py "gpt-4") half sample_app []))))
     = [py "ab"; []; py "Because."]
  /\ len (py "ab") = 2%Z.
Proof. repeat split. Qed.

(* ================================================================== *)
(** * Properties of export, identity and import *)
(* ================================================================== *)

(** [export_answers] writes nothing but [export_document]: when it returns,
    it returns the path, and the last thing it did was to write that
    document there. *)
Lemma export_answers_writes (w : World) (path : pystr) (app : IncubatorApplication)
  (tr : Trace) (p : pystr) :
  fst (export_answers w path app tr) = Ok p ->
  p = path /\
  snd (export_answers w path app tr)
  = tr ++ [EvMakedirs (dirname path) true; EvWrite path (export_document app) true].
Proof.
  unfold export_answers.
  destruct (makedirs w tr (dirname path)); [|discriminate].
  destruct (write_json w _ path); [|discriminate].
  simpl. intro H. injection H as <-. split; [reflexivity|].
  rewrite <- app_assoc. reflexivity.
Qed.

(** C6. Export.  Start from any application and make any sequence of calls
    of [add_question], [answer_question], [generate_answers] (and
    [load_project_profile]).  The document [export_answers] then writes has
    exactly the keys [program_name], [application_url], [deadline],
    [answers], in this order.  The questions of the application are the
    initial ones followed by the added ones, in the order of the calls; the
    [answers] are one entry per answered question, in that same order, with
    the question's id, text and answer, and nothing for an unanswered
    question.  When the directory can be created and the file written,
    [export_answers] returns the path, having written exactly this document
    there; when the directory cannot be created it raises without a write,
    and when the file cannot be written it raises after the failed write.
    So whenever it returns, this document is what it wrote last. *)
Theorem export_answers_order_preserved
  (validate : ftype -> pyval -> option pyval) (w : World)
  (app0 : IncubatorApplication) (tr0 : Trace) (cs : list call) (path : pystr) :
  let app := fst (run validate w cs (app0, tr0)) in
  let tr := snd (run validate w cs (app0, tr0)) in
  dict_keys (export_document app)
    = [py "program_name"; py "application_url"; py "deadline"; py "answers"]
  /\ map describe (questions app) = map describe (questions app0) ++ added cs
  /\ dict_get (export_document app) (py "answers")
     = Some (PList (map answer_entry (filter answered (questions app))))
  /\ map entry_ident (map answer_entry (filter answered (questions app)))
     = map (fun q => Some (question_id q, question_text q))
           (filter answered (questions app))
  /\ length (map answer_entry (filter answered (questions app)))
     = length (filter answered (questions app))
  /\ export_answers w path app tr
     = (if makedirs w tr (dirname path)
        then if write_json w (tr ++ [EvMakedirs (dirname path) true]) path
             then (Ok path,
                   tr ++ [EvMakedirs (dirname path) true;
                          EvWrite path (export_document app) true])
             else (Raise (Propagated OSError),
                   tr ++ [EvMakedirs (dirname path) true;
                          EvWrite path (export_document app) false])
        else (Raise (Propagated OSError), tr ++ [EvMakedirs (dirname path) false]))
  /\ (forall p, fst (export_answers w path app tr) = Ok p ->
        p = path /\
        snd (export_answers w path app tr)
        = tr ++ [EvMakedirs (dirname path) true; EvWrite path (export_document app) true]).
Proof.
  intros app tr.
  split; [reflexivity|].
  split; [apply (run_describe validate w cs (app0, tr0))|].
  split; [reflexivity|].
  split; [rewrite map_map; reflexivity|].
  split; [apply length_map|].
  split; [|intros p; apply export_answers_writes].
  unfold export_answers. destruct (makedirs w tr (dirname path)); [|reflexivity].
  destruct (write_json w _ path); rewrite <- app_assoc; reflexivity.
Qed.

(** The sample calls on a fresh application, exported in the echo world: the
    first and the third question are answered, and the file is written. *)
Lemma export_answers_order_preserved_witness :
  dict_get (export_document
              (fst (run strict echo_world sample_calls
                      (new_application ascii_lower (py "Seed Camp") [] (py "2024-06-30") [] None,
                       []))))
           (py "answers")
  = Some (PList [ PDict [(py "question_id", PStr (py "q1")); (py "question", PStr (py "Who?"));
                         (py "answer", PStr (py "Us."))];
                  PDict [(py "question_id", PStr (py "q3")); (py "question", PStr (py "Why?"));
                         (py "answer", PStr (py "Because."))] ])
  /\ export_answers echo_world (py "out/answers.json")
       (fst (run strict echo_world sample_calls
               (new_application ascii_lower (py "Seed Camp") [] (py "2024-06-30") [] None, [])))
       (snd (run strict echo_world sample_calls
               (new_application ascii_lower (py "Seed Camp") [] (py "2024-06-30") [] None, [])))
     = (Ok (py "out/answers.json"),
        snd (run strict echo_world sample_calls
               (new_application ascii_lower (py "Seed Camp") [] (py "2024-06-30") [] None, []))
        ++ [EvMakedirs (py "out") true;
            EvWrite (py "out/answers.json")
              (export_document
                 (fst (run strict echo_world sample_calls
                         (new_application ascii_lower (py "Seed Camp") [] (py "2024-06-30")
                            [] None, []))))
              true]).
Proof.
  pose proof (export_answers_order_preserved strict echo_world
                (new_application ascii_lower (py "Seed Camp") [] (py "2024-06-30") [] None)
                [] sample_calls (py "out/answers.json")) as (_ & _ & Hanswers & _ & _ & Hexport & _).
  split; [exact Hanswers|exact Hexport].
Defined.

(** C9. Identity.  The constructor sets [id] to the lower-cased name with
    underscores for spaces, an underscore, and the deadline without hyphens;
    [add_question], [answer_question], [generate_answers] and
    [load_project_profile] change none of the three.  [load_from_json]
    assigns the name and the deadline and never [id]: after a successful
    import [id] is what it was, while the name and the deadline are the
    document's.  So after importing a document that renames the sample
    application, [id] is still the one derived from the old name and
    deadline, not the one derived from the current ones. *)
Theorem application_id_stale_after_import :
  (forall str_lower validate w name url dl qs p cs tr,
     let app := fst (run validate w cs (new_application str_lower name url dl qs p, tr)) in
     program_name app = name /\ deadline app = dl /\
     id app = application_id str_lower (program_name app) (deadline app))
  /\
  (forall w path tr d app name dl,
     read_json w tr path = Loaded d ->
     td_program_name d = Some name -> td_deadline d = Some dl ->
     fst (load_from_json w path app tr) = true ->
     let app' := snd (load_from_json w path app tr) in
     program_name app' = name /\ deadline app' = dl /\ id app' = id app)
  /\
  (let app := snd (load_from_data (Loaded renaming_document) sample_app) in
   fst (load_from_data (Loaded renaming_document) sample_app) = true
   /\ program_name app = py "Y Combinator"
   /\ deadline app = py "2025-01-15"
   /\ id app = py "seed_camp_20240630"
   /\ application_id ascii_lower (program_name app) (deadline app) = py "y_combinator_20250115").
Proof.
  split; [|split].
  - intros str_lower validate w name url dl qs p cs tr app.
    destruct (run_metadata validate w cs (new_application str_lower name url dl qs p, tr))
      as (H1 & _ & H3 & H4).
    subst app. simpl in *. rewrite H1, H3, H4. repeat split.
  - intros w path tr d app name dl Hread Hname Hdl Hok. unfold load_from_json in *.
    rewrite Hread in *.
    destruct (load_from_data_metadata d app) as (Hid & Hmeta).
    destruct (Hmeta Hok) as (Hn & Hd). rewrite Hname in Hn. rewrite Hdl in Hd.
    repeat split; assumption.
  - repeat split.
Qed.

(** C10. [load_from_json] is not atomic, and it appends.  There is a document
    on which it returns [False] after it has already assigned the name and
    appended a question.  Whenever it returns [True], the list of questions
    is the old list followed by one new question per question of the
    document; so a second call on the same document, which succeeds as well,
    appends the document's questions once more. *)
Theorem load_from_json_not_atomic_and_appends :
  (exists w path app tr,
     let r := load_from_json w path app tr in
     fst r = false
     /\ program_name app = py "Seed Camp" /\ program_name (snd r) = py "Y Combinator"
     /\ length (questions app) = 3 /\ length (questions (snd r)) = 4)
  /\
  (forall w path tr d app app1,
     read_json w tr path = Loaded d ->
     load_from_json w path app tr = (true, app1) ->
     map describe (questions app1)
     = map describe (questions app)
       ++ map describe (imported (length (questions app)) (document_questions d))
     /\ exists app2,
          load_from_json w path app1 tr = (true, app2)
          /\ map describe (questions app2)
             = map describe (questions app)
               ++ map describe (imported (length (questions app)) (document_questions d))
               ++ map describe (imported (length (questions app1)) (document_questions d))).
Proof.
  split.
  - exists {| new_client := new_client echo_world; new_chain := new_chain echo_world;
              chain_run := chain_run echo_world; makedirs := makedirs echo_world;
              write_json := write_json echo_world;
              read_json := fun _ _ => Loaded broken_document;
              read_yaml := read_yaml echo_world;
              read_yaml_raised := read_yaml_raised echo_world |},
      (py "template.json"), sample_app, [].
    repeat split.
  - intros w path tr d app app1 Hread H1. unfold load_from_json in *. rewrite Hread in *.
    pose proof (load_from_data_appends d app app1 H1) as Happ1.
    split; [exact Happ1|].
    pose proof (load_from_data_ok (Loaded d) app app1) as Hok. rewrite H1 in Hok.
    destruct (load_from_data (Loaded d) app1) as [b app2] eqn:H2. cbn [fst] in Hok. subst b.
    exists app2. split; [reflexivity|].
    rewrite (load_from_data_appends d app1 app2 H2), Happ1, <- app_assoc. reflexivity.
Qed.

Lemma load_from_json_not_atomic_and_appends_witness :
  map question_id
    (questions (snd (load_from_json template_world (py "t.json")
                       (snd (load_from_json template_world (py "t.json") bare_app [])) [])))
  = [py "q1"; py "q9"; py "q3"; py "q9"; py "q5"].
Proof.
  destruct (proj2 load_from_json_not_atomic_and_appends template_world (py "t.json") []
              two_question_document bare_app
              (snd (load_from_json template_world (py "t.json") bare_app []))
              eq_refl eq_refl) as (_ & app2 & Hload & Hq).
  rewrite Hload. simpl snd.
  apply (f_equal (map (fun d => fst (fst (fst d))))) in Hq.
  rewrite !map_map in Hq. etransitivity; [exact Hq|reflexivity].
Defined.

(* ================================================================== *)
(** * Properties of the profile schema *)
(* ================================================================== *)

Lemma sections_well_formed (sec : pystr) (fs : list field) :
  In (sec, fs) sections -> distinct_names fs = true /\ defaults_none fs = true.
Proof.
  unfold sections. simpl.
  intros [E|[E|[E|[E|[E|[]]]]]]; injection E as <- <-; split; reflexivity.
Qed.

Lemma construct_missing (validate : ftype -> pyval -> option pyval)
  (fs : list field) (data : dict) (f : field) :
  In f fs -> f_default f = None -> dict_get data (f_name f) = None ->
  construct validate fs (PDict data) = inl ValidationError.
Proof.
  intros Hin Hreq Hget. unfold construct.
  rewrite (validate_model_missing validate fs data f Hin Hreq Hget). reflexivity.
Qed.

(** C3 (as amended). Required fields.  [from_yaml] fails, with the
    [RuntimeError] that wraps the failure, on every document in which one of
    the five sections lacks a required field -- the section is absent
    altogether, or it is a mapping without that key -- and on every document
    with a team member that lacks a required field.  (That a required string
    is non-empty is not checked.) *)
Theorem from_yaml_requires_fields
  (validate : ftype -> pyval -> option pyval) (d : dict) :
  (forall sec fs f,
     In (sec, fs) sections -> In f fs -> f_default f = None ->
     lacks d sec (f_name f) = true ->
     exists cause, from_yaml validate (Some (PDict d)) = Raise (RuntimeError cause))
  /\
  (forall members md f,
     dict_get d (py "team") = Some (PList members) -> In (PDict md) members ->
     In f TeamMember -> f_default f = None -> dict_get md (f_name f) = None ->
     exists cause, from_yaml validate (Some (PDict d)) = Raise (RuntimeError cause)).
Proof.
  split.
  - intros sec fs f Hsec Hin Hreq Hlacks.
    assert (construct validate fs (get_or d sec (PDict [])) = inl ValidationError) as Hc.
    { unfold lacks in Hlacks. unfold get_or.
      destruct (dict_get d sec) as [v|].
      - destruct v as [| | | | |secd]; try discriminate.
        destruct (dict_get secd (f_name f)) eqn:E; [discriminate|].
        apply (construct_missing validate fs secd f Hin Hreq E).
      - apply (construct_missing validate fs [] f Hin Hreq). reflexivity. }
    destruct (build_profile_section_fails validate d sec fs ValidationError Hsec Hc) as [e He].
    exists e. unfold from_yaml. rewrite He. reflexivity.
  - intros members md f Hteam Hmem Hin Hreq Hget.
    pose proof (construct_missing validate TeamMember md f Hin Hreq Hget) as Hc.
    destruct (construct_team_fails validate members (PDict md) ValidationError Hmem Hc)
      as [e He].
    assert (get_or d (py "team") (PList []) = PList members) as Hlist
      by (unfold get_or; rewrite Hteam; reflexivity).
    exists e. unfold from_yaml, build_profile. rewrite Hlist. cbn [py_iter]. rewrite He.
    reflexivity.
Qed.

(** A document with a [basic_info] section and no [details] section. *)
Lemma from_yaml_requires_fields_witness :
  exists cause,
    from_yaml strict (Some (PDict [kv "basic_info" (PDict basic_info_full)]))
    = Raise (RuntimeError cause).
Proof.
  exact (proj1 (from_yaml_requires_fields strict [kv "basic_info" (PDict basic_info_full)])
           (py "details") ProjectDetails (req "problem_statement" TStr)
           (or_intror (or_introl eq_refl)) (or_introl eq_refl) eq_refl eq_refl).
Defined.

(** C3, as stated, fails on a required string that is present and empty: the
    document parses, and the parsed profile has the empty project name. *)
Lemma empty_project_name_accepted :
  exists p,
    from_yaml strict (Some doc_required_only) = Ok p
    /\ In (req "project_name" TStr) ProjectBasicInfo
    /\ dict_get (basic_info p) (py "project_name") = Some (PStr []).
Proof.
  eexists. split; [vm_compute; reflexivity|]. split; [left; reflexivity|reflexivity].
Qed.

(** C4 (as amended). Round trip.  For a document that parses, [to_dict] of
    the parsed profile has the six sections, and each of the five
    sub-models, and each team member, has exactly the fields its class
    declares.  Every declared field that the document gives, and that the
    field validator returns as given, comes back as given; every declared
    field that the document does not give comes back as [None]. *)
Theorem to_dict_from_yaml_roundtrip
  (validate : ftype -> pyval -> option pyval) (d : dict) (p : ProjectProfile) :
  from_yaml validate (Some (PDict d)) = Ok p ->
  dict_keys (to_dict p)
    = [py "team"; py "basic_info"; py "details"; py "technical"; py "funding";
       py "incubator_preferences"]
  /\ (forall sec fs secd,
        In (sec, fs) sections -> get_or d sec (PDict []) = PDict secd ->
        exists m, dict_get (to_dict p) sec = Some (PDict m) /\ reproduces validate fs secd m)
  /\ (forall members,
        get_or d (py "team") (PList []) = PList members ->
        dict_get (to_dict p) (py "team") = Some (PList (map PDict (team p)))
        /\ Forall2 (fun v m => exists md, v = PDict md /\ reproduces validate TeamMember md m)
                   members (team p)).
Proof.
  unfold from_yaml. intro H.
  destruct (build_profile validate (PDict d)) as [e|p'] eqn:E; [discriminate|].
  injection H as ->.
  split; [reflexivity|]. split.
  - intros sec fs secd Hsec Hget.
    destruct (build_profile_section validate d p sec fs E Hsec) as (m & Hm & Hc).
    rewrite Hget in Hc. apply construct_ok in Hc as (data & Hd & Hv).
    injection Hd as <-.
    destruct (sections_well_formed sec fs Hsec) as [Hdn Hnone].
    exists m. split.
    + unfold section_of in Hm. destruct (dict_get (to_dict p) sec) as [[| | | | |m']|];
        try discriminate. injection Hm as ->. reflexivity.
    + apply validate_model_reproduces; assumption.
  - intros members Hget. split; [reflexivity|].
    apply build_profile_ok in E as ((members' & Hit & Hteam) & _).
    rewrite Hget in Hit. simpl in Hit. injection Hit as <-.
    apply construct_team_ok in Hteam.
    eapply Forall2_impl; [|exact Hteam].
    intros v m (md & -> & Hv). exists md. split; [reflexivity|].
    apply validate_model_reproduces; [reflexivity|reflexivity|assumption].
Qed.

(** The fully populated document whose team member gives the years of
    experience as the string "7", under the validator that converts such a
    string: the document parses, and its [basic_info] comes back field by
    field. *)
Lemma to_dict_from_yaml_roundtrip_witness :
  from_yaml lax (Some (PDict doc_full_quoted)) = Ok sample_profile
  /\ exists m,
       dict_get (to_dict sample_profile) (py "basic_info") = Some (PDict m)
       /\ reproduces lax ProjectBasicInfo basic_info_full m.
Proof.
  split; [reflexivity|].
  exact (proj1 (proj2 (to_dict_from_yaml_roundtrip lax doc_full_quoted sample_profile eq_refl))
           (py "basic_info") ProjectBasicInfo basic_info_full (or_introl eq_refl) eq_refl).
Defined.

(** C4, as stated, fails on a field that validation converts.  In the same
    document every field of the schema is populated; [years_experience],
    declared [int], is given as the string "7".  The document parses, and
    [to_dict] of the result gives the number 7 for that field, not the
    string it was given. *)
Lemma numeric_string_converted :
  exists p m,
    from_yaml lax (Some (PDict doc_full_quoted)) = Ok p
    /\ dict_get doc_full_quoted (py "team") = Some (PList [PDict member_quoted])
    /\ In (req "years_experience" TInt) TeamMember
    /\ dict_get member_quoted (py "years_experience") = Some (PStr (py "7"))
    /\ dict_get (to_dict p) (py "team") = Some (PList [PDict m])
    /\ dict_get m (py "years_experience") = Some (PInt 7).
Proof.
  do 2 eexists. split; [vm_compute; reflexivity|].
  split; [reflexivity|]. split; [do 7 right; left; reflexivity|].
  repeat split.
Qed.

(* ================================================================== *)
(** * Properties of the credential lookup *)
(* ================================================================== *)

(** C8. Credential lookup in [fill], without [--api-key].  [OPENAI_API_KEY]
    is read first, whatever the model.  For a [gpt] model the key is that
    variable, and its absence stops [fill].  For a [claude] or [gemini]
    model the family's own variable is consulted only when
    [OPENAI_API_KEY] is unset or empty: with [OPENAI_API_KEY] set, a
    [claude] model and a [gemini] model are given the OpenAI key, although
    [ANTHROPIC_API_KEY] and [GOOGLE_API_KEY] are set to other values, and
    the absence of [ANTHROPIC_API_KEY] does not stop [fill].  A stop leaves
    the history as it was. *)
Theorem openai_key_shadows_family_key :
  (environ_get both_keys ANTHROPIC_API_KEY = Some (py "sk-ant")
   /\ resolve_api_key None both_keys (py "claude-3-opus") = Key (Some (py "sk-openai")))
  /\ (environ_get both_keys GOOGLE_API_KEY = Some (py "g-key")
      /\ resolve_api_key None both_keys (py "gemini-pro") = Key (Some (py "sk-openai")))
  /\ (environ_get openai_only ANTHROPIC_API_KEY = None
      /\ resolve_api_key None openai_only (py "claude-3-opus") = Key (Some (py "sk-openai")))
  /\ (forall env model,
        startswith model (py "gpt") = true ->
        resolve_api_key None env model
        = if missing (environ_get env OPENAI_API_KEY) then NoKey OPENAI_API_KEY
          else Key (environ_get env OPENAI_API_KEY))
  /\ (forall env model,
        missing (environ_get env OPENAI_API_KEY) = true ->
        (startswith model (py "claude") = true ->
         resolve_api_key None env model
         = if missing (environ_get env ANTHROPIC_API_KEY) then NoKey ANTHROPIC_API_KEY
           else Key (environ_get env ANTHROPIC_API_KEY))
        /\ (startswith model (py "gemini") = true ->
            resolve_api_key None env model
            = if missing (environ_get env GOOGLE_API_KEY) then NoKey GOOGLE_API_KEY
              else Key (environ_get env GOOGLE_API_KEY)))
  /\ (forall str_lower validate w template profile output k model temp env tr v,
        resolve_api_key k env model = NoKey v ->
        fill str_lower validate w template profile output k model temp env tr
        = (Stopped v, tr)).
Proof.
  split; [split; reflexivity|]. split; [split; reflexivity|]. split; [split; reflexivity|].
  split; [|split].
  - intros env model Hgpt. unfold resolve_api_key. cbn [missing].
    rewrite Hgpt, (startswith_gpt_claude model Hgpt).
    destruct (missing (environ_get env OPENAI_API_KEY)) eqn:E; [reflexivity|].
    cbn [andb]. rewrite E, andb_false_r. reflexivity.
  - intros env model Hmiss. split; intro Hm; unfold resolve_api_key; cbn [missing]; rewrite Hmiss.
    + assert (startswith model (py "gpt") = false) as ->.
      { destruct (startswith model (py "gpt")) eqn:E; [|reflexivity].
        apply startswith_gpt_claude in E. congruence. }
      assert (startswith model (py "gemini") = false) as Hg.
      { destruct (startswith model (py "gemini")) eqn:E; [|reflexivity].
        apply startswith_claude_gemini in E. congruence. }
      rewrite Hm. cbn [andb].
      destruct (missing (environ_get env ANTHROPIC_API_KEY)); [reflexivity|].
      rewrite Hg. reflexivity.
    + rewrite (startswith_gpt_gemini model Hm), (startswith_claude_gemini model Hm), Hm.
      cbn [andb]. rewrite Hmiss. reflexivity.
  - intros str_lower validate w template profile output k model temp env tr v H.
    unfold fill. rewrite H. reflexivity.
Qed.

(* ================================================================== *)
(** * Further facts about strings and lists *)
(* ================================================================== *)

Module MoreFacts.

Import Schema App Vocabulary AppFacts.

(** [lstrip] removes a prefix. *)
Lemma lstrip_suffix (s : pystr) : exists u, s = u ++ lstrip s.
Proof.
  induction s as [|c s [u IH]]; [exists []; reflexivity|].
  simpl. destruct (is_space c).
  - exists (c :: u). simpl. f_equal. exact IH.
  - exists []. reflexivity.
Qed.

(** [rstrip] removes a suffix. *)
Lemma rstrip_prefix (s : pystr) : exists u, s = rstrip s ++ u.
Proof.
  unfold rstrip. destruct (lstrip_suffix (rev s)) as [u Hu].
  exists (rev u). rewrite <- rev_app_distr, <- Hu, rev_involutive. reflexivity.
Qed.

Lemma lstrip_hd (s : pystr) (c : N) : hd_error (lstrip s) = Some c -> is_space c = false.
Proof.
  induction s as [|a s IH]; simpl; [discriminate|].
  destruct (is_space a) eqn:E; [exact IH|].
  simpl. intro H. injection H as <-. exact E.
Qed.

(** What [strip] returns neither begins nor ends with whitespace. *)
Lemma strip_ends (s : pystr) :
  (forall c, hd_error (strip s) = Some c -> is_space c = false)
  /\ (forall c, hd_error (rev (strip s)) = Some c -> is_space c = false).
Proof.
  split; intros c H.
  - destruct (rstrip_prefix (lstrip s)) as [u Hu]. fold (strip s) in Hu.
    apply (lstrip_hd s). rewrite Hu.
    destruct (strip s); [discriminate|exact H].
  - unfold strip, rstrip in H. rewrite rev_involutive in H.
    apply (lstrip_hd _ _ H).
Qed.

Lemma answered_split (qs : list IncubatorQuestion) :
  length (filter answered qs) + length (unanswered qs) = length qs.
Proof.
  unfold unanswered. induction qs as [|q qs IH]; [reflexivity|].
  simpl. destruct (answered q); simpl; lia.
Qed.

Lemma unanswered_all (qs : list IncubatorQuestion) :
  forallb (fun q => negb (answered q)) qs = true -> unanswered qs = qs.
Proof.
  unfold unanswered. induction qs as [|q qs IH]; [reflexivity|].
  simpl. intro H. apply andb_true_iff in H as [Hq Hqs].
  rewrite Hq, IH by assumption. reflexivity.
Qed.

(** The stored answer is within a positive limit, whatever the response. *)
Lemma trim_response_bound (q : IncubatorQuestion) (n : Z) (response : pystr) :
  max_chars q = Some n -> (0 < n)%Z -> (len (trim_response q response) <= n)%Z.
Proof.
  intros Hm Hn. unfold trim_response, slice_to. rewrite Hm.
  destruct (n =? 0)%Z eqn:E0; [apply Z.eqb_eq in E0; lia|]. simpl.
  destruct (n <? len response)%Z eqn:E1.
  - destruct (0 <=? n)%Z eqn:E2; [|apply Z.leb_gt in E2; lia].
    unfold len. pose proof (strip_length (firstn (Z.to_nat n) response)) as H.
    rewrite length_firstn in H. lia.
  - apply Z.ltb_ge in E1. unfold len in *.
    pose proof (strip_length response). lia.
Qed.

Section Loop.

Variable w : World.
Variable llm : LLM.
Variable pd : dict.

(** What the loop leaves at position [i]: the question as it was, or the
    question answered with a trimmed response. *)
Lemma generate_loop_nth (qs : list IncubatorQuestion) (tr : Trace) (i : nat)
  (q : IncubatorQuestion) :
  nth_error qs i = Some q ->
  nth_error (snd (fst (generate_loop w llm pd qs tr))) i = Some q
  \/ (answered q = false
      /\ exists response,
           nth_error (snd (fst (generate_loop w llm pd qs tr))) i
           = Some (set_answer q (trim_response q response))).
Proof.
  revert tr i; induction qs as [|x qs IH]; intros tr i H; [destruct i; discriminate|].
  rewrite generate_loop_cons. destruct i as [|i]; cbn [nth_error] in H.
  - injection H as ->. unfold generate_one.
    destruct (answered q) eqn:Ha; [left; reflexivity|].
    destruct (new_chain w tr llm); [left; reflexivity|].
    destruct (chain_run w tr llm (chain_inputs pd q)) as [response|];
      [|left; reflexivity].
    right. split; [reflexivity|]. exists response. reflexivity.
  - destruct (fst (fst (generate_one w llm pd x tr))); cbn [fst snd nth_error];
      [left; exact H|apply IH; exact H].
Qed.

(** The loop leaves an answered question as it is. *)
Lemma generate_loop_keeps (qs : list IncubatorQuestion) (tr : Trace) (i : nat)
  (q : IncubatorQuestion) :
  nth_error qs i = Some q -> answered q = true ->
  nth_error (snd (fst (generate_loop w llm pd qs tr))) i = Some q.
Proof.
  intros H Ha. destruct (generate_loop_nth qs tr i q H) as [Hn|[Hn _]];
    [exact Hn|congruence].
Qed.

(** After a loop that no exception leaves, the questions still unanswered
    are as many as the calls that failed. *)
Lemma generate_loop_failures (qs : list IncubatorQuestion) (tr : Trace) :
  fst (fst (generate_loop w llm pd qs tr)) = None ->
  exists ev,
    snd (generate_loop w llm pd qs tr) = tr ++ ev /\
    Forall2 (call_for llm pd) ev (unanswered qs) /\
    length (unanswered (snd (fst (generate_loop w llm pd qs tr))))
    = length (filter is_failure ev).
Proof.
  intro Hdone.
  destruct (generate_loop_calls w llm pd qs tr Hdone) as (ev & Htr & Hcalls & Hcount).
  exists ev. split; [exact Htr|]. split; [exact Hcalls|].
  pose proof (answered_split qs).
  pose proof (answered_split (snd (fst (generate_loop w llm pd qs tr)))) as H2.
  rewrite generate_loop_length in H2. lia.
Qed.

End Loop.

End MoreFacts.

Import Schema App Filler Template Vocabulary Notions Examples Scenarios SchemaFacts
  AppFacts ImportFacts MoreFacts.

(* ================================================================== *)
(** * Further properties of answer generation *)
(* ================================================================== *)

(** X1. [generate_answers] never overwrites.  Whatever the arguments and
    whether it returns or raises, it leaves the name, the URL, the deadline,
    the id and the profile of the application as they were, and the list of
    questions with the same ids, texts, limits and hints in the same order;
    a question that was answered before the call is afterwards exactly what
    it was; and the history is only extended. *)
Theorem generate_answers_never_overwrites
  (w : World) (k : option pystr) (model : pystr) (temp : float)
  (app : IncubatorApplication) (tr : Trace) :
  let app' := snd (fst (generate_answers w k model temp app tr)) in
  program_name app' = program_name app
  /\ application_url app' = application_url app
  /\ deadline app' = deadline app
  /\ id app' = id app
  /\ project_profile app' = project_profile app
  /\ map describe (questions app') = map describe (questions app)
  /\ (forall i q, nth_error (questions app) i = Some q -> answered q = true ->
        nth_error (questions app') i = Some q)
  /\ exists ev, snd (generate_answers w k model temp app tr) = tr ++ ev.
Proof.
  intro app'. subst app'.
  destruct (generate_answers_cases w k model temp app tr)
    as [[e He]|(p & llm & Hp & Hs & Hc)].
  - rewrite He. cbn [fst snd]. repeat split; auto.
    exists []. symmetry. apply app_nil_r.
  - rewrite (generate_answers_loop w k model temp app tr p llm Hp Hs Hc).
    cbn [fst snd]. repeat (split; [reflexivity|]).
    split; [apply generate_loop_describe|].
    split; [intros i q Hq Ha; apply generate_loop_keeps; assumption|].
    destruct (generate_loop_history w llm (to_dict p) (questions app) (tr ++ [EvClient llm]))
      as (ev & Htr & _).
    exists (EvClient llm :: ev). rewrite Htr, <- app_assoc. reflexivity.
Qed.

(** X2. Retry.  With a profile, a supported model, and a client and chains
    that can be constructed, the questions left unanswered by a run are as
    many as the backend calls that failed in it, and a second run in
    succession makes exactly one backend call for each of them and none for
    the others. *)
Theorem generate_answers_retries_failures
  (w : World) (k : option pystr) (model : pystr) (temp : float)
  (app : IncubatorApplication) (tr : Trace) (profile : ProjectProfile) (llm : LLM) :
  project_profile app = Some profile ->
  select_llm k model temp = Some llm ->
  (forall h, new_client w h llm = None) ->
  (forall h, new_chain w h llm = None) ->
  exists qs1 ev1 qs2 ev2,
    generate_answers w k model temp app tr
      = (Ok (filter answered qs1), set_questions app qs1, tr ++ EvClient llm :: ev1)
    /\ length (unanswered qs1) = length (filter is_failure ev1)
    /\ generate_answers w k model temp (set_questions app qs1) (tr ++ EvClient llm :: ev1)
       = (Ok (filter answered qs2), set_questions app qs2,
          (tr ++ EvClient llm :: ev1) ++ EvClient llm :: ev2)
    /\ Forall2 (call_for llm (to_dict profile)) ev2 (unanswered qs1)
    /\ length ev2 = length (filter is_failure ev1).
Proof.
  intros Hp Hs Hc Hb.
  destruct (generate_loop_failures w llm (to_dict profile) (questions app) (tr ++ [EvClient llm])
              (generate_loop_completes w llm (to_dict profile) (questions app) _ Hb))
    as (ev1 & Htr1 & _ & Hfail).
  pose proof (generate_answers_runs w k model temp app tr profile llm Hp Hs (Hc tr) Hb)
    as Hrun1.
  set (qs1 := snd (fst (generate_loop w llm (to_dict profile) (questions app)
                          (tr ++ [EvClient llm])))) in *.
  assert (generate_answers w k model temp app tr
          = (Ok (filter answered qs1), set_questions app qs1, tr ++ EvClient llm :: ev1))
    as H1 by (rewrite Hrun1, Htr1, <- app_assoc; reflexivity).
  destruct (generate_answers_isolates_calls w k model temp (set_questions app qs1)
              (tr ++ EvClient llm :: ev1) profile llm Hp Hs (Hc _) Hb)
    as (qs2 & ev2 & H2 & Hcalls2).
  exists qs1, ev1, qs2, ev2.
  split; [exact H1|]. split; [exact Hfail|]. split; [exact H2|]. split; [exact Hcalls2|].
  rewrite (Forall2_length Hcalls2). exact Hfail.
Qed.

(** The sample application: the first run leaves one question unanswered
    after one failed call, the second run calls the backend once. *)
Lemma generate_answers_retries_failures_witness :
  exists qs1 ev1 qs2 ev2,
    generate_answers echo_world (Some (py "sk-test")) (py "gpt-4") half sample_app []
      = (Ok (filter answered qs1), set_questions sample_app qs1,
         [] ++ EvClient gpt4_client :: ev1)
    /\ length (unanswered qs1) = length (filter is_failure ev1)
    /\ generate_answers echo_world (Some (py "sk-test")) (py "gpt-4") half
         (set_questions sample_app qs1) ([] ++ EvClient gpt4_client :: ev1)
       = (Ok (filter answered qs2), set_questions sample_app qs2,
          ([] ++ EvClient gpt4_client :: ev1) ++ EvClient gpt4_client :: ev2)
    /\ Forall2 (call_for gpt4_client (to_dict sample_profile)) ev2 (unanswered qs1)
    /\ length ev2 = length (filter is_failure ev1).
Proof.
  exact (generate_answers_retries_failures echo_world (Some (py "sk-test")) (py "gpt-4") half
           sample_app [] sample_profile gpt4_client eq_refl eq_refl
           (fun h => eq_refl) (fun h => eq_refl)).
Defined.

(** X3. Generated answers are trimmed and within the limit.  With a profile
    and a supported model, a question that [generate_answers] answers gets
    an answer that neither begins nor ends with whitespace, and that has at
    most [max_chars] characters when [max_chars] is a positive number --
    whatever the backend returned. *)
Theorem generated_answer_trimmed_and_bounded
  (w : World) (k : option pystr) (model : pystr) (temp : float)
  (app : IncubatorApplication) (tr : Trace) (profile : ProjectProfile) (llm : LLM)
  (i : nat) (q q' : IncubatorQuestion) :
  project_profile app = Some profile ->
  select_llm k model temp = Some llm ->
  nth_error (questions app) i = Some q ->
  answered q = false ->
  nth_error (questions (snd (fst (generate_answers w k model temp app tr)))) i = Some q' ->
  answered q' = true ->
  (forall c, hd_error (answer q') = Some c -> is_space c = false)
  /\ (forall c, hd_error (rev (answer q')) = Some c -> is_space c = false)
  /\ (forall n, max_chars q = Some n -> (0 < n)%Z -> (len (answer q') <= n)%Z).
Proof.
  intros Hp Hs Hq Ha Hq' Ha'.
  assert (exists response, q' = set_answer q (trim_response q response)) as [response ->].
  { destruct (generate_answers_cases w k model temp app tr)
      as [[e He]|(p & llm' & Hp' & Hs' & Hc)].
    - rewrite He in Hq'. cbn [fst snd] in Hq'. congruence.
    - rewrite (generate_answers_loop w k model temp app tr p llm' Hp' Hs' Hc) in Hq'.
      cbn [fst snd questions set_questions] in Hq'.
      destruct (generate_loop_nth w llm' (to_dict p) (questions app) (tr ++ [EvClient llm'])
                  i q Hq) as [Hn|[_ [response Hn]]].
      + congruence.
      + exists response. congruence. }
  cbn [answer set_answer].
  destruct (strip_ends (match max_chars q with
                        | Some n => if negb (n =? 0)%Z && (n <? len response)%Z
                                    then slice_to response n else response
                        | None => response
                        end)) as [Hhd Hlast].
  split; [exact Hhd|]. split; [exact Hlast|].
  intros n Hm Hn0. apply trim_response_bound; assumption.
Qed.

(** The first question of the sample application, with limit 3. *)
Lemma generated_answer_trimmed_and_bounded_witness :
  (forall c, hd_error (py "ab") = Some c -> is_space c = false)
  /\ (forall c, hd_error (rev (py "ab")) = Some c -> is_space c = false)
  /\ (forall n, max_chars q_limited = Some n -> (0 < n)%Z -> (len (py "ab") <= n)%Z).
Proof.
  exact (generated_answer_trimmed_and_bounded echo_world (Some (py "sk-test")) (py "gpt-4")
           half sample_app [] sample_profile gpt4_client 0 q_limited
           (set_answer q_limited (py "ab")) eq_refl eq_refl eq_refl eq_refl eq_refl eq_refl).
Defined.

(** X4. Limits that do not limit.  Without [max_chars], or with [max_chars]
    equal to 0, the response is stored stripped and uncut, however long it
    is; so it is when the response is not longer than a positive limit.  A
    negative [max_chars] cuts as a negative slice bound does: the last
    [-max_chars] characters of the response are dropped before stripping. *)
Theorem trim_response_edge_cases (q : IncubatorQuestion) (response : pystr) :
  (max_chars_set q = false -> trim_response q response = strip response)
  /\ (forall n, max_chars q = Some n -> (0 < n)%Z -> (len response <= n)%Z ->
        trim_response q response = strip response)
  /\ (forall n, max_chars q = Some n -> (n < 0)%Z ->
        trim_response q response
        = strip (firstn (length response - Z.to_nat (- n)) response)).
Proof.
  unfold max_chars_set, trim_response. split; [|split].
  - destruct (max_chars q) as [n|]; [|reflexivity].
    intro H. apply negb_false_iff in H. rewrite H. reflexivity.
  - intros n -> Hn Hl.
    destruct (n <? len response)%Z eqn:E; [apply Z.ltb_lt in E; lia|].
    rewrite andb_false_r. reflexivity.
  - intros n -> Hn. unfold slice_to, len.
    destruct (n =? 0)%Z eqn:E0; [apply Z.eqb_eq in E0; lia|].
    destruct (n <? Z.of_nat (length response))%Z eqn:E1; [|apply Z.ltb_ge in E1; lia].
    destruct (0 <=? n)%Z eqn:E2; [apply Z.leb_le in E2; lia|].
    simpl. do 2 f_equal. lia.
Qed.

(** A question with limit -2 and a response of 6 characters. *)
Lemma trim_response_edge_cases_witness :
  trim_response (new_question (py "q") (py "?") (Some (-2)%Z) None) (py "abcdef")
  = strip (firstn (length (py "abcdef") - Z.to_nat (- (-2))) (py "abcdef")).
Proof.
  exact (proj2 (proj2 (trim_response_edge_cases
                         (new_question (py "q") (py "?") (Some (-2)%Z) None) (py "abcdef")))
           (-2)%Z eq_refl eq_refl).
Defined.

(* ================================================================== *)
(** * Further properties of manual answers *)
(* ================================================================== *)

(** The scan finds nothing exactly when no question has the id. *)
Lemma answer_first_none (qs : list IncubatorQuestion) (i a : pystr) :
  answer_first qs i a = None <-> existsb (fun q => eqb (question_id q) i) qs = false.
Proof.
  induction qs as [|q qs IH]; simpl; [split; reflexivity|].
  destruct (eqb (question_id q) i); simpl; [split; discriminate|].
  destruct (answer_first qs i a); rewrite <- IH; split; try discriminate; reflexivity.
Qed.

(** When the scan finds the id, it answers the first question that has it and
    leaves the others alone. *)
Lemma answer_first_some (qs qs' : list IncubatorQuestion) (i a : pystr) :
  answer_first qs i a = Some qs' ->
  exists pre q post,
    qs = pre ++ q :: post /\ question_id q = i /\
    existsb (fun p => eqb (question_id p) i) pre = false /\
    qs' = pre ++ set_answer q a :: post.
Proof.
  revert qs'; induction qs as [|q qs IH]; intros qs' H; simpl in H; [discriminate|].
  destruct (eqb (question_id q) i) eqn:E.
  - injection H as <-. exists [], q, qs. apply eqb_eq in E. repeat split; assumption.
  - destruct (answer_first qs i a) as [qs''|]; [|discriminate]. injection H as <-.
    destruct (IH qs'' eq_refl) as (pre & x & post & Hq & Hid & Hpre & Hq').
    exists (q :: pre), x, post. simpl. rewrite E, Hq, Hq'. repeat split; assumption.
Qed.

Lemma answer_first_found (pre post : list IncubatorQuestion) (q : IncubatorQuestion)
  (i a : pystr) :
  existsb (fun p => eqb (question_id p) i) pre = false -> question_id q = i ->
  answer_first (pre ++ q :: post) i a = Some (pre ++ set_answer q a :: post).
Proof.
  intros Hpre Hid. induction pre as [|p pre IH]; simpl.
  - rewrite Hid, eqb_refl. reflexivity.
  - simpl in Hpre. apply orb_false_iff in Hpre as [Hp Hpre].
    rewrite Hp, (IH Hpre). reflexivity.
Qed.

(** X5. [answer_question] answers the first match only.  It returns [True]
    exactly when some question has the id.  When it returns [False] the
    application is unchanged.  When it returns [True], the first question
    with that id gets the answer and is marked answered -- whether or not it
    was answered before --, and every other question, later questions with
    the same id included, is left as it was. *)
Theorem answer_question_first_match (qid a : pystr) (app : IncubatorApplication) :
  fst (answer_question qid a app)
    = existsb (fun q => eqb (question_id q) qid) (questions app)
  /\ (fst (answer_question qid a app) = false -> snd (answer_question qid a app) = app)
  /\ (fst (answer_question qid a app) = true ->
      exists pre q post,
        questions app = pre ++ q :: post
        /\ question_id q = qid
        /\ existsb (fun p => eqb (question_id p) qid) pre = false
        /\ snd (answer_question qid a app)
           = set_questions app (pre ++ set_answer q a :: post)).
Proof.
  unfold answer_question.
  destruct (answer_first (questions app) qid a) as [qs|] eqn:E; simpl.
  - split; [|split; [discriminate|]].
    + destruct (existsb _ (questions app)) eqn:Ex; [reflexivity|].
      apply answer_first_none with (a := a) in Ex. congruence.
    + intros _. destruct (answer_first_some _ _ _ _ E) as (pre & q & post & H1 & H2 & H3 & H4).
      exists pre, q, post. rewrite H4. repeat split; assumption.
  - split; [|split; [reflexivity|discriminate]].
    symmetry. apply (answer_first_none (questions app) qid a). exact E.
Qed.

(** In an application with two questions of id [q1], the first is answered. *)
Lemma answer_question_first_match_witness :
  exists pre q post,
    questions duplicate_app = pre ++ q :: post
    /\ question_id q = py "q1"
    /\ existsb (fun p => eqb (question_id p) (py "q1")) pre = false
    /\ snd (answer_question (py "q1") (py "yes") duplicate_app)
       = set_questions duplicate_app (pre ++ set_answer q (py "yes") :: post).
Proof.
  exact (proj2 (proj2 (answer_question_first_match (py "q1") (py "yes") duplicate_app))
           eq_refl).
Defined.

(** X6. The last manual answer wins.  Answering the same id twice is the
    same as giving the second answer alone. *)
Theorem answer_question_last_wins (qid a b : pystr) (app : IncubatorApplication) :
  answer_question qid b (snd (answer_question qid a app)) = answer_question qid b app.
Proof.
  unfold answer_question.
  destruct (answer_first (questions app) qid a) as [qs|] eqn:E; [|reflexivity].
  destruct (answer_first_some _ _ _ _ E) as (pre & q & post & Hq & Hid & Hpre & ->).
  simpl. rewrite Hq.
  rewrite (answer_first_found pre post (set_answer q a) qid b Hpre Hid).
  rewrite (answer_first_found pre post q qid b Hpre Hid). reflexivity.
Qed.

(** X7. [add_question] checks nothing about the id.  It always appends an
    unanswered question with the empty answer, leaving the earlier questions
    in place.  A later [answer_question] with that id returns [True]; it
    answers the new question when no earlier question has the id, and
    otherwise the earliest one that has it, the new question staying
    unanswered. *)
Theorem add_question_then_answer (qid text a : pystr) (mc : option Z) (hint : option pystr)
  (app : IncubatorApplication) :
  let added_q := fst (add_question qid text mc hint app) in
  let app1 := snd (add_question qid text mc hint app) in
  added_q = new_question qid text mc hint
  /\ questions app1 = questions app ++ [added_q]
  /\ fst (answer_question qid a app1) = true
  /\ (fst (answer_question qid a app) = false ->
      questions (snd (answer_question qid a app1))
      = questions app ++ [set_answer added_q a])
  /\ (fst (answer_question qid a app) = true ->
      questions (snd (answer_question qid a app1))
      = questions (snd (answer_question qid a app)) ++ [added_q]).
Proof.
  intros added_q app1. subst added_q app1. simpl.
  split; [reflexivity|]. split; [reflexivity|].
  unfold answer_question. simpl.
  destruct (answer_first (questions app) qid a) as [qs|] eqn:E.
  - destruct (answer_first_some _ _ _ _ E) as (pre & q & post & Hq & Hid & Hpre & ->).
    rewrite Hq, <- app_assoc. simpl.
    rewrite (answer_first_found pre (post ++ [new_question qid text mc hint]) q qid a Hpre Hid).
    simpl. split; [reflexivity|]. split; [discriminate|].
    intros _. rewrite <- app_assoc. reflexivity.
  - apply answer_first_none in E.
    rewrite (answer_first_found (questions app) [] (new_question qid text mc hint) qid a E
               eq_refl).
    simpl. split; [reflexivity|]. split; [reflexivity|discriminate].
Qed.

Lemma add_question_then_answer_witness :
  questions (snd (answer_question (py "q1") (py "yes")
                    (snd (add_question (py "q1") (py "Again?") None None duplicate_app))))
  = questions (snd (answer_question (py "q1") (py "yes") duplicate_app))
    ++ [fst (add_question (py "q1") (py "Again?") None None duplicate_app)].
Proof.
  exact (proj2 (proj2 (proj2 (proj2
           (add_question_then_answer (py "q1") (py "Again?") (py "yes") None None
              duplicate_app)))) eq_refl).
Defined.

(* ================================================================== *)
(** * Further properties of imports *)
(* ================================================================== *)

Lemma add_all_fst (l : list (entry QuestionData)) (app : IncubatorApplication) :
  fst (add_all l app) = forallb is_object l.
Proof.
  revert app; induction l as [|[q|] l IH]; intro app; simpl; try reflexivity. apply IH.
Qed.

Lemma answer_all_fst (l : list (entry AnswerData)) (app : IncubatorApplication) :
  fst (answer_all l app) = forallb is_object l.
Proof.
  revert app; induction l as [|[a|] l IH]; intro app; simpl; try reflexivity. apply IH.
Qed.

(** X8. When [load_from_json] succeeds.  It returns [True] exactly when the
    file holds a JSON object whose ["questions"] and ["answers"], where
    present, can be iterated and hold nothing but objects.  When the file
    cannot be opened, is not JSON or holds no object, the application is left
    untouched.  When the questions are fine, all of them are appended, even
    if the call then fails on the answers. *)
Theorem load_from_json_success_criterion
  (w : World) (json_path : pystr) (app : IncubatorApplication) (tr : Trace) :
  fst (load_from_json w json_path app tr)
    = match read_json w tr json_path with
      | Loaded d => all_objects (td_questions d) && all_objects (td_answers d)
      | _ => false
      end
  /\ match read_json w tr json_path with
     | Loaded d =>
         all_objects (td_questions d) = true ->
         map describe (questions (snd (load_from_json w json_path app tr)))
         = map describe (questions app)
           ++ map describe (imported (length (questions app)) (document_questions d))
     | _ => snd (load_from_json w json_path app tr) = app
     end.
Proof.
  unfold load_from_json. destruct (read_json w tr json_path) as [| | |d];
    try (split; reflexivity).
  unfold load_from_data, all_objects, document_questions.
  destruct (td_questions d) as [[qs|]|]; cbn beta iota.
  - pose proof (add_all_fst qs
      (set_metadata app
         (match td_program_name d with Some s => s | None => program_name app end)
         (match td_application_url d with Some s => s | None => application_url app end)
         (match td_deadline d with Some s => s | None => deadline app end))) as Hfst.
    destruct (add_all qs _) as [ok app2] eqn:Eadd. cbn [fst] in Hfst. rewrite <- Hfst.
    apply add_all_appends in Eadd as (qds & Hq & _ & _ & _ & _ & _ & Hok & _).
    cbn [questions set_metadata] in Hq.
    destruct ok; [|split; [reflexivity|discriminate]].
    rewrite (Hok eq_refl), objects_map.
    destruct (td_answers d) as [[l|]|]; cbn beta iota.
    + split; [apply answer_all_fst|]. intros _.
      rewrite answer_all_describe, Hq, map_app. reflexivity.
    + split; [reflexivity|]. intros _. cbn [snd]. rewrite Hq, map_app. reflexivity.
    + split; [reflexivity|]. intros _. cbn [answer_all snd]. rewrite Hq, map_app. reflexivity.
  - split; [reflexivity|discriminate].
  - cbn [add_all].
    destruct (td_answers d) as [[l|]|]; cbn beta iota.
    + split; [apply answer_all_fst|]. intros _.
      rewrite answer_all_describe. cbn. rewrite app_nil_r. reflexivity.
    + split; [reflexivity|]. intros _. cbn. rewrite app_nil_r. reflexivity.
    + split; [reflexivity|]. intros _. cbn. rewrite app_nil_r. reflexivity.
Qed.

(** The world in which every file holds the two-question template. *)
Lemma load_from_json_success_criterion_witness :
  map describe (questions (snd (load_from_json template_world (py "t.json") bare_app [])))
  = map describe (questions bare_app)
    ++ map describe (imported (length (questions bare_app))
                       (document_questions two_question_document)).
Proof.
  exact (proj2 (load_from_json_success_criterion template_world (py "t.json") bare_app [])
           eq_refl).
Defined.

Lemma uint_chars_inj (d d' : Decimal.uint) : uint_chars d = uint_chars d' -> d = d'.
Proof.
  revert d'; induction d as [|d IH|d IH|d IH|d IH|d IH|d IH|d IH|d IH|d IH|d IH];
    intros [|d'|d'|d'|d'|d'|d'|d'|d'|d'|d'] H; simpl in H;
    try discriminate; try reflexivity;
    injection H as H; f_equal; apply IH; exact H.
Qed.

Lemma default_id_inj (j k : nat) : default_id j = default_id k -> j = k.
Proof.
  unfold default_id, str_of_nat. intro H. apply app_inv_head in H.
  apply DecimalNat.Unsigned.to_uint_inj. apply uint_chars_inj. exact H.
Qed.

Lemma NoDup_map_default_id (l : list nat) : NoDup l -> NoDup (map default_id l).
Proof.
  induction 1 as [|k l Hk Hl IH]; simpl; constructor; [|exact IH].
  intro Hin. apply in_map_iff in Hin as (j & Hj & Hjl).
  apply default_id_inj in Hj. subst j. contradiction.
Qed.

Lemma imported_default_ids (n : nat) (qds : list QuestionData) :
  (forall q, In q qds -> qd_question_id q = None) ->
  map question_id (imported n qds) = map default_id (seq (S n) (length qds)).
Proof.
  revert n; induction qds as [|q qds IH]; intros n H; [reflexivity|].
  simpl. rewrite (H q (or_introl eq_refl)), IH by (intros x Hx; apply H; right; exact Hx).
  unfold default_id. rewrite Nat.add_1_r. reflexivity.
Qed.

(** X9. Default ids.  When the questions of a document carry no
    [question_id] and are loaded into an application that has no question
    yet (as [fill] does, and [load_from_json] on a fresh application), the
    ids given are [q1], [q2], ... in order, and no two questions share one. *)
Theorem default_question_ids_distinct
  (l : list (entry QuestionData)) (app app' : IncubatorApplication) :
  questions app = [] ->
  (forall q, In (EntryDict q) l -> qd_question_id q = None) ->
  add_all l app = (true, app') ->
  map question_id (questions app') = map default_id (seq 1 (length l))
  /\ NoDup (map question_id (questions app')).
Proof.
  intros Hempty Hids Hadd.
  apply add_all_appends in Hadd as (qds & Hq & _ & _ & _ & _ & _ & Hok & _).
  specialize (Hok eq_refl). subst l. rewrite Hempty in Hq. simpl in Hq.
  assert (map question_id (questions app') = map default_id (seq 1 (length qds))) as Hmap.
  { rewrite Hq. apply imported_default_ids.
    intros q Hin. apply Hids. apply in_map. exact Hin. }
  rewrite length_map. split; [exact Hmap|].
  rewrite Hmap. apply NoDup_map_default_id, seq_NoDup.
Qed.

Lemma default_question_ids_distinct_witness :
  map question_id
    (questions (snd (add_all [EntryDict unnamed_question; EntryDict unnamed_question]
                       (new_application ascii_lower (py "Seed Camp") [] [] [] None))))
  = map default_id (seq 1 2)
  /\ NoDup (map question_id
              (questions (snd (add_all [EntryDict unnamed_question; EntryDict unnamed_question]
                                 (new_application ascii_lower (py "Seed Camp") [] [] [] None))))).
Proof.
  apply (default_question_ids_distinct
           [EntryDict unnamed_question; EntryDict unnamed_question]
           (new_application ascii_lower (py "Seed Camp") [] [] [] None)
           (snd (add_all [EntryDict unnamed_question; EntryDict unnamed_question]
                   (new_application ascii_lower (py "Seed Camp") [] [] [] None)))).
  - reflexivity.
  - intros q [H|[H|[]]]; injection H as <-; reflexivity.
  - reflexivity.
Defined.

(* ================================================================== *)
(** * Further properties of the profile *)
(* ================================================================== *)

Lemma construct_errors (validate : ftype -> pyval -> option pyval)
  (fs : list field) (v : pyval) (e : pyerror) :
  construct validate fs v = inl e -> e = TypeError \/ e = ValidationError.
Proof.
  unfold construct. destruct v; try (intro H; injection H as <-; left; reflexivity).
  destruct (validate_model validate fs d); [discriminate|].
  intro H; injection H as <-. right; reflexivity.
Qed.

Lemma construct_team_errors (validate : ftype -> pyval -> option pyval)
  (members : list pyval) (e : pyerror) :
  construct_team validate members = inl e -> e = TypeError \/ e = ValidationError.
Proof.
  induction members as [|v members IH]; simpl; [discriminate|].
  destruct (construct validate TeamMember v) as [e'|m] eqn:E.
  - intro H; injection H as <-. eapply construct_errors; eassumption.
  - destruct (construct_team validate members) as [e'|ms]; [|discriminate].
    intro H; injection H as <-. apply IH. reflexivity.
Qed.

Lemma build_profile_errors (validate : ftype -> pyval -> option pyval)
  (d : dict) (e : pyerror) :
  build_profile validate (PDict d) = inl e -> e = TypeError \/ e = ValidationError.
Proof.
  unfold build_profile, construct_section.
  destruct (py_iter _) as [members|]; [|intro H; injection H as <-; left; reflexivity].
  destruct (construct_team validate members) as [e'|t] eqn:Et;
    [intro H; injection H as <-; eapply construct_team_errors; eassumption|].
  repeat match goal with
         | |- match construct validate ?fs ?v with _ => _ end = _ -> _ =>
             let E := fresh "E" in
             destruct (construct validate fs v) eqn:E;
             [intro H; injection H as <-; eapply construct_errors; eassumption|]
         end.
  discriminate.
Qed.

(** X10. [load_project_profile] is all or nothing, and how it fails.  When it
    raises, the application is exactly what it was, the profile loaded
    before included.  An exception of [open] or [read] is raised as it is.
    The text that is no YAML gives the [ValueError] "Error parsing YAML
    file.".  Every other failure gives a [RuntimeError]: wrapping what
    [yaml.safe_load] raised besides; an [AttributeError] when the document
    is not a mapping (an empty file is [None]); a [TypeError] or a
    validation error otherwise.  When it returns, only the profile has
    changed. *)
Theorem load_project_profile_all_or_nothing
  (validate : ftype -> pyval -> option pyval) (w : World)
  (profile_path : pystr) (app : IncubatorApplication) (tr : Trace) :
  match load_project_profile validate w profile_path app tr with
  | (Raise e, app') =>
      app' = app
      /\ match read_yaml w tr profile_path with
         | None =>
             match read_yaml_raised w tr profile_path with
             | inl cause => e = Propagated cause
             | inr cause => e = RuntimeError cause
             end
         | Some None => e = ValueError (py "Error parsing YAML file.")
         | Some (Some (PDict _)) =>
             e = RuntimeError TypeError \/ e = RuntimeError ValidationError
         | Some (Some _) => e = RuntimeError AttributeError
         end
  | (Ok _, app') =>
      exists loaded p,
        read_yaml w tr profile_path = Some loaded
        /\ from_yaml validate loaded = Ok p
        /\ app' = set_project_profile app p
  end.
Proof.
  unfold load_project_profile.
  destruct (read_yaml w tr profile_path) as [[data|]|]; try (split; reflexivity).
  - destruct (from_yaml validate (Some data)) as [p|e] eqn:E.
    + exists (Some data), p. repeat split. exact E.
    + split; [reflexivity|]. unfold from_yaml in E.
      destruct data; try (injection E as <-; reflexivity).
      destruct (build_profile validate (PDict d)) as [e'|p] eqn:Eb; [|discriminate].
      injection E as <-. destruct (build_profile_errors validate d e' Eb) as [->| ->]; auto.
  - split; [reflexivity|].
    destruct (read_yaml_raised w tr profile_path); reflexivity.
Qed.

(* ================================================================== *)
(** * Further properties of the [fill] command *)
(* ================================================================== *)

(** X12. What the credential lookup guarantees.  A non-empty [--api-key] is
    used as it is, whatever the environment.  When [fill] stops for want of
    a key, no flag was given, [OPENAI_API_KEY] is unset or empty, and the
    variable named is the one of the model's own family, itself unset or
    empty.  When [fill] goes on with a model of one of the three families,
    the key it goes on with is not empty. *)
Theorem resolve_api_key_sound (k : option pystr) (env : environ) (model : pystr) :
  (missing k = false -> resolve_api_key k env model = Key k)
  /\ (forall v, resolve_api_key k env model = NoKey v ->
        missing k = true
        /\ missing (environ_get env OPENAI_API_KEY) = true
        /\ ((v = OPENAI_API_KEY /\ startswith model (py "gpt") = true)
            \/ (v = ANTHROPIC_API_KEY /\ startswith model (py "claude") = true
                /\ missing (environ_get env ANTHROPIC_API_KEY) = true)
            \/ (v = GOOGLE_API_KEY /\ startswith model (py "gemini") = true
                /\ missing (environ_get env GOOGLE_API_KEY) = true)))
  /\ (forall key, resolve_api_key k env model = Key key ->
        startswith model (py "gpt") = true \/ startswith model (py "claude") = true
        \/ startswith model (py "gemini") = true ->
        missing key = false).
Proof.
  unfold resolve_api_key.
  destruct (missing k) eqn:Ek.
  2:{ split; [reflexivity|]. split; [discriminate|].
      intros key H _. injection H as <-. exact Ek. }
  split; [discriminate|].
  destruct (startswith model (py "gpt")) eqn:Egpt;
    destruct (startswith model (py "claude")) eqn:Ecl;
    destruct (startswith model (py "gemini")) eqn:Ege;
    try (apply startswith_gpt_claude in Egpt; congruence);
    try (apply startswith_gpt_gemini in Ege; congruence);
    try (apply startswith_claude_gemini in Ege; congruence);
    destruct (missing (environ_get env OPENAI_API_KEY)) eqn:Eo; cbn [andb];
    try rewrite Eo;
    try (destruct (missing (environ_get env ANTHROPIC_API_KEY)) eqn:Ea);
    try (destruct (missing (environ_get env GOOGLE_API_KEY)) eqn:Eg);
    cbn [andb]; try rewrite Eo;
    (split;
     [ intros v H; try discriminate; injection H as <-; repeat split; tauto
     | intros key H Hfam; try discriminate; injection H as <-;
       first [assumption | destruct Hfam as [?|[?|?]]; discriminate] ]).
Qed.

Lemma resolve_api_key_sound_witness :
  missing None = true
  /\ missing (environ_get [] OPENAI_API_KEY) = true
  /\ ((ANTHROPIC_API_KEY = OPENAI_API_KEY /\ startswith (py "claude-3") (py "gpt") = true)
      \/ (ANTHROPIC_API_KEY = ANTHROPIC_API_KEY /\ startswith (py "claude-3") (py "claude") = true
          /\ missing (environ_get [] ANTHROPIC_API_KEY) = true)
      \/ (ANTHROPIC_API_KEY = GOOGLE_API_KEY /\ startswith (py "claude-3") (py "gemini") = true
          /\ missing (environ_get [] GOOGLE_API_KEY) = true)).
Proof.
  exact (proj1 (proj2 (resolve_api_key_sound None [] (py "claude-3")))
           ANTHROPIC_API_KEY eq_refl).
Defined.

Lemma imported_unanswered (n : nat) (qds : list QuestionData) :
  unanswered (imported n qds) = imported n qds.
Proof.
  revert n; induction qds as [|q qds IH]; intro n; [reflexivity|].
  unfold unanswered in *. simpl. rewrite IH. reflexivity.
Qed.

(** The loop of [fill] over the questions of the template, on the fresh
    application. *)
Lemma add_all_fresh (str_lower : pystr -> pystr) (td : TemplateData)
  (name url dl : pystr) (l : list (entry QuestionData)) (app : IncubatorApplication) :
  match td_questions td with Some qs => qs | None => Iterable [] end = Iterable l ->
  add_all l (new_application str_lower name url dl [] None) = (true, app) ->
  all_objects (td_questions td) = true
  /\ app = new_application str_lower name url dl (imported 0 (document_questions td)) None.
Proof.
  intros Hl Hadd. pose proof (add_all_fst l (new_application str_lower name url dl [] None)) as Hf.
  rewrite Hadd in Hf. cbn [fst] in Hf.
  apply add_all_appends in Hadd as (qds & Hq & Hn & Hu & Hd & Hi & Hp & Hok & _).
  specialize (Hok eq_refl). subst l. cbn in Hq, Hn, Hu, Hd, Hi, Hp.
  assert (document_questions td = qds) as ->.
  { unfold document_questions. destruct (td_questions td) as [[l|]|]; try discriminate.
    - injection Hl as ->. apply objects_map.
    - injection Hl as Hl. destruct qds; [reflexivity|discriminate]. }
  split.
  - unfold all_objects. destruct (td_questions td) as [[l|]|]; try discriminate; [|reflexivity].
    injection Hl as ->. symmetry. exact Hf.
  - destruct app. cbn in *. subst. reflexivity.
Qed.

(** When [generate_answers] returns, it had a profile and a supported model,
    it has constructed the client, and it has called the backend once per
    unanswered question. *)
Lemma generate_answers_returns (w : World) (k : option pystr) (model : pystr) (temp : float)
  (app app' : IncubatorApplication) (tr tr' : Trace) (r : list IncubatorQuestion) :
  generate_answers w k model temp app tr = (Ok r, app', tr') ->
  exists profile llm qs ev,
    project_profile app = Some profile
    /\ select_llm k model temp = Some llm
    /\ r = filter answered qs
    /\ app' = set_questions app qs
    /\ tr' = tr ++ EvClient llm :: ev
    /\ map describe qs = map describe (questions app)
    /\ Forall2 (call_for llm (to_dict profile)) ev (unanswered (questions app)).
Proof.
  intro H.
  destruct (generate_answers_cases w k model temp app tr)
    as [[e He]|(p & llm & Hp & Hs & Hc)]; [congruence|].
  rewrite (generate_answers_loop w k model temp app tr p llm Hp Hs Hc) in H.
  destruct (fst (fst (generate_loop w llm (to_dict p) (questions app) (tr ++ [EvClient llm]))))
    eqn:Hdone; [discriminate|].
  destruct (generate_loop_calls w llm (to_dict p) (questions app) (tr ++ [EvClient llm]) Hdone)
    as (ev & Htr & Hcalls & _).
  injection H as <- <- <-.
  exists p, llm, (snd (fst (generate_loop w llm (to_dict p) (questions app)
                              (tr ++ [EvClient llm])))), ev.
  repeat split; try assumption.
  - rewrite Htr, <- app_assoc. reflexivity.
  - apply generate_loop_describe.
Qed.

Section FillFacts.

Variable str_lower : pystr -> pystr.
Variable validate : ftype -> pyval -> option pyval.
Variable w : World.

(** With a model of no known family, the body of the [try] of [fill] ends in
    the [except] branch and does nothing to the world. *)
Lemma fill_pipeline_unsupported (template profile output : pystr) (k : option pystr)
  (model : pystr) (temp : float) (tr : Trace) :
  select_llm k model temp = None ->
  exists e,
    fill_pipeline str_lower validate w template profile output k model temp tr
    = (Failed e, tr)
    /\ (forall td loaded p,
          read_json w tr template = Loaded td -> all_objects (td_questions td) = true ->
          read_yaml w tr profile = Some loaded -> from_yaml validate loaded = Ok p ->
          e = ValueError (msg_unsupported model)).
Proof.
  intro Hs. unfold fill_pipeline.
  destruct (read_json w tr template) as [| | |td] eqn:Er;
    try (eexists; split; [reflexivity|]; intros; discriminate).
  destruct (match td_questions td with Some qs => qs | None => Iterable [] end) as [l|] eqn:El.
  2:{ eexists; split; [reflexivity|]. intros td' loaded p H Hall. injection H as <-.
      unfold all_objects in Hall. destruct (td_questions td) as [[l|]|]; discriminate. }
  pose proof (add_all_fst l
    (new_application str_lower
       (match td_program_name td with Some s => s | None => py "Unknown Program" end)
       (match td_application_url td with Some s => s | None => [] end)
       (match td_deadline td with Some s => s | None => py "Unknown" end) [] None)) as Hfst.
  destruct (add_all l _) as [[|] app1] eqn:Eadd; cbn [fst] in Hfst.
  2:{ eexists; split; [reflexivity|]. intros td' loaded p H Hall. injection H as <-.
      unfold all_objects in Hall. destruct (td_questions td) as [[l'|]|]; try discriminate.
      - injection El as ->. congruence.
      - injection El as <-. discriminate. }
  unfold load_project_profile.
  destruct (read_yaml w tr profile) as [loaded|];
    [|eexists; split; [reflexivity|]; intros; discriminate].
  destruct (from_yaml validate loaded) as [p|e] eqn:Ep.
  - unfold generate_answers. cbn [project_profile set_project_profile]. rewrite Hs.
    eexists; split; [reflexivity|]. reflexivity.
  - eexists; split; [reflexivity|]. intros td' loaded' p' _ _ H H'.
    injection H as <-. congruence.
Qed.

(** When the body of the [try] of [fill] gets to the end: what it read, what
    it did, what it wrote. *)
Lemma fill_pipeline_filled (template profile output : pystr) (k : option pystr)
  (model : pystr) (temp : float) (tr tr' : Trace) (app : IncubatorApplication)
  (out : pystr) :
  fill_pipeline str_lower validate w template profile output k model temp tr
  = (Filled app out, tr') ->
  exists td loaded prof llm ev,
    out = output
    /\ read_json w tr template = Loaded td
    /\ all_objects (td_questions td) = true
    /\ read_yaml w tr profile = Some loaded
    /\ from_yaml validate loaded = Ok prof
    /\ select_llm k model temp = Some llm
    /\ project_profile app = Some prof
    /\ program_name app
       = match td_program_name td with Some s => s | None => py "Unknown Program" end
    /\ application_url app = match td_application_url td with Some s => s | None => [] end
    /\ deadline app = match td_deadline td with Some s => s | None => py "Unknown" end
    /\ map describe (questions app) = map describe (imported 0 (document_questions td))
    /\ Forall2 (call_for llm (to_dict prof)) ev (imported 0 (document_questions td))
    /\ tr' = tr ++ EvClient llm :: ev
                ++ [EvMakedirs (dirname out) true; EvWrite out (export_document app) true].
Proof.
  unfold fill_pipeline. intro H.
  destruct (read_json w tr template) as [| | |td] eqn:Er; try discriminate.
  destruct (match td_questions td with Some qs => qs | None => Iterable [] end) as [l|] eqn:El;
    [|discriminate].
  destruct (add_all l _) as [[|] app1] eqn:Eadd; [|discriminate].
  destruct (add_all_fresh str_lower td _ _ _ l app1 El Eadd) as [Hall ->].
  unfold load_project_profile in H.
  destruct (read_yaml w tr profile) as [loaded|] eqn:Ey; [|discriminate].
  destruct (from_yaml validate loaded) as [prof|e] eqn:Ep; [|discriminate].
  match type of H with
  | context [generate_answers w k model temp ?a tr] =>
      destruct (generate_answers w k model temp a tr) as [[[r|e] app2] tr1] eqn:Eg;
        [|discriminate];
      apply generate_answers_returns in Eg
        as (prof' & llm & qs & ev & Hp' & Es & -> & -> & -> & Hdesc & Hcalls)
  end.
  cbn [project_profile set_project_profile] in Hp'. injection Hp' as <-.
  cbn [fst snd questions set_questions set_project_profile new_application] in Hdesc, Hcalls.
  rewrite imported_unanswered in Hcalls.
  match type of H with
  | context [export_answers w output ?a ?t] =>
      pose proof (export_answers_writes w output a t) as Hexp;
      destruct (export_answers w output a t) as [[p|e] tr2]; [|discriminate]
  end.
  injection H as <- <- <-.
  destruct (Hexp p eq_refl) as [_ Htr2]. cbn [snd] in Htr2.
  exists td, loaded, prof, llm, ev.
  repeat split; try reflexivity; try assumption.
  rewrite Htr2, <- app_assoc. reflexivity.
Qed.

End FillFacts.

(** X13. [fill] with a model of no known family.  Such a model needs no key:
    [fill] never stops for one.  It creates the default output directory if
    no [--output] is given, does nothing else to the world -- no client, no
    backend call, no file written --, and never reports success.  When the
    template and the profile can be loaded, it ends in the [except] branch
    with the "Unsupported model" error. *)
Theorem fill_unsupported_model
  (str_lower : pystr -> pystr) (validate : ftype -> pyval -> option pyval) (w : World)
  (template profile : pystr) (output k : option pystr) (model : pystr) (temp : float)
  (env : environ) (tr : Trace) :
  startswith model (py "gpt") = false ->
  startswith model (py "claude") = false ->
  startswith model (py "gemini") = false ->
  exists o ev,
    fill str_lower validate w template profile output k model temp env tr = (o, tr ++ ev)
    /\ (ev = [] \/ exists ok, ev = [EvMakedirs base_dir ok])
    /\ match o with
       | Stopped _ | Filled _ _ => False
       | Uncaught e => e = OSError
       | Failed e =>
           forall td loaded p,
             read_json w (tr ++ ev) template = Loaded td ->
             all_objects (td_questions td) = true ->
             read_yaml w (tr ++ ev) profile = Some loaded ->
             from_yaml validate loaded = Ok p ->
             e = ValueError (msg_unsupported model)
       end.
Proof.
  intros Hg Hc Hm.
  assert (forall key, select_llm key model temp = None) as Hs
    by (intro key; unfold select_llm; rewrite Hg, Hc, Hm; reflexivity).
  assert (exists key, resolve_api_key k env model = Key key) as [key Hkey].
  { unfold resolve_api_key. rewrite Hg, Hc, Hm.
    destruct (missing k); [|eexists; reflexivity].
    rewrite andb_false_r. cbn [andb]. eexists; reflexivity. }
  unfold fill. rewrite Hkey.
  destruct (missing output).
  - destruct (makedirs w tr base_dir) eqn:Emk.
    + destruct (fill_pipeline_unsupported str_lower validate w template profile
                  (path_join base_dir (py "filled_" ++ basename template)) key model temp
                  (tr ++ [EvMakedirs base_dir true]) (Hs key)) as (e & Hrun & Hwhy).
      exists (Failed e), [EvMakedirs base_dir true].
      split; [exact Hrun|]. split; [right; eexists; reflexivity|exact Hwhy].
    + exists (Uncaught OSError), [EvMakedirs base_dir false].
      split; [reflexivity|]. split; [right; eexists; reflexivity|reflexivity].
  - destruct (fill_pipeline_unsupported str_lower validate w template profile
                (match output with Some o => o | None => [] end) key model temp tr (Hs key))
      as (e & Hrun & Hwhy).
    exists (Failed e), []. rewrite app_nil_r.
    split; [exact Hrun|]. split; [left; reflexivity|exact Hwhy].
Qed.

Lemma fill_unsupported_model_witness :
  exists o ev,
    fill ascii_lower strict template_world (py "t.json") (py "p.yaml") None None
      (py "llama-2") half [] [] = (o, [] ++ ev)
    /\ (ev = [] \/ exists ok, ev = [EvMakedirs base_dir ok])
    /\ match o with
       | Stopped _ | Filled _ _ => False
       | Uncaught e => e = OSError
       | Failed e =>
           forall td loaded p,
             read_json template_world ([] ++ ev) (py "t.json") = Loaded td ->
             all_objects (td_questions td) = true ->
             read_yaml template_world ([] ++ ev) (py "p.yaml") = Some loaded ->
             from_yaml strict loaded = Ok p ->
             e = ValueError (msg_unsupported (py "llama-2"))
       end.
Proof.
  exact (fill_unsupported_model ascii_lower strict template_world (py "t.json") (py "p.yaml")
           None None (py "llama-2") half [] [] eq_refl eq_refl eq_refl).
Defined.

(** X14. A successful [fill], end to end.  When [fill] reports success, it
    had a key, the template was a JSON object with well-formed questions,
    the profile parsed, and the model was of a known family.  The
    application it saved takes its name, URL and deadline from the template
    (or the defaults "Unknown Program", "" and "Unknown") and holds the
    questions of the template in order; answers present in the template are
    not read.  After creating the default directory if there was no
    [--output], [fill] constructed one client with the resolved key, called
    the backend exactly once per question of the template, in order, and
    last created the directory of the output file and wrote the exported
    document of that application there: the given path, or
    [incubator_applications/filled_<template file name>]. *)
Theorem fill_success_end_to_end
  (str_lower : pystr -> pystr) (validate : ftype -> pyval -> option pyval) (w : World)
  (template profile : pystr) (output k : option pystr) (model : pystr) (temp : float)
  (env : environ) (tr tr' : Trace) (app : IncubatorApplication) (out : pystr) :
  fill str_lower validate w template profile output k model temp env tr
  = (Filled app out, tr') ->
  exists key tr0 td loaded prof llm ev,
    resolve_api_key k env model = Key key
    /\ (if missing output
        then tr0 = tr ++ [EvMakedirs base_dir true]
             /\ out = path_join base_dir (py "filled_" ++ basename template)
        else tr0 = tr /\ output = Some out)
    /\ read_json w tr0 template = Loaded td
    /\ all_objects (td_questions td) = true
    /\ read_yaml w tr0 profile = Some loaded
    /\ from_yaml validate loaded = Ok prof
    /\ select_llm key model temp = Some llm
    /\ project_profile app = Some prof
    /\ program_name app
       = match td_program_name td with Some s => s | None => py "Unknown Program" end
    /\ application_url app = match td_application_url td with Some s => s | None => [] end
    /\ deadline app = match td_deadline td with Some s => s | None => py "Unknown" end
    /\ map describe (questions app) = map describe (imported 0 (document_questions td))
    /\ Forall2 (call_for llm (to_dict prof)) ev (imported 0 (document_questions td))
    /\ tr' = tr0 ++ EvClient llm :: ev
                 ++ [EvMakedirs (dirname out) true; EvWrite out (export_document app) true].
Proof.
  unfold fill. intro H.
  destruct (resolve_api_key k env model) as [v|key] eqn:Ekey; [discriminate|].
  destruct (missing output) eqn:Eout.
  - destruct (makedirs w tr base_dir) eqn:Emk; [|discriminate].
    destruct (fill_pipeline_filled str_lower validate w _ _ _ _ _ _ _ _ _ _ H)
      as (td & loaded & prof & llm & ev & H0 & H1 & H2 & H3 & H4 & H5 & H6 & H7 & H8 & H9
          & H10 & H11 & H12).
    exists key, (tr ++ [EvMakedirs base_dir true]), td, loaded, prof, llm, ev.
    repeat split; assumption.
  - destruct (fill_pipeline_filled str_lower validate w _ _ _ _ _ _ _ _ _ _ H)
      as (td & loaded & prof & llm & ev & H0 & H1 & H2 & H3 & H4 & H5 & H6 & H7 & H8 & H9
          & H10 & H11 & H12).
    exists key, tr, td, loaded, prof, llm, ev.
    repeat split; try assumption.
    destruct output as [[|c o]|]; try discriminate. rewrite H0. reflexivity.
Qed.

Lemma fill_success_end_to_end_witness :
  exists llm ev,
    Forall2 (call_for llm (to_dict sample_profile)) ev
            (imported 0 (document_questions two_question_document))
    /\ snd filled_run
       = [] ++ EvClient llm :: ev
            ++ [EvMakedirs (dirname (py "out/a.json")) true;
                EvWrite (py "out/a.json") (export_document filled_app) true].
Proof.
  destruct (fill_success_end_to_end ascii_lower strict filling_world (py "t.json")
              (py "p.yaml") (Some (py "out/a.json")) (Some (py "sk-test")) (py "gpt-4") half
              [] [] (snd filled_run) filled_app (py "out/a.json"))
    as (key & tr0 & td & loaded & prof & llm & ev & _ & [Htr0 _] & Hread & _ & Hyaml & Hprof
        & _ & _ & _ & _ & _ & _ & Hcalls & Htr).
  - vm_compute. reflexivity.
  - subst tr0. injection Hread as <-. injection Hyaml as <-.
    vm_compute in Hprof. injection Hprof as <-.
    exists llm, ev. split; [exact Hcalls|exact Htr].
Defined.

(* ================================================================== *)
(** * Properties of [create_template] and of documents read back *)
(* ================================================================== *)

Lemma read_all_placeholders (l : list nat) :
  read_all read_question (map placeholder_question l)
  = Some (map (fun i => EntryDict (placeholder_data i)) l).
Proof.
  induction l as [|i l IH]; [reflexivity|].
  cbn [map read_all]. rewrite IH. reflexivity.
Qed.

Lemma read_created_template (name : pystr) (n : Z) (url dl : option pystr) :
  read_document (PDict (template_document name n url dl))
  = Some (Loaded (created_template name n url dl)).
Proof.
  unfold read_document, created_template.
  change (dict_get (template_document name n url dl) (py "program_name"))
    with (Some (PStr name)).
  change (dict_get (template_document name n url dl) (py "application_url"))
    with (Some (PStr (or_empty url))).
  change (dict_get (template_document name n url dl) (py "deadline"))
    with (Some (PStr (or_empty dl))).
  change (dict_get (template_document name n url dl) (py "questions"))
    with (Some (PList (map placeholder_question (seq 1 (Z.to_nat n))))).
  change (dict_get (template_document name n url dl) (py "answers")) with (@None pyval).
  cbn [str_leaf read_entries py_iter]. rewrite read_all_placeholders. reflexivity.
Qed.

Lemma imported_explicit (n : nat) (l : list nat) :
  imported n (map placeholder_data l)
  = map (fun i => new_question (default_id i) (placeholder_text i) (Some 1000%Z)
                    (Some placeholder_hint)) l.
Proof.
  revert n; induction l as [|i l IH]; intro n; [reflexivity|].
  simpl. rewrite IH. reflexivity.
Qed.

Lemma answer_all_shape (l : list (entry AnswerData)) (app : IncubatorApplication) :
  exists qs, snd (answer_all l app) = set_questions app qs.
Proof.
  revert app; induction l as [|[a|] l IH]; intro app; simpl;
    try (exists (questions app); symmetry; apply set_questions_same).
  destruct (IH (answer_from_data a app)) as [qs Hqs]. rewrite Hqs.
  unfold answer_from_data. destruct (ad_question_id a); [|exists qs; reflexivity].
  unfold answer_question. destruct (answer_first _ _ _); exists qs; reflexivity.
Qed.



(** X16. A created template can be loaded.  [load_from_json] on the document
    that [create_template] writes returns [True] on every application; it
    sets the name, the URL and the deadline to those of the template (the
    empty string for a missing URL or deadline), leaves [id] as it was, and
    appends the placeholder questions, unanswered, with the ids [q1], [q2],
    ... of the template, the limit 1000 and the placeholder hint, after the
    questions the application already had. *)
Theorem create_template_then_load
  (name : pystr) (n : Z) (url dl : option pystr) (app : IncubatorApplication) :
  exists loaded,
    read_document (PDict (template_document name n url dl)) = Some loaded
    /\ fst (load_from_data loaded app) = true
    /\ program_name (snd (load_from_data loaded app)) = name
    /\ application_url (snd (load_from_data loaded app)) = or_empty url
    /\ deadline (snd (load_from_data loaded app)) = or_empty dl
    /\ id (snd (load_from_data loaded app)) = id app
    /\ questions (snd (load_from_data loaded app))
       = questions app
         ++ map (fun i => new_question (default_id i) (placeholder_text i) (Some 1000%Z)
                            (Some placeholder_hint))
                (seq 1 (Z.to_nat n)).
Proof.
  exists (Loaded (created_template name n url dl)).
  split; [apply read_created_template|].
  unfold load_from_data, created_template.
  cbn [td_program_name td_application_url td_deadline td_questions td_answers].
  set (app1 := set_metadata app name (or_empty url) (or_empty dl)).
  pose proof (add_all_fst (map (fun i => EntryDict (placeholder_data i)) (seq 1 (Z.to_nat n)))
                app1) as Hfst.
  destruct (add_all _ app1) as [ok app2] eqn:Eadd. cbn [fst] in Hfst.
  assert (ok = true) as ->.
  { rewrite Hfst. apply forallb_forall. intros e He.
    apply in_map_iff in He as (i & <- & _). reflexivity. }
  apply add_all_appends in Eadd as (qds & Hq & Hn & Hu & Hd & Hi & _ & Hok & _).
  specialize (Hok eq_refl).
  rewrite <- (map_map placeholder_data EntryDict) in Hok.
  assert (qds = map placeholder_data (seq 1 (Z.to_nat n))) as ->.
  { rewrite <- (objects_map qds), <- Hok, objects_map. reflexivity. }
  rewrite imported_explicit in Hq. cbn [answer_all fst snd].
  repeat split; assumption.
Qed.

Lemma read_all_answers (qs : list IncubatorQuestion) :
  read_all read_answer (map answer_entry qs)
  = Some (map (fun q => EntryDict (exported_answer q)) qs).
Proof.
  induction qs as [|q qs IH]; [reflexivity|].
  cbn [map read_all]. rewrite IH. reflexivity.
Qed.

Lemma read_exported_document (app : IncubatorApplication) :
  read_document (PDict (export_document app)) = Some (Loaded (exported_template app)).
Proof.
  unfold read_document, exported_template.
  change (dict_get (export_document app) (py "program_name"))
    with (Some (PStr (program_name app))).
  change (dict_get (export_document app) (py "application_url"))
    with (Some (PStr (application_url app))).
  change (dict_get (export_document app) (py "deadline"))
    with (Some (PStr (deadline app))).
  change (dict_get (export_document app) (py "questions")) with (@None pyval).
  change (dict_get (export_document app) (py "answers"))
    with (Some (PList (map answer_entry (filter answered (questions app))))).
  cbn [str_leaf read_entries py_iter]. rewrite read_all_answers. reflexivity.
Qed.

Lemma not_in_ids (qs : list IncubatorQuestion) (i : pystr) :
  ~ In i (map question_id qs) -> existsb (fun p => eqb (question_id p) i) qs = false.
Proof.
  induction qs as [|q qs IH]; [reflexivity|]. simpl. intro H.
  apply orb_false_iff. split.
  - destruct (eqb (question_id q) i) eqn:E; [|reflexivity].
    apply eqb_eq in E. exfalso. apply H. left. exact E.
  - apply IH. intro Hin. apply H. right. exact Hin.
Qed.

(** Importing the exported answers of [todo] into questions with the same
    ids, all different. *)
Lemma answer_all_restores (todo todo0 done0 : list IncubatorQuestion)
  (app : IncubatorApplication) :
  questions app = done0 ++ todo0 ->
  map question_id todo0 = map question_id todo ->
  NoDup (map question_id (done0 ++ todo0)) ->
  questions (snd (answer_all (map (fun q => EntryDict (exported_answer q))
                                  (filter answered todo)) app))
  = done0 ++ restore todo0 todo.
Proof.
  revert todo0 done0 app; induction todo as [|q todo IH]; intros todo0 done0 app Hq Hids Hnd.
  - destruct todo0; [|discriminate]. exact Hq.
  - destruct todo0 as [|q0 todo0]; [discriminate|].
    simpl in Hids. injection Hids as Hid Hids.
    cbn [filter restore]. destruct (answered q) eqn:Ha.
    + cbn [map].
      set (rest := map (fun x => EntryDict (exported_answer x)) (filter answered todo)).
      cbn [answer_all]. unfold answer_from_data, exported_answer.
      cbn [ad_question_id ad_answer]. unfold answer_question. rewrite Hq.
      assert (existsb (fun p => eqb (question_id p) (question_id q)) done0 = false) as Hpre.
      { apply not_in_ids. rewrite map_app in Hnd. simpl in Hnd.
        apply NoDup_remove_2 in Hnd. rewrite <- Hid. intro Hin. apply Hnd.
        apply in_or_app. left. exact Hin. }
      rewrite (answer_first_found done0 todo0 q0 (question_id q) (answer q) Hpre Hid).
      cbn [snd]. subst rest.
      rewrite (IH todo0 (done0 ++ [set_answer q0 (answer q)])
                 (set_questions app (done0 ++ set_answer q0 (answer q) :: todo0))).
      * rewrite <- app_assoc. reflexivity.
      * cbn [questions set_questions]. rewrite <- app_assoc. reflexivity.
      * exact Hids.
      * rewrite <- app_assoc. simpl. rewrite map_app in Hnd |- *. exact Hnd.
    + rewrite (IH todo0 (done0 ++ [q0]) app).
      * rewrite <- app_assoc. reflexivity.
      * rewrite Hq, <- app_assoc. reflexivity.
      * exact Hids.
      * rewrite <- app_assoc. exact Hnd.
Qed.

Lemma restore_self (qs : list IncubatorQuestion) : restore qs qs = qs.
Proof.
  induction qs as [|q qs IH]; [reflexivity|]. simpl. rewrite IH.
  destruct (answered q) eqn:Ha; [|reflexivity].
  destruct q. simpl in *. subst. reflexivity.
Qed.

Lemma set_answer_same (q0 q : IncubatorQuestion) :
  describe q0 = describe q -> answered q = true -> set_answer q0 (answer q) = q.
Proof.
  destruct q0, q. unfold describe, set_answer. simpl.
  intros H Ha. inversion H. subst. reflexivity.
Qed.

Lemma restore_nth (qs0 qs : list IncubatorQuestion) (i : nat) (q : IncubatorQuestion) :
  map describe qs0 = map describe qs ->
  nth_error qs i = Some q -> answered q = true ->
  nth_error (restore qs0 qs) i = Some q.
Proof.
  revert qs i; induction qs0 as [|q0 qs0 IH]; intros [|x qs] i Hd Hn Ha; try discriminate.
  - destruct i; discriminate.
  - cbn [map] in Hd.
    pose proof (f_equal (hd (describe q0)) Hd) as Hx. cbn [hd] in Hx.
    apply (f_equal (@tl _)) in Hd. cbn [tl] in Hd.
    destruct i as [|i]; simpl in Hn |- *.
    + injection Hn as ->. rewrite Ha. f_equal. apply set_answer_same; assumption.
    + apply IH; assumption.
Qed.

(** X17. Exported answers can be imported.  Take an application whose
    question ids are all different, and the document [export_answers]
    writes for it.  [load_from_json] on that document, on any application
    whose questions have the same ids in the same order, returns [True],
    adds no question, sets the name, the URL and the deadline to the
    exported ones, and gives every question that was answered in the
    exporting application the exported answer, leaving the others alone.
    On the exporting application itself this changes no question; on an
    application with the same questions, it puts every answered question
    back exactly as exported. *)
Theorem export_then_import_restores (app app0 : IncubatorApplication) :
  NoDup (map question_id (questions app)) ->
  map question_id (questions app0) = map question_id (questions app) ->
  exists loaded,
    read_document (PDict (export_document app)) = Some loaded
    /\ fst (load_from_data loaded app0) = true
    /\ program_name (snd (load_from_data loaded app0)) = program_name app
    /\ application_url (snd (load_from_data loaded app0)) = application_url app
    /\ deadline (snd (load_from_data loaded app0)) = deadline app
    /\ questions (snd (load_from_data loaded app0)) = restore (questions app0) (questions app)
    /\ (questions app0 = questions app ->
        questions (snd (load_from_data loaded app0)) = questions app)
    /\ (map describe (questions app0) = map describe (questions app) ->
        forall i q, nth_error (questions app) i = Some q -> answered q = true ->
          nth_error (questions (snd (load_from_data loaded app0))) i = Some q).
Proof.
  intros Hnd Hids. exists (Loaded (exported_template app)).
  split; [apply read_exported_document|].
  unfold load_from_data, exported_template.
  cbn [td_program_name td_application_url td_deadline td_questions td_answers add_all].
  set (app1 := set_metadata app0 (program_name app) (application_url app) (deadline app)).
  set (l := map (fun q => EntryDict (exported_answer q)) (filter answered (questions app))).
  assert (fst (answer_all l app1) = true) as Hok.
  { rewrite answer_all_fst. apply forallb_forall. intros e He. subst l.
    apply in_map_iff in He as (q & <- & _). reflexivity. }
  destruct (answer_all_shape l app1) as [qs Hshape].
  assert (questions (snd (answer_all l app1)) = restore (questions app0) (questions app))
    as Hq.
  { subst l. rewrite (answer_all_restores (questions app) (questions app0) [] app1);
      [reflexivity|reflexivity|exact Hids|]. simpl. rewrite Hids. exact Hnd. }
  split; [exact Hok|].
  split; [rewrite Hshape; reflexivity|]. split; [rewrite Hshape; reflexivity|].
  split; [rewrite Hshape; reflexivity|]. split; [exact Hq|]. split.
  - intro Hsame. rewrite Hq, Hsame. apply restore_self.
  - intros Hd i q Hn Ha. rewrite Hq. apply restore_nth; assumption.
Qed.

(** The sample application, exported, and imported into the same questions
    without answers. *)
Lemma export_then_import_restores_witness :
  nth_error
    (questions
       (snd (load_from_data (Loaded (exported_template sample_app)) reset_app))) 2
  = Some q_done.
Proof.
  destruct (export_then_import_restores sample_app reset_app)
    as (loaded & Hread & _ & _ & _ & _ & _ & _ & Hnth).
  - repeat constructor; simpl; intuition discriminate.
  - reflexivity.
  - rewrite read_exported_document in Hread. injection Hread as <-.
    apply (Hnth eq_refl 2 q_done eq_refl eq_refl).
Defined.

(* ================================================================== *)
(** * What sequences of calls never do *)
(* ================================================================== *)

Lemma answer_first_nth (qs qs' : list IncubatorQuestion) (j a : pystr) (i : nat)
  (q : IncubatorQuestion) :
  answer_first qs j a = Some qs' -> nth_error qs i = Some q ->
  nth_error qs' i = Some q
  \/ (question_id q = j /\ nth_error qs' i = Some (set_answer q a)).
Proof.
  revert qs' i; induction qs as [|x qs IH]; intros qs' i H Hn; simpl in H; [discriminate|].
  destruct (eqb (question_id x) j) eqn:E.
  - injection H as <-. destruct i as [|i]; simpl in *.
    + injection Hn as ->. right. split; [apply eqb_eq; exact E|reflexivity].
    + left. exact Hn.
  - destruct (answer_first qs j a) as [qs''|]; [|discriminate]. injection H as <-.
    destruct i as [|i]; simpl in *; [left; exact Hn|].
    apply (IH qs'' i eq_refl Hn).
Qed.

Lemma generate_answers_keeps (w : World) (k : option pystr) (model : pystr) (temp : float)
  (app : IncubatorApplication) (tr : Trace) (i : nat) (q : IncubatorQuestion) :
  nth_error (questions app) i = Some q -> answered q = true ->
  nth_error (questions (snd (fst (generate_answers w k model temp app tr)))) i = Some q.
Proof.
  intros Hn Ha.
  destruct (generate_answers_cases w k model temp app tr)
    as [[e He]|(p & llm & Hp & Hs & Hc)].
  - rewrite He. exact Hn.
  - rewrite (generate_answers_loop w k model temp app tr p llm Hp Hs Hc).
    cbn [fst snd questions set_questions].
    apply generate_loop_keeps; assumption.
Qed.

Lemma step_keeps_answered (validate : ftype -> pyval -> option pyval) (w : World)
  (st : IncubatorApplication * Trace) (c : call) (i : nat) (q : IncubatorQuestion) :
  nth_error (questions (fst st)) i = Some q -> answered q = true ->
  exists q',
    nth_error (questions (fst (step validate w st c))) i = Some q'
    /\ answered q' = true
    /\ describe q' = describe q
    /\ (no_manual_answer (question_id q) [c] = true -> q' = q).
Proof.
  destruct st as [app tr]. cbn [fst]. intros Hn Ha.
  destruct c as [j t mc hint|j a|key model temp|path]; cbn [step fst].
  - exists q. repeat split; try assumption.
    cbn [add_question snd questions set_questions].
    rewrite nth_error_app1; [exact Hn|]. apply nth_error_Some. congruence.
  - unfold answer_question.
    destruct (answer_first (questions app) j a) as [qs|] eqn:E;
      [|exists q; repeat split; assumption].
    cbn [snd questions set_questions].
    destruct (answer_first_nth _ _ _ _ i q E Hn) as [H|[Hid H]].
    + exists q. repeat split; assumption.
    + exists (set_answer q a). split; [exact H|]. split; [reflexivity|].
      split; [reflexivity|]. cbn [no_manual_answer forallb].
      rewrite <- Hid, eqb_refl. discriminate.
  - exists q. pose proof (generate_answers_keeps w key model temp app tr i q Hn Ha) as Hk.
    destruct (generate_answers w key model temp app tr) as [[r app'] tr'].
    repeat split; assumption.
  - exists q. rewrite load_project_profile_questions. repeat split; assumption.
Qed.

(** X18. Answers persist.  Through any sequence of calls of [add_question],
    [answer_question], [generate_answers] and [load_project_profile], a
    question that is answered stays at its position, stays answered and
    keeps its id, text, limit and hint; and it keeps its answer unless the
    sequence holds a manual answer to its id. *)
Theorem answered_questions_persist
  (validate : ftype -> pyval -> option pyval) (w : World) (cs : list call)
  (app0 : IncubatorApplication) (tr0 : Trace) (i : nat) (q : IncubatorQuestion) :
  nth_error (questions app0) i = Some q -> answered q = true ->
  exists q',
    nth_error (questions (fst (run validate w cs (app0, tr0)))) i = Some q'
    /\ answered q' = true
    /\ describe q' = describe q
    /\ (no_manual_answer (question_id q) cs = true -> q' = q).
Proof.
  change app0 with (fst (app0, tr0)) at 1. generalize (app0, tr0). clear app0 tr0.
  revert q; induction cs as [|c cs IH]; intros q st Hn Ha.
  - exists q. repeat split; assumption.
  - destruct (step_keeps_answered validate w st c i q Hn Ha) as (q1 & Hn1 & Ha1 & Hd1 & Hsame1).
    destruct (IH q1 (step validate w st c) Hn1 Ha1) as (q' & Hn' & Ha' & Hd' & Hsame').
    exists q'. split; [exact Hn'|]. split; [exact Ha'|].
    split; [rewrite Hd'; exact Hd1|].
    assert (question_id q1 = question_id q) as Hid
      by (unfold describe in Hd1; congruence).
    cbn [no_manual_answer forallb]. intro H. apply andb_true_iff in H as [Hc Hcs].
    rewrite Hsame'.
    + apply Hsame1. cbn [no_manual_answer forallb]. rewrite Hc. reflexivity.
    + rewrite Hid. exact Hcs.
Qed.

(** The third question of the sample application, through a generation, a
    new question and a manual answer to another id. *)
Lemma answered_questions_persist_witness :
  exists q',
    nth_error (questions (fst (run strict echo_world
                                 [ GenerateAnswers (Some (py "sk-test")) (py "gpt-4") half;
                                   AddQuestion (py "q4") (py "How?") None None;
                                   AnswerQuestion (py "q1") (py "Us.") ]
                                 (sample_app, [])))) 2 = Some q'
    /\ answered q' = true
    /\ describe q' = describe q_done
    /\ (no_manual_answer (question_id q_done)
          [ GenerateAnswers (Some (py "sk-test")) (py "gpt-4") half;
            AddQuestion (py "q4") (py "How?") None None;
            AnswerQuestion (py "q1") (py "Us.") ] = true -> q' = q_done).
Proof.
  exact (answered_questions_persist strict echo_world
           [ GenerateAnswers (Some (py "sk-test")) (py "gpt-4") half;
             AddQuestion (py "q4") (py "How?") None None;
             AnswerQuestion (py "q1") (py "Us.") ]
           sample_app [] 2 q_done eq_refl eq_refl).
Defined.

(* ================================================================== *)
(** * What is written, and when *)
(* ================================================================== *)

Lemma calls_not_written (llm : LLM) (ev : list Event) :
  Forall (fun e => exists inputs response, e = EvChainRun llm inputs response) ev ->
  filter is_written ev = [].
Proof.
  induction 1 as [|e ev (inputs & r & ->) _ IH]; [reflexivity|]. simpl. exact IH.
Qed.

(** [generate_answers] writes no file. *)
Lemma generate_answers_not_written (w : World) (k : option pystr) (model : pystr)
  (temp : float) (app : IncubatorApplication) (tr : Trace) :
  exists ev, snd (generate_answers w k model temp app tr) = tr ++ ev
             /\ filter is_written ev = [].
Proof.
  destruct (generate_answers_cases w k model temp app tr)
    as [[e He]|(p & llm & Hp & Hs & Hc)].
  - rewrite He. exists []. split; [symmetry; apply app_nil_r|reflexivity].
  - rewrite (generate_answers_loop w k model temp app tr p llm Hp Hs Hc). cbn [snd].
    destruct (generate_loop_history w llm (to_dict p) (questions app) (tr ++ [EvClient llm]))
      as (ev & Htr & Hev).
    exists (EvClient llm :: ev). split; [rewrite Htr, <- app_assoc; reflexivity|].
    simpl. eapply calls_not_written. exact Hev.
Qed.

(** [export_answers] writes one file when it returns and none when it raises. *)
Lemma export_answers_written (w : World) (path : pystr) (app : IncubatorApplication)
  (tr : Trace) :
  exists ev, snd (export_answers w path app tr) = tr ++ ev
             /\ length (filter is_written ev)
                = match fst (export_answers w path app tr) with Ok _ => 1 | Raise _ => 0 end.
Proof.
  unfold export_answers. destruct (makedirs w tr (dirname path)).
  - destruct (write_json w _ path); cbn [fst snd]; eexists;
      (split; [rewrite <- app_assoc; reflexivity|reflexivity]).
  - cbn [fst snd]. eexists. split; reflexivity.
Qed.

Lemma fill_pipeline_written (str_lower : pystr -> pystr)
  (validate : ftype -> pyval -> option pyval) (w : World)
  (template profile output : pystr) (k : option pystr) (model : pystr) (temp : float)
  (tr : Trace) :
  exists ev,
    snd (fill_pipeline str_lower validate w template profile output k model temp tr) = tr ++ ev
    /\ length (filter is_written ev)
       = match fst (fill_pipeline str_lower validate w template profile output k model temp tr)
         with
         | Filled _ _ => 1
         | _ => 0
         end.
Proof.
  assert (exists ev : list Event, tr = tr ++ ev /\ length (filter is_written ev) = 0) as Hnil
    by (exists []; split; [symmetry; apply app_nil_r|reflexivity]).
  unfold fill_pipeline.
  destruct (read_json w tr template) as [| | |td]; try exact Hnil.
  destruct (match td_questions td with Some qs => qs | None => Iterable [] end) as [l|];
    [|exact Hnil].
  destruct (add_all l _) as [[|] app1]; [|exact Hnil].
  destruct (load_project_profile validate w profile app1 tr) as [[u|e] app2]; [|exact Hnil].
  destruct (generate_answers_not_written w k model temp app2 tr) as (ev1 & Htr1 & Hw1).
  destruct (generate_answers w k model temp app2 tr) as [[[qs|e] app3] tr1]; cbn [snd] in Htr1.
  - destruct (export_answers_written w output app3 tr1) as (ev2 & Htr2 & Hw2).
    destruct (export_answers w output app3 tr1) as [[p|e] tr2]; cbn [fst snd] in *;
      exists (ev1 ++ ev2);
      (split; [rewrite Htr2, Htr1, <- app_assoc; reflexivity|]);
      rewrite filter_app, Hw1; exact Hw2.
  - cbn [fst snd]. exists ev1. split; [exact Htr1|]. rewrite Hw1. reflexivity.
Qed.

(** X19. [fill] completes a file write exactly when it reports success.
    Whatever the arguments and the world, the history of a run of [fill]
    holds one completed file write if the run reports success, and none if
    it stops for want of a key, lets an exception through, or ends in the
    [except] branch. *)
Theorem fill_writes_only_on_success
  (str_lower : pystr -> pystr) (validate : ftype -> pyval -> option pyval) (w : World)
  (template profile : pystr) (output k : option pystr) (model : pystr) (temp : float)
  (env : environ) (tr : Trace) :
  exists ev,
    snd (fill str_lower validate w template profile output k model temp env tr) = tr ++ ev
    /\ length (filter is_written ev)
       = match fst (fill str_lower validate w template profile output k model temp env tr)
         with
         | Filled _ _ => 1
         | _ => 0
         end.
Proof.
  unfold fill. destruct (resolve_api_key k env model) as [v|key];
    [exists []; split; [symmetry; apply app_nil_r|reflexivity]|].
  destruct (missing output).
  - destruct (makedirs w tr base_dir).
    + destruct (fill_pipeline_written str_lower validate w template profile
                  (path_join base_dir (py "filled_" ++ basename template)) key model temp
                  (tr ++ [EvMakedirs base_dir true])) as (ev & Htr & Hw).
      exists (EvMakedirs base_dir true :: ev).
      split; [rewrite Htr, <- app_assoc; reflexivity|exact Hw].
    + exists [EvMakedirs base_dir false]. split; reflexivity.
  - apply fill_pipeline_written.
Qed.

(* ================================================================== *)
(** * Manual answers to different ids *)
(* ================================================================== *)

Lemma answered_with_cons (x : IncubatorQuestion) (qs : list IncubatorQuestion)
  (i a : pystr) :
  answered_with (x :: qs) i a
  = if eqb (question_id x) i then set_answer x a :: qs else x :: answered_with qs i a.
Proof.
  unfold answered_with. cbn [answer_first].
  destruct (eqb (question_id x) i); [reflexivity|].
  destruct (answer_first qs i a); reflexivity.
Qed.

Lemma answered_with_commute (qs : list IncubatorQuestion) (i a j b : pystr) :
  eqb i j = false ->
  answered_with (answered_with qs i a) j b = answered_with (answered_with qs j b) i a.
Proof.
  intro Hij. induction qs as [|x qs IH]; [reflexivity|].
  rewrite (answered_with_cons x qs i a), (answered_with_cons x qs j b).
  destruct (eqb (question_id x) i) eqn:Ei; destruct (eqb (question_id x) j) eqn:Ej;
    rewrite !answered_with_cons; cbn [question_id set_answer]; rewrite ?Ei, ?Ej;
    try reflexivity.
  - apply eqb_eq in Ei, Ej. rewrite <- Ei, <- Ej, eqb_refl in Hij. discriminate.
  - rewrite IH. reflexivity.
Qed.

Lemma answered_with_ids (qs : list IncubatorQuestion) (i a : pystr) :
  map question_id (answered_with qs i a) = map question_id qs.
Proof.
  unfold answered_with. destruct (answer_first qs i a) as [qs'|] eqn:E; [|reflexivity].
  apply answer_first_describe in E.
  apply (f_equal (map (fun d => fst (fst (fst d))))) in E.
  rewrite !map_map in E. exact E.
Qed.

Lemma existsb_ids (qs qs' : list IncubatorQuestion) (j : pystr) :
  map question_id qs = map question_id qs' ->
  existsb (fun q => eqb (question_id q) j) qs = existsb (fun q => eqb (question_id q) j) qs'.
Proof.
  revert qs'; induction qs as [|x qs IH]; intros [|y qs'] H; try discriminate; [reflexivity|].
  cbn [map] in H. injection H as Hx H. simpl. rewrite Hx, (IH qs' H). reflexivity.
Qed.

Lemma answer_question_as_list (i a : pystr) (app : IncubatorApplication) :
  answer_question i a app
  = (existsb (fun q => eqb (question_id q) i) (questions app),
     set_questions app (answered_with (questions app) i a)).
Proof.
  unfold answer_question, answered_with.
  destruct (answer_first (questions app) i a) as [qs|] eqn:E.
  - f_equal. destruct (existsb _ (questions app)) eqn:Ex; [reflexivity|].
    apply (answer_first_none (questions app) i a) in Ex. congruence.
  - apply (answer_first_none (questions app) i a) in E. rewrite E, set_questions_same.
    reflexivity.
Qed.

(** X20. Manual answers to different ids commute.  Two calls of
    [answer_question] with different ids leave the same application in
    either order, and each returns what it would have returned alone. *)
Theorem answer_question_commute (i a j b : pystr) (app : IncubatorApplication) :
  eqb i j = false ->
  snd (answer_question j b (snd (answer_question i a app)))
    = snd (answer_question i a (snd (answer_question j b app)))
  /\ fst (answer_question j b (snd (answer_question i a app)))
     = fst (answer_question j b app)
  /\ fst (answer_question i a (snd (answer_question j b app)))
     = fst (answer_question i a app).
Proof.
  intro Hij. rewrite !answer_question_as_list. cbn [fst snd questions set_questions].
  split; [|split].
  - rewrite (answered_with_commute (questions app) i a j b Hij). reflexivity.
  - apply existsb_ids, answered_with_ids.
  - apply existsb_ids, answered_with_ids.
Qed.

Lemma answer_question_commute_witness :
  snd (answer_question (py "q1") (py "yes")
         (snd (answer_question (py "q0") (py "us") duplicate_app)))
  = snd (answer_question (py "q0") (py "us")
           (snd (answer_question (py "q1") (py "yes") duplicate_app))).
Proof.
  exact (proj1 (answer_question_commute (py "q0") (py "us") (py "q1") (py "yes")
                  duplicate_app eq_refl)).
Defined.

(* ================================================================== *)
(** * Properties of the [view] command *)
(* ================================================================== *)

Lemma view_answers_exported (i : nat) (qs : list IncubatorQuestion) :
  View.view_answers i (map answer_entry qs) = Some (answer_blocks i qs, None).
Proof.
  revert i; induction qs as [|q qs IH]; intro i; [reflexivity|].
  cbn [map answer_blocks]. unfold answer_entry at 1. cbn [View.view_answers].
  rewrite IH. reflexivity.
Qed.

Lemma answer_blocks_length (i : nat) (qs : list IncubatorQuestion) :
  length (answer_blocks i qs) = 4 * length qs.
Proof.
  revert i; induction qs as [|q qs IH]; intro i; [reflexivity|].
  cbn [answer_blocks length]. rewrite IH. lia.
Qed.

(** X21. Viewing an export.  [view] on the document that [export_answers]
    writes raises nothing.  It echoes the three header messages with the
    name, the URL and the deadline, and then four messages per answered
    question, in the order of the questions: a title "Q<i>: <question
    text>", a rule of 40 dashes, the answer followed by a newline, and an
    empty message.  The number [i] counts the answered questions from 1: it
    is not the position of the question when an earlier one is unanswered. *)
Theorem view_of_export (app : IncubatorApplication) :
  View.view_tree (PDict (export_document app))
  = Some ([ 10%N :: py "====== " ++ program_name app ++ py " ======";
            py "URL: " ++ application_url app;
            py "Deadline: " ++ deadline app ++ [10%N] ]
          ++ answer_blocks 1 (filter answered (questions app)), None)
  /\ length (answer_blocks 1 (filter answered (questions app)))
     = 4 * length (filter answered (questions app)).
Proof.
  split.
  - unfold View.view_tree.
    change (dict_get (export_document app) (py "program_name"))
      with (Some (PStr (program_name app))).
    change (dict_get (export_document app) (py "application_url"))
      with (Some (PStr (application_url app))).
    change (dict_get (export_document app) (py "deadline"))
      with (Some (PStr (deadline app))).
    change (get_or (export_document app) (py "answers") (PList []))
      with (PList (map answer_entry (filter answered (questions app)))).
    cbn [View.shown py_iter]. rewrite view_answers_exported. reflexivity.
  - apply answer_blocks_length.
Qed.

Lemma view_answers_stops (i : nat) (qs : list IncubatorQuestion) (v : pyval)
    (rest : list pyval) :
  not_object v = true ->
  View.view_answers i (map answer_entry qs ++ v :: rest)
  = Some (answer_blocks i qs, Some AttributeError).
Proof.
  intro Hv. revert i; induction qs as [|q qs IH]; intro i.
  - destruct v; try discriminate Hv; reflexivity.
  - cbn [map app answer_blocks]. unfold answer_entry at 1. cbn [View.view_answers].
    rewrite IH. reflexivity.
Qed.

(** X22. Viewing a damaged file.  When the list of answers of the stored
    file holds an element that is not an object, [view] has already echoed
    the header and the four messages of each answer before that element
    when the exception is raised; nothing of the elements after it is
    shown. *)
Theorem view_stops_at_non_object (name url dl : pystr)
    (qs : list IncubatorQuestion) (v : pyval) (rest : list pyval) :
  not_object v = true ->
  View.view_tree (stored_application name url dl (map answer_entry qs ++ v :: rest))
  = Some ([ 10%N :: py "====== " ++ name ++ py " ======";
            py "URL: " ++ url;
            py "Deadline: " ++ dl ++ [10%N] ] ++ answer_blocks 1 qs,
          Some AttributeError).
Proof.
  intro Hv. unfold View.view_tree, stored_application.
  change (dict_get _ (py "program_name")) with (Some (PStr name)).
  change (dict_get _ (py "application_url")) with (Some (PStr url)).
  change (dict_get _ (py "deadline")) with (Some (PStr dl)).
  change (get_or _ (py "answers") (PList []))
    with (PList (map answer_entry qs ++ v :: rest)).
  cbn [View.shown py_iter]. rewrite (view_answers_stops 1 qs v rest Hv). reflexivity.
Qed.

Lemma view_stops_at_non_object_witness :
  not_object (PInt 3) = true
  /\ View.view_tree
       (stored_application (py "P") (py "u") (py "d")
          (map answer_entry [q_done] ++ PInt 3 :: [answer_entry q_done]))
     = Some ([ 10%N :: py "====== " ++ py "P" ++ py " ======";
               py "URL: " ++ py "u";
               py "Deadline: " ++ py "d" ++ [10%N] ] ++ answer_blocks 1 [q_done],
             Some AttributeError).
Proof.
  split; [reflexivity|].
  apply (view_stops_at_non_object (py "P") (py "u") (py "d") [q_done] (PInt 3)
           [answer_entry q_done]).
  reflexivity.
Defined.
